(** * VikingFS: tiered summaries, query routing and saving statistics

    A shallow embedding of the Python sources

      - [tools/summarizer.py]           (class [VikingSummarizer]),
      - [integration/openclaw_bridge.py] (class [OpenClawVikingBridge]),
      - [integration/bridge_v2.py]       (class [OpenClawVikingBridgeV2]),

    followed by the properties of the specification that concern them.

    Conventions of the embedding.

    - A Python [str] is a list of Unicode code points ([Z]); [len], slices
      and [in] therefore count code points, as Python does.  Literals are
      written [u "..."], which decodes the UTF-8 bytes of a Rocq string.
    - A Python [float] is a rational ([Q]).  All the numbers the code
      handles are small multiples of 1/4 and quotients of them, and the
      properties below are about which formula is evaluated, not about
      rounding.
    - A Python exception is a value of [exn]; a method that can raise
      returns [res A].  A method that mutates [self.stats] takes the old
      record and returns the new one.
    - The file system is a value: a directory is missing or lists its
      [*.md] files in the order [glob] yields them; a file has a
      modification time, a size and contents, each of which the operating
      system can refuse with an [OSError].
    - Python's Unicode tables ([str.lower], the classes [\d] and [\w], the
      extra matches of [re.IGNORECASE]) are parameters of the definitions
      that use them. *)

From Stdlib Require Import ZArith QArith Qround Lia String Ascii.
From stdpp Require Import base option list gmap.
From Stdlib Require DecimalString.
From Stdlib Require Import Lqa Sorted.

Set Warnings "-register-all".
Set Default Proof Using "Type".

Local Open Scope Z_scope.

(** ** Python strings *)

Module Py.

Definition char := Z.
Definition str := list char.

(** UTF-8 decoding of a byte sequence, used for literals only. *)
Fixpoint utf8 (bs : list Z) : str :=
  match bs with
  | [] => []
  | b0 :: r0 =>
    if b0 <? 128 then b0 :: utf8 r0
    else if b0 <? 224 then
      match r0 with
      | b1 :: r1 => ((b0 - 192) * 64 + (b1 - 128)) :: utf8 r1
      | _ => []
      end
    else if b0 <? 240 then
      match r0 with
      | b1 :: b2 :: r2 =>
        ((b0 - 224) * 4096 + (b1 - 128) * 64 + (b2 - 128)) :: utf8 r2
      | _ => []
      end
    else
      match r0 with
      | b1 :: b2 :: b3 :: r3 =>
        ((b0 - 240) * 262144 + (b1 - 128) * 4096 + (b2 - 128) * 64
         + (b3 - 128)) :: utf8 r3
      | _ => []
      end
  end.

Definition u (s : string) : str :=
  utf8 (map (fun a => Z.of_N (N_of_ascii a)) (list_ascii_of_string s)).
Arguments u s%_string.

(** [len], of a string or of a list. *)
Definition len {A} (s : list A) : Z := Z.of_nat (length s).

(** The line feed, [chr(10)]. *)
Definition LF : str := [10].

Definition str_eqb (a b : str) : bool := bool_decide (a = b).

(** [s[:n]], also for a negative [n]. *)
Definition slice_to (n : Z) (s : str) : str :=
  if 0 <=? n then take (Z.to_nat n) s
  else take (length s - Z.to_nat (- n)) s.

(** [s[-n:]] for a positive constant [n], on any list. *)
Definition last_n {A} (n : nat) (l : list A) : list A :=
  drop (length l - n) l.

(** [str.isspace] on one code point (CPython's [_PyUnicode_IsWhitespace]). *)
Definition isspace (c : char) : bool :=
  ((9 <=? c) && (c <=? 13)) || ((28 <=? c) && (c <=? 32))
  || (c =? 133) || (c =? 160) || (c =? 5760)
  || ((8192 <=? c) && (c <=? 8202))
  || (c =? 8232) || (c =? 8233) || (c =? 8239) || (c =? 8287)
  || (c =? 12288).

Fixpoint lstrip (s : str) : str :=
  match s with
  | c :: r => if isspace c then lstrip r else s
  | [] => []
  end.

Definition rstrip (s : str) : str := reverse (lstrip (reverse s)).

Definition strip (s : str) : str := rstrip (lstrip s).

Fixpoint startswith (p s : str) : bool :=
  match p, s with
  | [], _ => true
  | a :: p', b :: s' => (a =? b) && startswith p' s'
  | _ :: _, [] => false
  end.

(** [sub in s]. *)
Fixpoint contains (sub s : str) : bool :=
  startswith sub s ||
  match s with
  | [] => false
  | _ :: r => contains sub r
  end.

(** [any(word in s for word in words)] *)
Definition any_in (words : list str) (s : str) : bool :=
  existsb (fun word => contains word s) words.

(** [s.split(sep)] for a non-empty [sep]: [cur] is the piece being read
    (reversed), [skip] the number of characters of a separator already
    recognised that are still to be passed over. *)
Fixpoint split_go (sep : str) (skip : nat) (cur : str) (s : str)
  : list str :=
  match s with
  | [] => [reverse cur]
  | c :: r =>
    match skip with
    | S k => split_go sep k cur r
    | O =>
      if startswith sep s
      then reverse cur :: split_go sep (length sep - 1) [] r
      else split_go sep O (c :: cur) r
    end
  end.

Definition split (sep s : str) : list str := split_go sep 0 [] s.

(** [s.replace(old, new)] for a non-empty [old]. *)
Fixpoint replace_go (old new : str) (skip : nat) (s : str) : str :=
  match s with
  | [] => []
  | c :: r =>
    match skip with
    | S k => replace_go old new k r
    | O =>
      if startswith old s
      then new ++ replace_go old new (length old - 1) r
      else c :: replace_go old new O r
    end
  end.

Definition replace (old new s : str) : str := replace_go old new 0 s.

(** [sep.join(parts)]. *)
Fixpoint join (sep : str) (parts : list str) : str :=
  match parts with
  | [] => []
  | [p] => p
  | p :: rest => p ++ sep ++ join sep rest
  end.

(** [str(n)] for an integer. *)
Definition str_of_int (n : Z) : str :=
  u (DecimalString.NilZero.string_of_int (Z.to_int n)).

(** Exceptions and results. *)
Inductive exn :=
| OSError (errno : Z)
| JSONDecodeError
| TypeError
| AttributeError
| KeyError
| ZeroDivisionError.

Inductive res (A : Type) :=
| Ret (a : A)
| Raise (e : exn).
Arguments Ret {A} a.
Arguments Raise {A} e.

#[global] Instance res_ret : MRet res := fun A a => Ret a.

#[global] Instance res_bind : MBind res := fun A B f m =>
  match m with
  | Ret a => f a
  | Raise e => Raise e
  end.

(** [x < y] on numbers is decided by computation. *)
#[global] Instance Qlt_decision (x y : Q) : Decision (x < y)%Q :=
  match Qlt_le_dec x y with
  | left H => left H
  | right H => right (Qle_not_lt _ _ H)
  end.

(** [try: m  except: h] with a bare [except]. *)
Definition try_except {A} (m : res A) (h : A) : A :=
  match m with
  | Ret a => a
  | Raise _ => h
  end.

End Py.

Import Py.

(** ** JSON values, as [json.load] returns them *)

Module Json.

Inductive json :=
| JNull
| JBool (b : bool)
| JInt (n : Z)
| JFloat (q : Q)
| JStr (s : str)
| JArr (l : list json)
| JObj (o : gmap str json).

Definition dict := gmap str json.

(** [{**d, **u}]: the keys of [u] win. *)
Definition merge (d u0 : dict) : dict := u0 ∪ d.

(** [j.get(k, dflt)]: an [AttributeError] unless [j] is a dict. *)
Definition get (j : json) (k : str) (dflt : json) : res json :=
  match j with
  | JObj o => Ret (default dflt (o !! k))
  | _ => Raise AttributeError
  end.

(** [j[k]]: a [KeyError] for a missing key, a [TypeError] unless [j] is a
    dict (the keys used are strings). *)
Definition item (j : json) (k : str) : res json :=
  match j with
  | JObj o =>
    match o !! k with
    | Some v => Ret v
    | None => Raise KeyError
    end
  | _ => Raise TypeError
  end.

(** Truth value of a JSON value in a condition. *)
Definition truthy (j : json) : bool :=
  match j with
  | JNull => false
  | JBool b => b
  | JInt n => negb (n =? 0)
  | JFloat q => negb (Qeq_bool q 0)
  | JStr s => negb (bool_decide (s = []))
  | JArr l => negb (bool_decide (length l = 0%nat))
  | JObj o => negb (bool_decide (size o = 0%nat))
  end.

(** [j == "literal"]. *)
Definition eq_str (j : json) (s : str) : bool :=
  match j with
  | JStr s' => str_eqb s' s
  | _ => false
  end.

(** The number a value stands for in a comparison or in arithmetic;
    [None] where Python raises a [TypeError]. *)
Definition number (j : json) : option Q :=
  match j with
  | JInt n => Some (inject_Z n)
  | JFloat q => Some q
  | JBool b => Some (if b then 1%Q else 0%Q)
  | _ => None
  end.

End Json.

(** ** Files *)

Module Fs.

(** A JSON file on disk, as [path.exists()], [open] and [json.load] see
    it. *)
Inductive json_file (A : Type) :=
| Missing
| Unreadable (errno : Z)
| Malformed
| Parsed (a : A).
Arguments Missing {A}.
Arguments Unreadable {A} errno.
Arguments Malformed {A}.
Arguments Parsed {A} a.

Definition exists_ {A} (f : json_file A) : bool :=
  match f with
  | Missing => false
  | _ => true
  end.

(** [with open(path) as f: json.load(f)] on an existing file. *)
Definition json_load {A} (f : json_file A) : res A :=
  match f with
  | Parsed a => Ret a
  | Malformed => Raise JSONDecodeError
  | Unreadable n => Raise (OSError n)
  | Missing => Raise (OSError 2)
  end.

(** One [*.md] file of a tier directory. *)
Record file := {
  name : str;
  st_mtime : res Q;
  st_size : res Z;
  read : res str
}.

(** A tier directory: missing, or the files [glob("*.md")] lists. *)
Inductive tier_dir :=
| NoDir
| Dir (md_files : list file).

Inductive tier := L0 | L1 | L2.

#[global] Instance tier_eq_dec : EqDecision tier.
Proof. solve_decision. Defined.

Definition tier_name (t : tier) : str :=
  match t with
  | L0 => u "L0"
  | L1 => u "L1"
  | L2 => u "L2"
  end.

End Fs.

Import Json Fs.

(** ** tools/summarizer.py: [VikingSummarizer] *)

Module Summarizer.

Definition default_config : json :=
  JObj {[ u "compression_rules" :=
            JObj (<[ u "L0_max_chars" := JInt 100 ]>
                 (<[ u "L1_max_chars" := JInt 500 ]>
                 {[ u "L2_full_content" := JBool true ]})) ]}.

(** [load_config]: the parsed file is the configuration, whatever it
    holds; the default is used only when there is no file. *)
Definition load_config (config_path : json_file json) : res json :=
  if exists_ config_path then json_load config_path
  else Ret default_config.

(** [self.config.get("compression_rules", {}).get(key, dflt)]. *)
Definition max_chars (config : json) (key : str) (dflt : Z) : res json :=
  rules ← Json.get config (u "compression_rules") (JObj ∅);
  Json.get rules key (JInt dflt).

(** [s[:bound]] for a bound read from the configuration. *)
Definition slice_upto (bound : json) (s : str) : res str :=
  match bound with
  | JInt n => Ret (slice_to n s)
  | JBool b => Ret (slice_to (if b then 1 else 0) s)
  | JNull => Ret s
  | _ => Raise TypeError
  end.

Section Patterns.

(** Unicode tables of the [re] module. *)
Variable isdecimal : char -> bool.          (* \d *)
Variable isword : char -> bool.             (* \w *)
Variable fold_extra : char -> char -> bool. (* other case variants *)

(** One character against a literal under [re.IGNORECASE]. *)
Definition ci (c x : char) : bool := (c =? x) || fold_extra c x.

Definition ci_in (c : char) (set : str) : bool :=
  existsb (ci c) set.

(** [^\s*[-*•]\s*] *)
Fixpoint re_bullet (s : str) : bool :=
  match s with
  | [] => false
  | c :: r => ci_in c (u "-*•") || (isspace c && re_bullet r)
  end.

(** [\d+\.] at the start of [s]. *)
Fixpoint digits_dot (s : str) : bool :=
  match s with
  | [] => false
  | c :: r =>
    isdecimal c &&
    (match r with
     | d :: _ => ci d 46
     | [] => false
     end || digits_dot r)
  end.

(** [^\s*\d+\.\s*] *)
Fixpoint re_numbered (s : str) : bool :=
  digits_dot s ||
  match s with
  | [] => false
  | c :: r => isspace c && re_numbered r
  end.

(** [#+\s+] at the start of [s]. *)
Fixpoint hashes_space (s : str) : bool :=
  match s with
  | [] => false
  | c :: r =>
    ci c 35 &&
    (match r with
     | d :: _ => isspace d
     | [] => false
     end || hashes_space r)
  end.

(** [^\s*#+\s+] *)
Fixpoint re_heading (s : str) : bool :=
  hashes_space s ||
  match s with
  | [] => false
  | c :: r => isspace c && re_heading r
  end.

Definition word_of (c : option char) : bool :=
  match c with
  | Some x => isword x
  | None => false
  end.

(** [\b] between the characters [a] and [b]. *)
Definition boundary (a b : option char) : bool :=
  xorb (word_of a) (word_of b).

(** The literal [w] at the start of [s], then [\b]; [prev] is the
    character before. *)
Fixpoint lit_then_boundary (w : str) (prev : option char) (s : str)
  : bool :=
  match w with
  | [] => boundary prev (head s)
  | x :: w' =>
    match s with
    | c :: r => ci c x && lit_then_boundary w' (Some c) r
    | [] => false
    end
  end.

(** [\b(?:w1|w2|...)\b] somewhere in [s]. *)
Fixpoint re_words (ws : list str) (prev : option char) (s : str)
  : bool :=
  (boundary prev (head s)
   && existsb (fun w => lit_then_boundary w prev s) ws)
  ||
  match s with
  | [] => false
  | c :: r => re_words ws (Some c) r
  end.

Definition important_patterns : list (str -> bool) :=
  [ re_bullet;
    re_numbered;
    re_words [u "TODO"; u "FIXME"; u "IMPORTANT"; u "NOTE";
              u "决策"; u "重要"] None;
    re_words [u "完成"; u "进行中"; u "阻塞"] None;
    re_heading ].

Definition is_important (line : str) : bool :=
  existsb (fun p => p line) important_patterns.

Fixpoint key_points_scan (max_points : Z) (lines : list str)
         (key_points : list str) : list str :=
  match lines with
  | [] => key_points
  | raw :: rest =>
    let line := strip raw in
    if bool_decide (line = []) || (len line <? 10)
    then key_points_scan max_points rest key_points
    else if is_important line then
      let key_points' := key_points ++ [line] in
      if len key_points' >=? max_points then key_points'
      else key_points_scan max_points rest key_points'
    else key_points_scan max_points rest key_points
  end.

Definition extract_key_points (text : str) (max_points : Z)
  : list str :=
  key_points_scan max_points (split LF (strip text)) [].

(** The title and the first meaningful line found by the loop of
    [generate_l0_summary]. *)
Fixpoint l0_scan (lines : list str) (title first_content : str)
  : str * str :=
  match lines with
  | [] => (title, first_content)
  | raw :: rest =>
    let line := strip raw in
    if bool_decide (line = []) then l0_scan rest title first_content
    else
      let title' :=
        if startswith (u "# ") line
        then strip (replace (u "# ") [] line)
        else if bool_decide (title = []) && (len line <? 50)
             then slice_to 50 line
             else title in
      if bool_decide (first_content = []) && (20 <? len line)
      then (title', slice_to 100 line)
      else l0_scan rest title' first_content
  end.

Definition l0_combine (text title first_content : str) : str :=
  if negb (bool_decide (title = []))
     && negb (bool_decide (first_content = []))
  then title ++ u " | " ++ slice_to 50 first_content ++ u "..."
  else if negb (bool_decide (title = []))
  then slice_to 80 title ++ u "..."
  else if negb (bool_decide (first_content = []))
  then slice_to 80 first_content ++ u "..."
  else if 80 <? len text then slice_to 80 text ++ u "..."
  else text.

Definition generate_l0_summary (config : json) (text : str)
  : res str :=
  let '(title, first_content) :=
    l0_scan (split LF (strip text)) [] [] in
  let summary := l0_combine text title first_content in
  max_chars ← max_chars config (u "L0_max_chars") 100;
  slice_upto max_chars summary.

(** The section loop of [generate_l1_overview]. *)
Fixpoint sections_scan (lines : list str) (sections : list str)
         (current_section : str) : list str * str :=
  match lines with
  | [] => (sections, current_section)
  | raw :: rest =>
    let line := strip raw in
    let flushed :=
      if bool_decide (current_section = []) then sections
      else sections ++ [current_section] in
    if startswith (u "## ") line
    then sections_scan rest flushed
           (replace (u "## ") [] line ++ u ": ")
    else if startswith (u "# ") line
    then sections_scan rest flushed []
    else if negb (bool_decide (current_section = []))
            && negb (bool_decide (line = []))
            && (10 <? len line)
    then sections_scan rest sections
           (current_section ++ slice_to 100 line ++ u "... ")
    else sections_scan rest sections current_section
  end.

(** [f"  {i}. {point[:80]}"] for [enumerate(points, i)]. *)
Fixpoint numbered (i : Z) (points : list str) : list str :=
  match points with
  | [] => []
  | point :: rest =>
    (u "  " ++ str_of_int i ++ u ". " ++ slice_to 80 point)
      :: numbered (i + 1) rest
  end.

Definition generate_l1_overview (config : json) (text : str)
  : res str :=
  let key_points := extract_key_points text 5 in
  let '(sections0, current_section) :=
    sections_scan (split LF (strip text)) [] [] in
  let sections :=
    if bool_decide (current_section = []) then sections0
    else sections0 ++ [current_section] in
  let parts1 :=
    if bool_decide (key_points = []) then []
    else u "关键点:" :: numbered 1 (take 3 key_points) in
  let parts2 :=
    if bool_decide (sections = []) then parts1
    else parts1 ++ u "章节:"
           :: map (fun section => u "  • " ++ slice_to 100 section)
                  (take 4 sections) in
  let overview_parts :=
    if bool_decide (parts2 = []) then
      let paragraphs :=
        map strip
          (filter (fun p => 20 < len (strip p))
                  (split (LF ++ LF) text)) in
      if bool_decide (paragraphs = []) then parts2
      else parts2 ++ u "主要内容:"
             :: map (fun para => u "  • " ++ slice_to 150 para
                                   ++ u "...")
                    (take 2 paragraphs)
    else parts2 in
  let overview := join LF overview_parts in
  max_chars ← max_chars config (u "L1_max_chars") 500;
  slice_upto max_chars overview.

End Patterns.

End Summarizer.

(** ** integration/openclaw_bridge.py: [OpenClawVikingBridge]

    Wall-clock readings ([timestamp], [response_time_ms]) are left out of
    the records; nothing is computed from them. *)

Module Bridge.

Definition default_config : dict :=
  <[ u "version" := JStr (u "1.0.0") ]>
  (<[ u "integration_mode" := JStr (u "hybrid") ]>
  (<[ u "auto_migrate" := JBool true ]>
  (<[ u "cache_enabled" := JBool true ]>
  (<[ u "cache_ttl_seconds" := JInt 3600 ]>
  (<[ u "token_optimization" :=
        JObj (<[ u "enabled" := JBool true ]>
             (<[ u "target_saving_rate" := JFloat (7 # 10) ]>
             {[ u "fallback_to_traditional" := JBool true ]})) ]>
  (<[ u "query_classification" :=
        JObj (<[ u "enabled" := JBool true ]>
             {[ u "min_confidence" := JFloat (6 # 10) ]}) ]>
  {[ u "monitoring" :=
        JObj (<[ u "enabled" := JBool true ]>
             {[ u "log_interval_queries" := JInt 10 ]}) ]})))))).

(** [{**default_config, **user_config}]: only a mapping can be
    unpacked. *)
Definition unpack_over (d : dict) (user_config : json) : res dict :=
  match user_config with
  | JObj o => Ret (merge d o)
  | _ => Raise TypeError
  end.

(** [load_config]: returns [self.config] and the file as it is left
    ([save_config] writes the default when there was none). *)
Definition load_config (config_path : json_file json)
  : res (dict * json_file json) :=
  if exists_ config_path then
    user_config ← json_load config_path;
    config ← unpack_over default_config user_config;
    mret (config, config_path)
  else mret (default_config, Parsed (JObj default_config)).

Record history_entry := {
  h_query : str;
  h_type : str;
  h_confidence : Q;
  h_viking_tokens : Q;
  h_traditional_tokens : Q;
  h_saving_rate : Q
}.

Record stats := {
  total_queries : Z;
  viking_queries : Z;
  traditional_queries : Z;
  total_tokens_viking : Q;
  total_tokens_traditional : Q;
  total_tokens_saved : Q;
  average_saving_rate : Q;
  query_type_distribution : gmap str Z;
  last_reset : str;
  query_history : list history_entry
}.

Definition default_stats (now : str) : stats := {|
  total_queries := 0;
  viking_queries := 0;
  traditional_queries := 0;
  total_tokens_viking := 0;
  total_tokens_traditional := 0;
  total_tokens_saved := 0;
  average_saving_rate := 0;
  query_type_distribution := ∅;
  last_reset := now;
  query_history := []
|}.

(** [load_stats]: a file that does not parse yields the default; a file
    that cannot be opened raises. *)
Definition load_stats (now : str) (stats_path : json_file stats)
  : res stats :=
  match stats_path with
  | Missing => Ret (default_stats now)
  | Unreadable n => Raise (OSError n)
  | Malformed => Ret (default_stats now)
  | Parsed st => Ret st
  end.

(** The object: [self.config], [self.stats] and the two things on disk
    the methods below touch. *)
Record bridge := {
  config : dict;
  stats_ : stats;
  stats_path : json_file stats;
  viking : str -> tier -> tier_dir
}.

Definition save_stats (b : bridge) : bridge :=
  {| config := config b; stats_ := stats_ b;
     stats_path := Parsed (stats_ b); viking := viking b |}.

Record query_info := {
  query : str;
  primary_type : str;
  confidence : Q;
  type_scores : list (str * Q)
}.

Definition type_patterns : list (str * list str) :=
  [ (u "factual",
     [u "什么时候"; u "哪里"; u "谁"; u "是什么"; u "多少"; u "日期";
      u "时间"; u "列出"; u "有哪些"]);
    (u "creative",
     [u "想法"; u "建议"; u "创意"; u "怎么办"; u "如何"; u "设计";
      u "改进"; u "优化"]);
    (u "administrative",
     [u "状态"; u "进度"; u "检查"; u "报告"; u "总结"; u "概览";
      u "汇总"]);
    (u "analytical",
     [u "为什么"; u "分析"; u "原因"; u "对比"; u "优劣"; u "优缺点";
      u "评估"]) ].

Definition has_question_mark (query : str) : bool :=
  contains (u "?") query || contains (u "？") query.

(** The score of one type: one per pattern found, plus a half for a
    question mark on [factual]. *)
Definition score_of (query query_lower : str) (q_type : str)
           (patterns : list str) : Q :=
  let score :=
    inject_Z (len (filter (fun p => contains p query_lower) patterns))
  in
  if str_eqb q_type (u "factual") && has_question_mark query
  then (score + (1 # 2))%Q
  else score.

(** [max(d, key=d.get)] from the current best: a later key replaces it
    only with a strictly larger value. *)
Fixpoint max_by_value (best : str * Q) (l : list (str * Q)) : str * Q :=
  match l with
  | [] => best
  | x :: r =>
    if Qlt_le_dec (snd best) (snd x) then max_by_value x r
    else max_by_value best r
  end.

Definition sum_values (l : list (str * Q)) : Q :=
  foldr (fun x acc => snd x + acc)%Q 0%Q l.

Section Classify.

Variable lower : str -> str.  (* [str.lower] *)

Definition classify_query (query : str) : query_info :=
  let query_lower := lower query in
  let type_scores :=
    filter (fun x => (0 < snd x)%Q)
      (map (fun tp => (fst tp,
                       score_of query query_lower (fst tp) (snd tp)))
           type_patterns) in
  match type_scores with
  | first :: others =>
    let best := max_by_value first others in
    let total := sum_values type_scores in
    {| query := query;
       primary_type := fst best;
       confidence :=
         (snd best / (if Qeq_bool total 0 then 1 else total))%Q;
       type_scores := type_scores |}
  | [] =>
    {| query := query;
       primary_type := u "factual";
       confidence := (1 # 2)%Q;
       type_scores := [] |}
  end.

End Classify.

(** [load_tier_content]: [None] for a missing directory, an empty
    listing, or a file that cannot be read; otherwise the first file
    listed. *)
Definition load_tier_content (b : bridge) (t : tier)
           (context_type : str) : option str :=
  match viking b context_type t with
  | NoDir => None
  | Dir [] => None
  | Dir (file_path :: _) =>
    try_except (content ← read file_path; mret (Some content)) None
  end.

(** [if tier_content:] *)
Definition present (tier_content : option str) : list str :=
  match tier_content with
  | Some (c :: r) => [c :: r]
  | _ => []
  end.

Definition load_parts (b : bridge) (tiers : list tier)
           (context_type : str) : list str :=
  flat_map (fun t => present (load_tier_content b t context_type)) tiers.

Record tier_info := {
  strategy : str;
  tiers : list tier
}.

Definition query_viking_only (b : bridge) (qi : query_info)
           (context_type : str) : option str * tier_info :=
  let tiers :=
    if str_eqb (primary_type qi) (u "factual") then [L0; L1]
    else if str_eqb (primary_type qi) (u "creative") then [L0; L1; L2]
    else if str_eqb (primary_type qi) (u "administrative") then [L0]
    else if str_eqb (primary_type qi) (u "analytical") then [L1; L2]
    else [L0; L1] in
  (Some (join (LF ++ LF) (load_parts b tiers context_type)),
   {| strategy := u "viking_only"; tiers := tiers |}).

(** [self.config["query_classification"]["min_confidence"]], as the
    number the comparison uses. *)
Definition min_confidence (config : dict) : res Q :=
  qc ← item (JObj config) (u "query_classification");
  mc ← item qc (u "min_confidence");
  match number mc with
  | Some th => Ret th
  | None => Raise TypeError
  end.

Definition hybrid_tiers (config : dict) (qi : query_info)
  : res (list tier * str) :=
  th ← min_confidence config;
  if Qlt_le_dec (confidence qi) th
  then mret ([L0; L1; L2], u "hybrid_low_confidence")
  else if str_eqb (primary_type qi) (u "administrative")
  then mret ([L0], u "hybrid_admin")
  else if str_eqb (primary_type qi) (u "factual")
          || str_eqb (primary_type qi) (u "analytical")
  then mret ([L0; L1], u "hybrid_factual")
  else mret ([L0; L1; L2], u "hybrid_creative").

Definition query_hybrid (b : bridge) (qi : query_info)
           (context_type : str) : res (option str * tier_info) :=
  '(tiers, strategy) ← hybrid_tiers (config b) qi;
  mret (Some (join (LF ++ LF) (load_parts b tiers context_type)),
        {| strategy := strategy; tiers := tiers |}).

Definition query_traditional (b : bridge) (qi : query_info)
           (context_type : str) : option str * tier_info :=
  (load_tier_content b L2 context_type,
   {| strategy := u "traditional"; tiers := [L2] |}).

(** [estimate_traditional_size]: the sizes of the first three files of
    L2, a file whose [stat] fails counting for nothing. *)
Definition estimate_traditional_size (b : bridge) (context_type : str)
  : Z :=
  match viking b context_type L2 with
  | NoDir => 0
  | Dir [] => 0
  | Dir files =>
    foldl (fun total_size f => try_except
                                 (sz ← st_size f; mret (total_size + sz))
                                 total_size)
          0 (take 3 files)
  end.

(** [total % interval == 0] for an interval read from the
    configuration. *)
Definition divides (interval : json) (total : Z) : res bool :=
  match interval with
  | JInt n =>
    if n =? 0 then Raise ZeroDivisionError
    else Ret (total mod n =? 0)
  | JBool true => Ret true
  | JBool false => Raise ZeroDivisionError
  | JFloat q =>
    if Qeq_bool q 0 then Raise ZeroDivisionError
    else Ret (Qeq_bool (inject_Z (Qfloor (inject_Z total / q)))
                       (inject_Z total / q))%Q
  | _ => Raise TypeError
  end.

Definition bump (q_type : str) (d : gmap str Z) : gmap str Z :=
  <[ q_type := default 0 (d !! q_type) + 1 ]> d.

(** The part of [update_stats] that rewrites [self.stats]. *)
Definition record_query (st : stats) (qi : query_info)
           (viking_tokens traditional_tokens saving_rate : Q) : stats :=
  let total_queries' := total_queries st + 1 in
  let total_saving := (total_tokens_saved st
                       + (traditional_tokens - viking_tokens))%Q in
  let total_traditional := (total_tokens_traditional st
                            + traditional_tokens)%Q in
  let history := query_history st ++
    [ {| h_query := query qi; h_type := primary_type qi;
         h_confidence := confidence qi;
         h_viking_tokens := viking_tokens;
         h_traditional_tokens := traditional_tokens;
         h_saving_rate := saving_rate |} ] in
  {| total_queries := total_queries';
     viking_queries := viking_queries st + 1;
     traditional_queries := traditional_queries st;
     total_tokens_viking := (total_tokens_viking st + viking_tokens)%Q;
     total_tokens_traditional := total_traditional;
     total_tokens_saved := total_saving;
     average_saving_rate :=
       if (0 <? total_queries')
       then if Qlt_le_dec 0 total_traditional
            then (total_saving / total_traditional)%Q
            else average_saving_rate st
       else average_saving_rate st;
     query_type_distribution :=
       bump (primary_type qi) (query_type_distribution st);
     last_reset := last_reset st;
     query_history :=
       if 100 <? len history then last_n 100 history else history |}.

(** [update_stats]: the object afterwards, and whether the periodic
    save raised (the counters are rewritten before it is tried). *)
Definition update_stats (b : bridge) (qi : query_info)
           (viking_tokens traditional_tokens saving_rate : Q)
  : bridge * res unit :=
  let b1 :=
    {| config := config b;
       stats_ := record_query (stats_ b) qi viking_tokens
                              traditional_tokens saving_rate;
       stats_path := stats_path b; viking := viking b |} in
  match
    (monitoring ← item (JObj (config b)) (u "monitoring");
     interval ← item monitoring (u "log_interval_queries");
     divides interval (total_queries (stats_ b1)))
  with
  | Ret true => (save_stats b1, Ret ())
  | Ret false => (b1, Ret ())
  | Raise e => (b1, Raise e)
  end.

Record metadata := {
  m_query : str;
  query_type : str;
  query_confidence : Q;
  response_size_bytes : Z;
  response_tokens_estimated : Q;
  traditional_tokens_estimated : Q;
  token_saving_rate : Q;
  tokens_saved : Q;
  loaded_tiers : list tier
}.

Record response := {
  content : str;
  metadata_ : metadata
}.

Section QueryContext.

Variable lower : str -> str.

(** The strategy chosen by [self.config["integration_mode"]]. *)
Definition dispatch (b : bridge) (qi : query_info)
           (context_type : str) : res (option str * tier_info) :=
  mode ← item (JObj (config b)) (u "integration_mode");
  if eq_str mode (u "viking_only")
  then mret (query_viking_only b qi context_type)
  else if eq_str mode (u "traditional")
  then mret (query_traditional b qi context_type)
  else query_hybrid b qi context_type.

(** [query_context]: the object afterwards and the response, or the
    exception that came out. *)
Definition query_context (b : bridge) (query : str)
           (context_type : str) : bridge * res response :=
  let qi := classify_query lower query in
  match dispatch b qi context_type with
  | Raise e => (b, Raise e)
  | Ret (None, _) => (b, Raise TypeError)   (* len(None) *)
  | Ret (Some content, tier_info) =>
    let response_size := len content in
    let response_tokens := (inject_Z response_size * (1 # 4))%Q in
    let traditional_size := estimate_traditional_size b context_type in
    let traditional_tokens :=
      (inject_Z traditional_size * (1 # 4))%Q in
    let saving_rate :=
      if Qlt_le_dec 0 traditional_tokens
      then (1 - response_tokens / traditional_tokens)%Q else 0%Q in
    let tokens_saved :=
      if Qlt_le_dec 0 traditional_tokens
      then (traditional_tokens - response_tokens)%Q else 0%Q in
    let '(b', r) := update_stats b qi response_tokens
                                 traditional_tokens saving_rate in
    (b',
     _ ← r;
     mret {| content := content;
             metadata_ :=
               {| m_query := query;
                  query_type := primary_type qi;
                  query_confidence := confidence qi;
                  response_size_bytes := response_size;
                  response_tokens_estimated := response_tokens;
                  traditional_tokens_estimated := traditional_tokens;
                  token_saving_rate := saving_rate;
                  tokens_saved := tokens_saved;
                  loaded_tiers := tiers tier_info |} |})
  end.

End QueryContext.

(** [get_performance_report] reads [self.stats] and changes nothing. *)
Definition get_performance_report (b : bridge)
  : Z * Z * Z * Q * Q :=
  (total_queries (stats_ b), viking_queries (stats_ b),
   traditional_queries (stats_ b), average_saving_rate (stats_ b),
   total_tokens_saved (stats_ b)).

End Bridge.

(** ** integration/bridge_v2.py: [OpenClawVikingBridgeV2] *)

Module BridgeV2.

Definition default_config : dict :=
  <[ u "version" := JStr (u "2.0.0") ]>
  (<[ u "mode" := JStr (u "hybrid") ]>
  (<[ u "auto_summarize" := JBool true ]>
  (<[ u "cache_enabled" := JBool true ]>
  (<[ u "token_optimization" := JBool true ]>
  (<[ u "monitoring" := JBool true ]>
  {[ u "query_classifier" := JBool true ]}))))).

(** [load_config]: whatever goes wrong while reading or merging the
    file, the default comes back. *)
Definition load_config (config_file : json_file json) : dict :=
  if exists_ config_file then
    try_except
      (user_config ← json_load config_file;
       Bridge.unpack_over default_config user_config)
      default_config
  else default_config.

Record history_entry := {
  h_query : str;
  h_type : str;
  h_viking_tokens : Q;
  h_saving_rate : Q
}.

Record stats := {
  queries_total : Z;
  queries_viking : Z;
  tokens_total : Q;
  tokens_saved : Q;
  saving_rate_avg : Q;
  query_types : gmap str Z;
  performance_history : list history_entry
}.

Definition default_stats : stats := {|
  queries_total := 0;
  queries_viking := 0;
  tokens_total := 0;
  tokens_saved := 0;
  saving_rate_avg := 0;
  query_types := ∅;
  performance_history := []
|}.

Definition load_stats (stats_file : json_file stats) : stats :=
  if exists_ stats_file
  then try_except (json_load stats_file) default_stats
  else default_stats.

Record bridge := {
  config : dict;
  stats_ : stats;
  stats_file : json_file stats;
  memory : tier -> tier_dir
}.

Definition save_stats (b : bridge) : bridge :=
  {| config := config b; stats_ := stats_ b;
     stats_file := Parsed (stats_ b); memory := memory b |}.

Record query_info := {
  type : str;
  confidence : Q;
  original : str
}.

Section Classify.

Variable lower : str -> str.  (* [str.lower] *)

Definition classify_query (query : str) : query_info :=
  let query_lower := lower query in
  let '(q_type, confidence) :=
    if any_in [u "什么时候"; u "日期"; u "时间"; u "几号"] query_lower
    then (u "factual_date", 9 # 10)
    else if any_in [u "检查"; u "状态"; u "报告"; u "总结"] query_lower
    then (u "administrative", 8 # 10)
    else if any_in [u "分析"; u "为什么"; u "原因"; u "对比"] query_lower
    then (u "analytical", 7 # 10)
    else if any_in [u "如何"; u "改进"; u "创意"; u "建议"] query_lower
    then (u "creative", 7 # 10)
    else if any_in [u "列出"; u "有哪些"; u "什么技能"] query_lower
    then (u "factual_list", 8 # 10)
    else if contains (u "?") query || contains (u "？") query
    then (u "factual", 6 # 10)
    else (u "general", 5 # 10) in
  {| type := q_type; confidence := confidence; original := query |}.

End Classify.

Definition get_tier_strategy (config : dict) (query_type : str)
           (confidence : Q) : res (list tier) :=
  query_classifier ← item (JObj config) (u "query_classifier");
  if negb (truthy query_classifier) then mret [L0; L1]
  else if str_eqb query_type (u "administrative") then mret [L0]
  else if str_eqb query_type (u "factual_date")
          || str_eqb query_type (u "factual_list")
          || str_eqb query_type (u "factual")
  then mret [L0; L1]
  else if str_eqb query_type (u "analytical")
  then mret (if decide (7 # 10 < confidence)%Q then [L1; L2]
             else [L0; L1; L2])
  else if str_eqb query_type (u "creative") then mret [L0; L1; L2]
  else mret [L0; L1].

(** The keys [x.stat().st_mtime] of [sorted], taken in listing order:
    the first [stat] that fails raises. *)
Fixpoint keyed (files : list file) : res (list (Q * file)) :=
  match files with
  | [] => mret []
  | f :: rest =>
    k ← st_mtime f;
    ks ← keyed rest;
    mret ((k, f) :: ks)
  end.

(** Stable insertion into a list in descending order of keys: an
    element stays before the later elements of equal key. *)
Fixpoint insert_desc (x : Q * file) (l : list (Q * file))
  : list (Q * file) :=
  match l with
  | [] => [x]
  | y :: r =>
    if decide (fst x < fst y)%Q then y :: insert_desc x r
    else x :: l
  end.

(** [sorted(..., reverse=True)] on the keyed files. *)
Definition sorted_reverse (l : list (Q * file)) : list (Q * file) :=
  foldr insert_desc [] l.

(** [load_tier_content]: the empty string for a missing directory, an
    empty listing, or a newest file that cannot be read. *)
Definition load_tier_content (b : bridge) (t : tier) : res str :=
  match memory b t with
  | NoDir => mret []
  | Dir [] => mret []
  | Dir md_files =>
    ks ← keyed md_files;
    match sorted_reverse ks with
    | (_, latest_file) :: _ => mret (try_except (read latest_file) [])
    | [] => mret []
    end
  end.

(** The loop that fills [content_parts]. *)
Fixpoint load_parts (b : bridge) (tiers : list tier) : res (list str) :=
  match tiers with
  | [] => mret []
  | t :: rest =>
    tier_content ← load_tier_content b t;
    parts ← load_parts b rest;
    mret (if bool_decide (tier_content = []) then parts
          else (u "--- " ++ tier_name t ++ u " ---" ++ LF
                  ++ tier_content) :: parts)
  end.

Definition bump (q_type : str) (d : gmap str Z) : gmap str Z :=
  <[ q_type := default 0 (d !! q_type) + 1 ]> d.

(** The part of [update_stats] that rewrites [self.stats]. *)
Definition record_query (st : stats) (qi : query_info)
           (viking_tokens traditional_tokens saving_rate : Q) : stats :=
  let queries_total' := queries_total st + 1 in
  let total_saved := (tokens_saved st
                      + (traditional_tokens - viking_tokens))%Q in
  let total_traditional :=
    (inject_Z queries_total' * traditional_tokens)%Q in
  let history := performance_history st ++
    [ {| h_query := slice_to 50 (original qi); h_type := type qi;
         h_viking_tokens := viking_tokens;
         h_saving_rate := saving_rate |} ] in
  {| queries_total := queries_total';
     queries_viking := queries_viking st + 1;
     tokens_total := (tokens_total st + viking_tokens)%Q;
     tokens_saved := total_saved;
     saving_rate_avg :=
       if (0 <? queries_total')
       then if decide (0 < total_traditional)%Q
            then (total_saved / total_traditional)%Q
            else saving_rate_avg st
       else saving_rate_avg st;
     query_types := bump (type qi) (query_types st);
     performance_history :=
       if 50 <? len history then last_n 50 history else history |}.

Definition update_stats (b : bridge) (qi : query_info)
           (viking_tokens traditional_tokens saving_rate : Q)
  : bridge :=
  let b1 :=
    {| config := config b;
       stats_ := record_query (stats_ b) qi viking_tokens
                              traditional_tokens saving_rate;
       stats_file := stats_file b; memory := memory b |} in
  if queries_total (stats_ b1) mod 10 =? 0 then save_stats b1 else b1.

Record metadata := {
  m_query : str;
  query_type : str;
  m_confidence : Q;
  strategy : str;
  tiers_loaded : list tier;
  response_chars : Z;
  response_tokens : Q;
  traditional_tokens : Q;
  token_saving_rate : Q;
  m_tokens_saved : Q
}.

Record response := {
  content : str;
  metadata_ : metadata
}.

(** [len(content) * 0.25] *)
Definition estimated_tokens (content : str) : Q :=
  (inject_Z (len content) * (1 # 4))%Q.

Section QueryMemory.

Variable lower : str -> str.

(** The tiers and the name of the strategy, by [self.config["mode"]]. *)
Definition select_tiers (config : dict) (qi : query_info)
  : res (list tier * str) :=
  mode ← item (JObj config) (u "mode");
  if eq_str mode (u "traditional")
  then mret ([L2], u "traditional")
  else if eq_str mode (u "viking")
  then mret ([L0; L1], u "viking_only")
  else
    tiers ← get_tier_strategy config (type qi) (confidence qi);
    mret (tiers, u "hybrid").

(** [query_memory]: the object afterwards and the response, or the
    exception that came out (nothing has been recorded then). *)
Definition query_memory (b : bridge) (user_query : str)
  : bridge * res response :=
  let qi := classify_query lower user_query in
  match
    ('(tiers, strategy) ← select_tiers (config b) qi;
     content_parts ← load_parts b tiers;
     l2_content ← load_tier_content b L2;
     mret (tiers, strategy, content_parts, l2_content))
  with
  | Raise e => (b, Raise e)
  | Ret (tiers, strategy, content_parts, l2_content) =>
    let content := join (LF ++ LF) content_parts in
    let response_chars := len content in
    let response_tokens := estimated_tokens content in
    let traditional_chars := len l2_content in
    let traditional_tokens :=
      if 0 <? traditional_chars
      then (inject_Z traditional_chars * (1 # 4))%Q
      else (response_tokens * 3)%Q in
    let saving_rate :=
      if decide (0 < traditional_tokens)%Q
      then (1 - response_tokens / traditional_tokens)%Q else 0%Q in
    let tokens_saved :=
      if decide (0 < traditional_tokens)%Q
      then (traditional_tokens - response_tokens)%Q else 0%Q in
    (update_stats b qi response_tokens traditional_tokens saving_rate,
     Ret {| content := content;
            metadata_ :=
              {| m_query := user_query;
                 query_type := type qi;
                 m_confidence := confidence qi;
                 strategy := strategy;
                 tiers_loaded := tiers;
                 response_chars := response_chars;
                 response_tokens := response_tokens;
                 traditional_tokens := traditional_tokens;
                 token_saving_rate := saving_rate;
                 m_tokens_saved := tokens_saved |} |})
  end.

End QueryMemory.

(** [get_performance_dashboard] reads [self.stats] and changes nothing. *)
Definition get_performance_dashboard (b : bridge) : Z * Z * Q * Q :=
  (queries_total (stats_ b), queries_viking (stats_ b),
   saving_rate_avg (stats_ b), tokens_saved (stats_ b)).

End BridgeV2.

(** ** integration/bridge_v2.py: [VikingSummarizerSimple] *)

Module SimpleSummarizer.

(** The loop of [generate_l0_summary]: the last dated line seen (cut to
    50 characters) and the first bullets, the loop stopping at the
    third. *)
Fixpoint l0_scan (lines : list str) (date_info : str)
         (key_points : list str) : str * list str :=
  match lines with
  | [] => (date_info, key_points)
  | raw :: rest =>
    let line := strip raw in
    if bool_decide (line = []) then l0_scan rest date_info key_points
    else
      let date_info' :=
        if contains (u "202") line
           && (contains (u "-") line || contains (u "年") line)
        then slice_to 50 line
        else date_info in
      if startswith (u "- ") line || startswith (u "• ") line then
        let key_points' := key_points ++ [line] in
        if len key_points' >=? 3 then (date_info', key_points')
        else l0_scan rest date_info' key_points'
      else l0_scan rest date_info' key_points
  end.

(** One round of the loop over [key_points[:2]]. *)
Definition add_point (summary point : str) : str :=
  if len summary <? 80 then
    (if bool_decide (summary = []) then summary else summary ++ u " | ")
    ++ slice_to 30 (replace (u "• ") [] (replace (u "- ") [] point))
  else summary.

Definition generate_l0_summary (content : str) : str :=
  let '(date_info, key_points) := l0_scan (split LF content) [] [] in
  let summary0 :=
    if bool_decide (date_info = []) then [] else slice_to 50 date_info in
  let summary1 := foldl add_point summary0 (take 2 key_points) in
  let summary :=
    if len summary1 <? 40
    then strip (replace LF (u " ") (slice_to 100 content))
    else summary1 in
  slice_to 100 summary.

(** [if current_chapter:] on a value that starts as [None]. *)
Definition chapter_set (current_chapter : option str) : option str :=
  match current_chapter with
  | Some (c :: r) => Some (c :: r)
  | _ => None
  end.

(** The loop of [generate_l1_overview]. *)
Fixpoint l1_scan (lines : list str) (key_points chapters : list str)
         (current_chapter : option str) : list str * list str :=
  match lines with
  | [] => (key_points, chapters)
  | raw :: rest =>
    let line := strip raw in
    if bool_decide (line = [])
    then l1_scan rest key_points chapters current_chapter
    else if startswith (u "## ") line then
      let chapter := strip (drop 3 line) in
      l1_scan rest key_points (chapters ++ [chapter]) (Some chapter)
    else if startswith (u "- ") line || startswith (u "• ") line
            || startswith (u "1.") line then
      match chapter_set current_chapter with
      | Some chapter =>
        l1_scan rest (key_points ++ [chapter ++ u ": " ++ line]) chapters
                current_chapter
      | None =>
        l1_scan rest (key_points ++ [line]) chapters current_chapter
      end
    else l1_scan rest key_points chapters current_chapter
  end.

(** [f"  {i+1}. {point[:80]}\n"] for [enumerate(points)] from [i]. *)
Fixpoint numbered_lines (i : Z) (points : list str) : str :=
  match points with
  | [] => []
  | point :: rest =>
    u "  " ++ str_of_int (i + 1) ++ u ". " ++ slice_to 80 point ++ LF
      ++ numbered_lines (i + 1) rest
  end.

Fixpoint chapter_lines (chapters : list str) : str :=
  match chapters with
  | [] => []
  | chapter :: rest => u "  • " ++ chapter ++ LF ++ chapter_lines rest
  end.

Definition generate_l1_overview (content : str) : str :=
  let '(key_points, chapters) := l1_scan (split LF content) [] [] None in
  let overview :=
    (u "关键点:" ++ LF) ++ numbered_lines 0 (take 5 key_points)
    ++ (u "章节:" ++ LF) ++ chapter_lines (take 3 chapters) in
  slice_to 500 overview.

End SimpleSummarizer.

(** ** tools/summarizer.py: [VikingSummarizer.compress_content] *)

Module Compress.

(** What [compress_content] raises itself, besides what comes out of the
    calls it makes. *)
Inductive error :=
| FileNotFoundError
| ValueError
| Inner (e : exn).

(** The entry of the result that holds the text, by its key. *)
Inductive payload :=
| summary (s : str)
| overview (s : str)
| full_content (s : str).

Record result := {
  original_size : Z;
  text : payload;
  compressed_size : Z;
  compression_ratio : Q
}.

Section Patterns.

Variable isdecimal : char -> bool.
Variable isword : char -> bool.
Variable fold_extra : char -> char -> bool.

(** [inner m]: a call whose exceptions pass through. *)
Definition inner {A} (m : res A) : error + A :=
  match m with
  | Ret a => inr a
  | Raise e => inl (Inner e)
  end.

(** [compress_content]: [content_path] is [None] when there is no such
    file, and otherwise what reading it gives. *)
Definition compress_content (config : json) (content_path : option (res str))
           (target_tier : str) : error + result :=
  match content_path with
  | None => inl FileNotFoundError
  | Some (Raise e) => inl (Inner e)
  | Some (Ret content) =>
    let finish (text : payload) (size : Z) : result :=
      {| original_size := len content;
         text := text;
         compressed_size := size;
         compression_ratio :=
           if 0 <? len content
           then (inject_Z size / inject_Z (len content))%Q
           else 0%Q |} in
    if str_eqb target_tier (u "L0") then
      match Summarizer.generate_l0_summary config content with
      | Ret s => inr (finish (summary s) (len s))
      | Raise e => inl (Inner e)
      end
    else if str_eqb target_tier (u "L1") then
      match Summarizer.generate_l1_overview isdecimal isword fold_extra
                                            config content with
      | Ret s => inr (finish (overview s) (len s))
      | Raise e => inl (Inner e)
      end
    else if str_eqb target_tier (u "L2") then
      inr (finish (full_content content) (len content))
    else inl ValueError
  end.

End Patterns.

End Compress.

(** ** tools/test_vikingfs.py: [VikingFSTester] *)

Module Tester.

#[global] Instance tier_countable : Countable tier.
Proof.
  refine (inj_countable'
            (fun t => match t with L0 => 0 | L1 => 1 | L2 => 2 end)%nat
            (fun n => match n with
                      | O => L0
                      | S O => L1
                      | _ => L2
                      end) _).
  by intros [].
Defined.

Definition query_types : list (str * list str) :=
  [ (u "factual",
     [u "什么时候"; u "哪里"; u "谁"; u "是什么"; u "多少"; u "日期";
      u "时间"]);
    (u "creative",
     [u "想法"; u "建议"; u "创意"; u "怎么办"; u "如何"; u "设计"]);
    (u "administrative",
     [u "状态"; u "进度"; u "检查"; u "报告"; u "总结"]);
    (u "analytical",
     [u "为什么"; u "分析"; u "原因"; u "对比"; u "优劣"]) ].

(** The types whose patterns occur, in the order of the table. *)
Definition matched_types (query_lower : str) : list str :=
  map fst (filter (fun tp => any_in (snd tp) query_lower) query_types).

Section Classify.

Variable lower : str -> str.

(** [query_classifier]: the field [types] of the result. *)
Definition query_classifier (query : str) : list str :=
  let matched := matched_types (lower query) in
  let matched' :=
    if bool_decide (matched = []) then
      if contains (u "?") query || contains (u "？") query
      then [u "factual"]
      else [u "administrative"]
    else matched in
  take 2 matched'.

End Classify.

Definition get_relevant_tier (query_type : str) : list tier :=
  if str_eqb query_type (u "factual") then [L0; L1]
  else if str_eqb query_type (u "creative") then [L0; L1; L2]
  else if str_eqb query_type (u "administrative") then [L0]
  else if str_eqb query_type (u "analytical") then [L1; L2]
  else [L0; L1; L2].

(** The tiers [search_vikingfs] decides to load, as the set that
    [list(set(relevant_tiers))] enumerates in an order of its own. *)
Definition relevant_tiers (types : list str) (use_l0_only : bool)
  : gset tier :=
  if use_l0_only then {[ L0 ]}
  else list_to_set (flat_map get_relevant_tier types).

End Tester.

(** ** integration/bridge_service.py: [VikingFSService] *)

Module Service.

(** The configuration file as [check_config_update] sees it. *)
Record config_file := {
  st_mtime : Q;
  data : json_file json
}.

(** The service: its bridge and the attribute [last_config_mtime], which
    does not exist before the first check. *)
Record service := {
  bridge_ : BridgeV2.bridge;
  last_config_mtime : option Q
}.

Definition set_config (b : BridgeV2.bridge) (config : dict)
  : BridgeV2.bridge :=
  {| BridgeV2.config := config;
     BridgeV2.stats_ := BridgeV2.stats_ b;
     BridgeV2.stats_file := BridgeV2.stats_file b;
     BridgeV2.memory := BridgeV2.memory b |}.

Definition check_config_update (s : service) (f : config_file) : service :=
  if exists_ (data f) then
    let newer :=
      match last_config_mtime s with
      | Some last => bool_decide (last < st_mtime f)%Q
      | None => false
      end in
    {| bridge_ :=
         if newer
         then set_config (bridge_ s) (BridgeV2.load_config (data f))
         else bridge_ s;
       last_config_mtime := Some (st_mtime f) |}
  else s.

End Service.

(** ** Sequences of calls on a live object *)

Module Ops.

(** What can happen to an [OpenClawVikingBridge]: a call of one of its
    methods, or a change made from outside to the files behind it or to
    its configuration (a migration, an edit of the configuration). *)
Inductive op_v1 :=
| QueryContext (query context_type : str)
| UpdateStats (qi : Bridge.query_info)
              (viking_tokens traditional_tokens saving_rate : Q)
| SaveStats
| GetPerformanceReport
| StoreChanged (viking : str -> tier -> tier_dir)
| ConfigChanged (config : dict).

Inductive op_v2 :=
| QueryMemory (user_query : str)
| UpdateStatsV2 (qi : BridgeV2.query_info)
                (viking_tokens traditional_tokens saving_rate : Q)
| SaveStatsV2
| GetPerformanceDashboard
| MemoryChanged (memory : tier -> tier_dir)
| ConfigReloaded (config_file : json_file json).

Section Run.

Variable lower : str -> str.

Definition step_v1 (b : Bridge.bridge) (o : op_v1) : Bridge.bridge :=
  match o with
  | QueryContext query context_type =>
    (Bridge.query_context lower b query context_type).1
  | UpdateStats qi viking_tokens traditional_tokens saving_rate =>
    (Bridge.update_stats b qi viking_tokens traditional_tokens
                         saving_rate).1
  | SaveStats => Bridge.save_stats b
  | GetPerformanceReport => b
  | StoreChanged viking =>
    {| Bridge.config := Bridge.config b;
       Bridge.stats_ := Bridge.stats_ b;
       Bridge.stats_path := Bridge.stats_path b;
       Bridge.viking := viking |}
  | ConfigChanged config =>
    {| Bridge.config := config;
       Bridge.stats_ := Bridge.stats_ b;
       Bridge.stats_path := Bridge.stats_path b;
       Bridge.viking := Bridge.viking b |}
  end.

Definition run_v1 (b : Bridge.bridge) (ops : list op_v1)
  : Bridge.bridge :=
  foldl step_v1 b ops.

Definition step_v2 (b : BridgeV2.bridge) (o : op_v2)
  : BridgeV2.bridge :=
  match o with
  | QueryMemory user_query =>
    (BridgeV2.query_memory lower b user_query).1
  | UpdateStatsV2 qi viking_tokens traditional_tokens saving_rate =>
    BridgeV2.update_stats b qi viking_tokens traditional_tokens
                          saving_rate
  | SaveStatsV2 => BridgeV2.save_stats b
  | GetPerformanceDashboard => b
  | MemoryChanged memory =>
    {| BridgeV2.config := BridgeV2.config b;
       BridgeV2.stats_ := BridgeV2.stats_ b;
       BridgeV2.stats_file := BridgeV2.stats_file b;
       BridgeV2.memory := memory |}
  | ConfigReloaded config_file =>
    {| BridgeV2.config := BridgeV2.load_config config_file;
       BridgeV2.stats_ := BridgeV2.stats_ b;
       BridgeV2.stats_file := BridgeV2.stats_file b;
       BridgeV2.memory := BridgeV2.memory b |}
  end.

Definition run_v2 (b : BridgeV2.bridge) (ops : list op_v2)
  : BridgeV2.bridge :=
  foldl step_v2 b ops.

End Run.

(** What a step may do to the counters of an [OpenClawVikingBridge]: the
    gap between [total_queries] and [viking_queries] and the value of
    [traditional_queries] stay, in memory and in what is saved. *)
Definition keeps_counters_v1 (b b' : Bridge.bridge) : Prop :=
  Bridge.total_queries (Bridge.stats_ b')
  - Bridge.viking_queries (Bridge.stats_ b')
  = Bridge.total_queries (Bridge.stats_ b)
    - Bridge.viking_queries (Bridge.stats_ b)
  /\ Bridge.traditional_queries (Bridge.stats_ b')
     = Bridge.traditional_queries (Bridge.stats_ b)
  /\ (Bridge.stats_path b' = Bridge.stats_path b
      \/ exists st,
           Bridge.stats_path b' = Parsed st
           /\ Bridge.traditional_queries st
              = Bridge.traditional_queries (Bridge.stats_ b)).

Definition keeps_counters_v2 (b b' : BridgeV2.bridge) : Prop :=
  BridgeV2.queries_total (BridgeV2.stats_ b')
  - BridgeV2.queries_viking (BridgeV2.stats_ b')
  = BridgeV2.queries_total (BridgeV2.stats_ b)
    - BridgeV2.queries_viking (BridgeV2.stats_ b).

(** The statistics of an [OpenClawVikingBridge] after a sequence of
    recorded queries, each given by the arguments of [update_stats]. *)
Definition record_all_v1 (st : Bridge.stats)
           (calls : list (Bridge.query_info * Q * Q * Q)) : Bridge.stats :=
  foldl (fun st '(qi, viking_tokens, traditional_tokens, saving_rate) =>
           Bridge.record_query st qi viking_tokens traditional_tokens
                               saving_rate)
        st calls.

(** The baseline and the saving accumulated over such a sequence. *)
Definition baseline_sum (calls : list (Bridge.query_info * Q * Q * Q)) : Q :=
  foldr (fun '(_, _, traditional_tokens, _) acc =>
           traditional_tokens + acc)%Q 0%Q calls.

Definition saved_sum (calls : list (Bridge.query_info * Q * Q * Q)) : Q :=
  foldr (fun '(_, viking_tokens, traditional_tokens, _) acc =>
           (traditional_tokens - viking_tokens) + acc)%Q 0%Q calls.

(** The number of queries a distribution of query types accounts for. *)
Definition count_sum (d : gmap str Z) : Z :=
  map_fold (fun _ n acc => n + acc) 0 d.

End Ops.

(** ** Inputs used in the scenarios *)

Module Scenario.

(** [str.lower] restricted to ASCII letters; it agrees with Python on
    every string without cased characters outside ASCII. *)
Definition ascii_lower (s : str) : str :=
  map (fun c => if (65 <=? c) && (c <=? 90) then c + 32 else c) s.

Definition report : str := u "# Report
## Progress
- done task A
- done task B
".

Definition report_l1 : str := u "关键点:
  1. ## Progress
  2. - done task A
  3. - done task B
章节:
  • Progress: - done task A... - done task B... ".

(** Every keyword of the classifier of [OpenClawVikingBridge]. *)
Definition keywords_v1 : list str := flat_map snd Bridge.type_patterns.

(** Every keyword of the classifier of [OpenClawVikingBridgeV2]. *)
Definition keywords_v2 : list str :=
  [u "什么时候"; u "日期"; u "时间"; u "几号";
   u "检查"; u "状态"; u "报告"; u "总结";
   u "分析"; u "为什么"; u "原因"; u "对比";
   u "如何"; u "改进"; u "创意"; u "建议";
   u "列出"; u "有哪些"; u "什么技能"].

(** A bridge of each kind over an empty store, with the default
    configuration and statistics. *)
Definition bridge_v1 : Bridge.bridge := {|
  Bridge.config := Bridge.default_config;
  Bridge.stats_ := Bridge.default_stats [];
  Bridge.stats_path := Missing;
  Bridge.viking := fun _ _ => NoDir
|}.

Definition bridge_v2 : BridgeV2.bridge := {|
  BridgeV2.config := BridgeV2.default_config;
  BridgeV2.stats_ := BridgeV2.default_stats;
  BridgeV2.stats_file := Missing;
  BridgeV2.memory := fun _ => NoDir
|}.

(** A file that [stat] and [read] accept. *)
Definition plain_file (name : str) (mtime : Q) (text : str) : file := {|
  name := name;
  st_mtime := Ret mtime;
  st_size := Ret (len text);
  read := Ret text
|}.

(** A memory with a summary and an overview and no L2 directory. *)
Definition memory_without_l2 (t : tier) : tier_dir :=
  match t with
  | L0 => Dir [plain_file (u "2026-01-01.md") 1 (u "summary")]
  | L1 => Dir [plain_file (u "2026-01-01.md") 1 (u "overview text")]
  | L2 => NoDir
  end.

Definition bridge_v2_without_l2 : BridgeV2.bridge := {|
  BridgeV2.config := BridgeV2.default_config;
  BridgeV2.stats_ := BridgeV2.default_stats;
  BridgeV2.stats_file := Missing;
  BridgeV2.memory := memory_without_l2
|}.

(** Two candidates for one tier, the older one listed first. *)
Definition two_candidates : tier_dir :=
  Dir [plain_file (u "2026-01-01.md") 1 (u "old overview");
       plain_file (u "2026-01-02.md") 2 (u "new overview")].

Definition bridge_v1_two_candidates : Bridge.bridge := {|
  Bridge.config := Bridge.default_config;
  Bridge.stats_ := Bridge.default_stats [];
  Bridge.stats_path := Missing;
  Bridge.viking := fun _ t => match t with
                              | L1 => two_candidates
                              | _ => NoDir
                              end
|}.

Definition bridge_v2_two_candidates : BridgeV2.bridge := {|
  BridgeV2.config := BridgeV2.default_config;
  BridgeV2.stats_ := BridgeV2.default_stats;
  BridgeV2.stats_file := Missing;
  BridgeV2.memory := fun t => match t with
                              | L1 => two_candidates
                              | _ => NoDir
                              end
|}.

(** A file that is listed and can be examined but not read (EIO). *)
Definition unreadable_file : file := {|
  name := u "2026-01-01.md";
  st_mtime := Ret 1%Q;
  st_size := Ret 7;
  read := Raise (OSError 5)
|}.

Definition bridge_v2_unreadable_l0 : BridgeV2.bridge := {|
  BridgeV2.config := BridgeV2.default_config;
  BridgeV2.stats_ := BridgeV2.default_stats;
  BridgeV2.stats_file := Missing;
  BridgeV2.memory := fun t => match t with
                              | L0 => Dir [unreadable_file]
                              | _ => memory_without_l2 t
                              end
|}.

(** A summarizer configuration with a negative [L0_max_chars]. *)
Definition negative_max_chars : json :=
  JObj {[ u "compression_rules" :=
            JObj {[ u "L0_max_chars" := JInt (-5) ]} ]}.

(** A bridge configuration with a negative [min_confidence]. *)
Definition negative_min_confidence : gmap str json :=
  {[ u "query_classification" :=
       JObj {[ u "min_confidence" := JInt (-1) ]} ]}.

(** A summarizer configuration whose [L0_max_chars] is a string. *)
Definition string_max_chars : json :=
  JObj {[ u "compression_rules" :=
            JObj {[ u "L0_max_chars" := JStr (u "100") ]} ]}.

(** A bridge in traditional mode over a memory holding the full text
    only. *)
Definition bridge_v2_traditional : BridgeV2.bridge := {|
  BridgeV2.config :=
    <[ u "mode" := JStr (u "traditional") ]> BridgeV2.default_config;
  BridgeV2.stats_ := BridgeV2.default_stats;
  BridgeV2.stats_file := Missing;
  BridgeV2.memory := fun t => match t with
                              | L2 => Dir [plain_file (u "2026-01-01.md") 1
                                                      (u "the full text")]
                              | _ => NoDir
                              end
|}.

(** A user configuration that names its own [query_classification]
    section without [min_confidence], and one that sets the logging
    interval to 0. *)
Definition partial_section : gmap str json :=
  {[ u "query_classification" := JObj {[ u "enabled" := JBool true ]} ]}.

Definition zero_interval : gmap str json :=
  {[ u "monitoring" := JObj {[ u "log_interval_queries" := JInt 0 ]} ]}.

Definition bridge_v1_with (config : dict) : Bridge.bridge := {|
  Bridge.config := config;
  Bridge.stats_ := Bridge.default_stats [];
  Bridge.stats_path := Missing;
  Bridge.viking := fun _ _ => NoDir
|}.

Definition some_query_info : Bridge.query_info := {|
  Bridge.query := u "hello";
  Bridge.primary_type := u "factual";
  Bridge.confidence := 1 # 2;
  Bridge.type_scores := []
|}.

(** A service that has not looked at its configuration file yet, and a
    configuration file choosing traditional mode. *)
Definition fresh_service : Service.service := {|
  Service.bridge_ := bridge_v2;
  Service.last_config_mtime := None
|}.

Definition traditional_config_file (mtime : Q) : Service.config_file := {|
  Service.st_mtime := mtime;
  Service.data := Parsed (JObj {[ u "mode" := JStr (u "traditional") ]})
|}.

(** Two recorded queries, as arguments of [update_stats]. *)
Definition two_calls : list (Bridge.query_info * Q * Q * Q) :=
  [ (some_query_info, 10, 100, 9 # 10)%Q;
    (some_query_info, 10, 20, 1 # 2)%Q ].

(** A bridge over a store whose memory has a summary and the full text. *)
Definition bridge_v1_with_memory : Bridge.bridge := {|
  Bridge.config := Bridge.default_config;
  Bridge.stats_ := Bridge.default_stats [];
  Bridge.stats_path := Missing;
  Bridge.viking := fun _ t =>
    match t with
    | L0 => Dir [plain_file (u "2026-01-01.md") 1 (u "summary")]
    | L1 => NoDir
    | L2 => Dir [plain_file (u "2026-01-01.md") 1 (u "the full text")]
    end
|}.

End Scenario.

(** * Properties *)

(** ** Strings *)

Example utf8_literal : u "• 决策" = [8226; 32; 20915; 31574].
Proof. reflexivity. Qed.

Example strip_both_ends :
  strip (u "  # Title " ++ LF) = u "# Title".
Proof. reflexivity. Qed.

Example split_blank_lines :
  split (LF ++ LF) (u "a" ++ LF ++ LF ++ LF ++ u "b") = [u "a"; LF ++ u "b"].
Proof. reflexivity. Qed.

Example split_empty : split LF [] = [[]].
Proof. reflexivity. Qed.

Example replace_all_occurrences :
  replace (u "# ") [] (u "# a # b") = u "a b".
Proof. reflexivity. Qed.

Example slice_negative : slice_to (-5) (u "hello world...") = u "hello wor".
Proof. reflexivity. Qed.

Example join_two : join (LF ++ LF) [u "a"; u "b"] = u "a" ++ LF ++ LF ++ u "b".
Proof. reflexivity. Qed.

Lemma len_nonneg {A} (l : list A) : 0 <= len l.
Proof. unfold len. lia. Qed.

Lemma len_app {A} (a b : list A) : len (a ++ b) = len a + len b.
Proof. unfold len. rewrite length_app. lia. Qed.

Lemma slice_to_len (n : Z) (s : str) : 0 <= n -> len (slice_to n s) <= n.
Proof.
  intros Hn. unfold slice_to, len.
  destruct (Z.leb_spec 0 n); [|lia].
  rewrite length_take. lia.
Qed.

Lemma slice_to_nonempty (n : Z) (s : str) :
  1 <= n -> s <> [] -> slice_to n s <> [].
Proof.
  intros Hn Hs. unfold slice_to.
  destruct (Z.leb_spec 0 n); [|lia].
  destruct s as [|c r]; [done|].
  destruct (Z.to_nat n) eqn:E; [lia|done].
Qed.

Lemma app_dots_nonempty (s : str) : s ++ u "..." <> [].
Proof. destruct s; done. Qed.

(** ** The summarizer *)

Section SummarizerFacts.

Import Summarizer.

Lemma l0_combine_nonempty (text title first_content : str) :
  text <> [] -> l0_combine text title first_content <> [].
Proof.
  intros Ht. unfold l0_combine.
  destruct title as [|a title]; destruct first_content as [|b fc];
    cbn [bool_decide negb andb decide_rel]; simpl.
  - destruct (80 <? len text); [apply app_dots_nonempty | done].
  - rewrite app_comm_cons. apply app_dots_nonempty.
  - rewrite app_comm_cons. apply app_dots_nonempty.
  - done.
Qed.

End SummarizerFacts.

Section SummarizerClaims.

Import Summarizer.

Variable isdecimal isword : char -> bool.
Variable fold_extra : char -> char -> bool.

Lemma is_important_bullet (line : str) :
  re_bullet fold_extra line = true ->
  is_important isdecimal isword fold_extra line = true.
Proof. intros H. unfold is_important. simpl. by rewrite H. Qed.

Lemma is_important_heading (line : str) :
  re_heading fold_extra line = true ->
  is_important isdecimal isword fold_extra line = true.
Proof.
  intros H. unfold is_important. simpl. rewrite H.
  by rewrite !orb_true_r.
Qed.

Lemma key_points_scan_skip (max_points : Z) raw rest key_points :
  bool_decide (strip raw = []) || (len (strip raw) <? 10) = true ->
  key_points_scan isdecimal isword fold_extra max_points (raw :: rest)
                  key_points
  = key_points_scan isdecimal isword fold_extra max_points rest
                    key_points.
Proof. intros H. simpl. by rewrite H. Qed.

Lemma key_points_scan_take (max_points : Z) raw rest key_points :
  bool_decide (strip raw = []) || (len (strip raw) <? 10) = false ->
  is_important isdecimal isword fold_extra (strip raw) = true ->
  (len (key_points ++ [strip raw]) >=? max_points) = false ->
  key_points_scan isdecimal isword fold_extra max_points (raw :: rest)
                  key_points
  = key_points_scan isdecimal isword fold_extra max_points rest
                    (key_points ++ [strip raw]).
Proof. intros H1 H2 H3. simpl. by rewrite H1, H2, H3. Qed.

Lemma report_key_points :
  extract_key_points isdecimal isword fold_extra Scenario.report 5
  = [u "## Progress"; u "- done task A"; u "- done task B"].
Proof.
  unfold extract_key_points.
  replace (split LF (strip Scenario.report))
    with [u "# Report"; u "## Progress"; u "- done task A";
          u "- done task B"] by (by vm_compute).
  rewrite key_points_scan_skip by (by vm_compute).
  rewrite key_points_scan_take;
    [| by vm_compute | apply is_important_heading; by vm_compute
     | by vm_compute ].
  rewrite key_points_scan_take;
    [| by vm_compute | apply is_important_bullet; by vm_compute
     | by vm_compute ].
  rewrite key_points_scan_take;
    [| by vm_compute | apply is_important_bullet; by vm_compute
     | by vm_compute ].
  by vm_compute.
Qed.

(** C6.  For every non-empty text, the L0 summary is produced, is
    non-empty, and is no longer than the configured [L0_max_chars]
    (any positive integer [n]; 100 when the configuration names none). *)
Theorem generate_l0_summary_bounded (config : json) (text : str) (n : Z) :
  max_chars config (u "L0_max_chars") 100 = Ret (JInt n) ->
  1 <= n ->
  text <> [] ->
  exists summary,
    generate_l0_summary config text = Ret summary
    /\ summary <> []
    /\ len summary <= n.
Proof.
  intros Hmax Hn Htext. unfold generate_l0_summary.
  destruct (l0_scan _ _ _) as [title first_content].
  rewrite Hmax. simpl.
  eexists. split; [reflexivity|]. split.
  - apply slice_to_nonempty; [done|]. by apply l0_combine_nonempty.
  - apply slice_to_len. lia.
Qed.

(** C7.  On the report scenario under the default configuration, the L0
    summary contains "Report", three key points are extracted, and the
    L1 overview lists them and has a section labelled "Progress". *)
Theorem report_scenario :
  exists config summary overview,
    load_config Missing = Ret config
    /\ generate_l0_summary config Scenario.report = Ret summary
    /\ summary = u "Report..."
    /\ contains (u "Report") summary = true
    /\ extract_key_points isdecimal isword fold_extra Scenario.report 5
       = [u "## Progress"; u "- done task A"; u "- done task B"]
    /\ 2 <= len (extract_key_points isdecimal isword fold_extra
                                    Scenario.report 5)
    /\ generate_l1_overview isdecimal isword fold_extra config
                            Scenario.report = Ret overview
    /\ overview = Scenario.report_l1
    /\ contains (u "  • Progress: ") overview = true
    /\ contains (u "  1. ## Progress") overview = true
    /\ contains (u "  2. - done task A") overview = true.
Proof.
  exists default_config, (u "Report..."), Scenario.report_l1.
  split; [done|]. split; [by vm_compute|]. split; [done|].
  split; [by vm_compute|]. split; [apply report_key_points|].
  split; [by rewrite report_key_points|].
  split; [|repeat split; by vm_compute].
  unfold generate_l1_overview. rewrite report_key_points.
  by vm_compute.
Qed.

End SummarizerClaims.

(** C6 at the default configuration and the text "hello". *)
Lemma generate_l0_summary_bounded_witness :
  Summarizer.max_chars Summarizer.default_config (u "L0_max_chars") 100
  = Ret (JInt 100)
  /\ u "hello" <> []
  /\ exists summary,
      Summarizer.generate_l0_summary Summarizer.default_config (u "hello")
      = Ret summary
      /\ summary <> [] /\ len summary <= 100.
Proof.
  split; [reflexivity|]. split; [vm_compute; discriminate|].
  apply (generate_l0_summary_bounded Summarizer.default_config (u "hello")
                                     100).
  - reflexivity.
  - lia.
  - vm_compute. discriminate.
Defined.

(** ** Classification and tier selection *)

Lemma any_in_app (a b : list str) (s : str) :
  any_in (a ++ b) s = any_in a s || any_in b s.
Proof. unfold any_in. apply existsb_app. Qed.

Lemma any_in_filter (ws : list str) (s : str) :
  any_in ws s = false -> filter (fun p => contains p s) ws = [].
Proof.
  induction ws as [|w ws IH]; [done|].
  unfold any_in. cbn [existsb]. intros [Hw Hws]%orb_false_elim.
  rewrite filter_cons. rewrite Hw.
  destruct (decide (Is_true false)) as [[]|_]. by apply IH.
Qed.

Section ClassifyFacts.

Variable lower : str -> str.

Lemma score_of_no_match (query q_type : str) (patterns : list str) :
  any_in patterns (lower query) = false ->
  Bridge.has_question_mark query = false ->
  Bridge.score_of query (lower query) q_type patterns = inject_Z 0.
Proof.
  intros Hp Hq. unfold Bridge.score_of.
  rewrite (any_in_filter _ _ Hp), Hq, andb_false_r. done.
Qed.

Lemma classify_v1_default (query : str) :
  any_in Scenario.keywords_v1 (lower query) = false ->
  Bridge.has_question_mark query = false ->
  Bridge.classify_query lower query
  = {| Bridge.query := query;
       Bridge.primary_type := u "factual";
       Bridge.confidence := 1 # 2;
       Bridge.type_scores := [] |}.
Proof.
  intros Hk Hq. unfold Scenario.keywords_v1, Bridge.type_patterns in Hk.
  cbn [flat_map snd] in Hk.
  rewrite !any_in_app in Hk.
  apply orb_false_elim in Hk as [H1 Hk].
  apply orb_false_elim in Hk as [H2 Hk].
  apply orb_false_elim in Hk as [H3 Hk].
  apply orb_false_elim in Hk as [H4 _].
  unfold Bridge.classify_query, Bridge.type_patterns.
  cbn [map fst snd].
  rewrite !score_of_no_match by done.
  reflexivity.
Qed.

Lemma classify_v2_default (query : str) :
  any_in Scenario.keywords_v2 (lower query) = false ->
  contains (u "?") query || contains (u "？") query = false ->
  BridgeV2.classify_query lower query
  = {| BridgeV2.type := u "general";
       BridgeV2.confidence := 5 # 10;
       BridgeV2.original := query |}.
Proof.
  intros Hk Hq. unfold Scenario.keywords_v2 in Hk.
  change (any_in ([u "什么时候"; u "日期"; u "时间"; u "几号"]
                  ++ [u "检查"; u "状态"; u "报告"; u "总结"]
                  ++ [u "分析"; u "为什么"; u "原因"; u "对比"]
                  ++ [u "如何"; u "改进"; u "创意"; u "建议"]
                  ++ [u "列出"; u "有哪些"; u "什么技能"])
                 (lower query) = false) in Hk.
  rewrite !any_in_app in Hk.
  apply orb_false_elim in Hk as [H1 Hk].
  apply orb_false_elim in Hk as [H2 Hk].
  apply orb_false_elim in Hk as [H3 Hk].
  apply orb_false_elim in Hk as [H4 H5].
  unfold BridgeV2.classify_query.
  by rewrite H1, H2, H3, H4, H5, Hq.
Qed.

End ClassifyFacts.

Lemma min_confidence_default :
  Bridge.min_confidence Bridge.default_config = Ret (6 # 10).
Proof. reflexivity. Qed.

(** C1, as amended.  In [OpenClawVikingBridge], whenever the integration
    mode is neither [viking_only] nor [traditional] (hybrid mode) and the
    confidence of the classification is below the configured
    [min_confidence], all three tiers are selected, whatever the primary
    type. *)
Theorem hybrid_low_confidence_all_tiers
        (b : Bridge.bridge) (qi : Bridge.query_info) (context_type : str)
        (mode : json) (th : Q) :
  item (JObj (Bridge.config b)) (u "integration_mode") = Ret mode ->
  eq_str mode (u "viking_only") = false ->
  eq_str mode (u "traditional") = false ->
  Bridge.min_confidence (Bridge.config b) = Ret th ->
  (Bridge.confidence qi < th)%Q ->
  exists content,
    Bridge.dispatch b qi context_type
    = Ret (Some content,
           {| Bridge.strategy := u "hybrid_low_confidence";
              Bridge.tiers := [L0; L1; L2] |}).
Proof.
  intros Hmode Hv Ht Hth Hlt.
  unfold Bridge.dispatch. rewrite Hmode. cbn [mbind Py.res_bind].
  rewrite Hv, Ht.
  unfold Bridge.query_hybrid, Bridge.hybrid_tiers.
  rewrite Hth. cbn [mbind Py.res_bind].
  destruct (Qlt_le_dec (Bridge.confidence qi) th) as [_|Hle].
  - eexists. reflexivity.
  - exfalso. by apply (Qle_not_lt _ _ Hle).
Qed.

(** C1 at the default configuration, for a query without keywords
    (confidence 1/2, below the default 0.6). *)
Lemma hybrid_low_confidence_all_tiers_witness :
  Bridge.min_confidence (Bridge.config Scenario.bridge_v1) = Ret (6 # 10)
  /\ (Bridge.confidence
        (Bridge.classify_query Scenario.ascii_lower (u "hello"))
      < 6 # 10)%Q
  /\ exists content,
      Bridge.dispatch Scenario.bridge_v1
        (Bridge.classify_query Scenario.ascii_lower (u "hello"))
        (u "memory")
      = Ret (Some content,
             {| Bridge.strategy := u "hybrid_low_confidence";
                Bridge.tiers := [L0; L1; L2] |}).
Proof.
  split; [reflexivity|]. split; [reflexivity|].
  apply (hybrid_low_confidence_all_tiers Scenario.bridge_v1 _ (u "memory")
           (JStr (u "hybrid")) (6 # 10)).
  - reflexivity.
  - reflexivity.
  - reflexivity.
  - reflexivity.
  - reflexivity.
Defined.

(** C1 does not hold of [OpenClawVikingBridgeV2]: under its default
    configuration the query "hello" has confidence 1/2 and yet only L0 and
    L1 are selected. *)
Lemma hybrid_low_confidence_v2_counterexample :
  ~ (forall (lower : str -> str) (query : str),
        (BridgeV2.confidence (BridgeV2.classify_query lower query)
         < 6 # 10)%Q ->
        exists strategy,
          BridgeV2.select_tiers BridgeV2.default_config
            (BridgeV2.classify_query lower query)
          = Ret ([L0; L1; L2], strategy)).
Proof.
  intros H.
  destruct (H Scenario.ascii_lower (u "hello")) as [strategy Hs].
  - reflexivity.
  - vm_compute in Hs. discriminate Hs.
Qed.

(** C2 does not hold of [OpenClawVikingBridge]: under its default
    configuration a query without keywords and question mark gets all
    three tiers in hybrid mode. *)
Lemma default_classification_v1_counterexample :
  ~ (forall (lower : str -> str) (query : str),
        any_in Scenario.keywords_v1 (lower query) = false ->
        Bridge.has_question_mark query = false ->
        exists strategy,
          Bridge.hybrid_tiers Bridge.default_config
            (Bridge.classify_query lower query)
          = Ret ([L0; L1], strategy)).
Proof.
  intros H.
  destruct (H Scenario.ascii_lower (u "hello")) as [strategy Hs].
  - reflexivity.
  - reflexivity.
  - vm_compute in Hs. discriminate Hs.
Qed.

(** C2, as amended.  A query in which no keyword occurs and that has no
    question mark is classified with confidence exactly 1/2, as [general]
    by [OpenClawVikingBridgeV2] and as [factual] by [OpenClawVikingBridge].
    In hybrid mode the former then selects exactly L0 and L1; the latter
    does so when the configured [min_confidence] is at most 1/2, and
    selects all three tiers when it is larger. *)
Theorem default_classification_tiers (lower : str -> str) (query : str) :
  (any_in Scenario.keywords_v2 (lower query) = false ->
   contains (u "?") query || contains (u "？") query = false ->
   BridgeV2.classify_query lower query
   = {| BridgeV2.type := u "general";
        BridgeV2.confidence := 5 # 10;
        BridgeV2.original := query |}
   /\ forall (config : dict) (mode query_classifier : json),
       item (JObj config) (u "mode") = Ret mode ->
       eq_str mode (u "traditional") = false ->
       eq_str mode (u "viking") = false ->
       item (JObj config) (u "query_classifier") = Ret query_classifier ->
       BridgeV2.select_tiers config (BridgeV2.classify_query lower query)
       = Ret ([L0; L1], u "hybrid"))
  /\
  (any_in Scenario.keywords_v1 (lower query) = false ->
   Bridge.has_question_mark query = false ->
   Bridge.classify_query lower query
   = {| Bridge.query := query;
        Bridge.primary_type := u "factual";
        Bridge.confidence := 1 # 2;
        Bridge.type_scores := [] |}
   /\ forall (config : dict) (th : Q),
       Bridge.min_confidence config = Ret th ->
       ((th <= 1 # 2)%Q ->
        Bridge.hybrid_tiers config (Bridge.classify_query lower query)
        = Ret ([L0; L1], u "hybrid_factual"))
       /\
       ((1 # 2 < th)%Q ->
        Bridge.hybrid_tiers config (Bridge.classify_query lower query)
        = Ret ([L0; L1; L2], u "hybrid_low_confidence"))).
Proof.
  split.
  - intros Hk Hq. rewrite (classify_v2_default lower query Hk Hq).
    split; [done|].
    intros config mode qc Hmode Ht Hv Hqc.
    unfold BridgeV2.select_tiers. rewrite Hmode. cbn [mbind Py.res_bind].
    rewrite Ht, Hv. unfold BridgeV2.get_tier_strategy.
    rewrite Hqc. cbn [mbind Py.res_bind].
    by destruct (negb (truthy qc)).
  - intros Hk Hq. rewrite (classify_v1_default lower query Hk Hq).
    split; [done|].
    intros config th Hth. unfold Bridge.hybrid_tiers.
    rewrite Hth. cbn [mbind Py.res_bind Bridge.confidence].
    split; intros Hcmp.
    + destruct (Qlt_le_dec (1 # 2) th) as [Hlt|_]; [|done].
      exfalso. by apply (Qle_not_lt _ _ Hcmp).
    + destruct (Qlt_le_dec (1 # 2) th) as [_|Hle]; [done|].
      exfalso. by apply (Qle_not_lt _ _ Hle).
Qed.

(** C2 at the query "hello" and the default configurations. *)
Lemma default_classification_tiers_witness :
  BridgeV2.select_tiers BridgeV2.default_config
    (BridgeV2.classify_query Scenario.ascii_lower (u "hello"))
  = Ret ([L0; L1], u "hybrid")
  /\ Bridge.hybrid_tiers Bridge.default_config
       (Bridge.classify_query Scenario.ascii_lower (u "hello"))
     = Ret ([L0; L1; L2], u "hybrid_low_confidence").
Proof.
  destruct (default_classification_tiers Scenario.ascii_lower (u "hello"))
    as [H2 H1].
  split.
  - destruct H2 as [_ H2]; [reflexivity | reflexivity |].
    apply (H2 BridgeV2.default_config (JStr (u "hybrid")) (JBool true));
      reflexivity.
  - destruct H1 as [_ H1]; [reflexivity | reflexivity |].
    destruct (H1 Bridge.default_config (6 # 10)) as [_ H]; [reflexivity|].
    apply H. reflexivity.
Defined.

(** ** Statistics *)

(** In [OpenClawVikingBridge] the stored average is the quotient of the two
    running totals as soon as the accumulated baseline is positive. *)
Lemma record_query_average_v1 (st : Bridge.stats) (qi : Bridge.query_info)
      (viking_tokens traditional_tokens saving_rate : Q) :
  0 <= Bridge.total_queries st ->
  (0 < Bridge.total_tokens_traditional st + traditional_tokens)%Q ->
  let st' := Bridge.record_query st qi viking_tokens traditional_tokens
                                 saving_rate in
  Bridge.average_saving_rate st'
  = (Bridge.total_tokens_saved st' / Bridge.total_tokens_traditional st')%Q
  /\ Bridge.total_tokens_saved st'
     = (Bridge.total_tokens_saved st
        + (traditional_tokens - viking_tokens))%Q
  /\ Bridge.total_tokens_traditional st'
     = (Bridge.total_tokens_traditional st + traditional_tokens)%Q.
Proof.
  intros Hq Ht. simpl.
  destruct (Z.ltb_spec 0 (Bridge.total_queries st + 1)); [|lia].
  destruct (Qlt_le_dec _ _) as [_|Hle]; [done|].
  exfalso. by apply (Qle_not_lt _ _ Hle).
Qed.

(** Over a sequence of recorded queries the two running totals of
    [OpenClawVikingBridge] are the sums of the baselines and of the
    savings of the queries, and the number of queries is counted. *)
Lemma record_all_v1_totals (calls : list (Bridge.query_info * Q * Q * Q))
      (st : Bridge.stats) :
  let st' := Ops.record_all_v1 st calls in
  Bridge.total_tokens_traditional st'
  == Bridge.total_tokens_traditional st + Ops.baseline_sum calls
  /\ Bridge.total_tokens_saved st'
     == Bridge.total_tokens_saved st + Ops.saved_sum calls
  /\ Bridge.total_queries st' = Bridge.total_queries st + len calls.
Proof.
  revert st. induction calls as [|[[[qi vt] tt] sr] calls IH]; intros st.
  - simpl. unfold len. simpl. rewrite !Qplus_0_r. split; [done|].
    split; [done|lia].
  - specialize (IH (Bridge.record_query st qi vt tt sr)).
    destruct IH as (Ht & Hs & Hq). cbn zeta in *.
    unfold Ops.record_all_v1 in *. cbn [foldl].
    rewrite Ht, Hs, Hq.
    change (Ops.baseline_sum ((qi, vt, tt, sr) :: calls))
      with (tt + Ops.baseline_sum calls)%Q.
    change (Ops.saved_sum ((qi, vt, tt, sr) :: calls))
      with ((tt - vt) + Ops.saved_sum calls)%Q.
    cbn [Bridge.record_query Bridge.total_tokens_traditional
         Bridge.total_tokens_saved Bridge.total_queries].
    split; [ring|]. split; [ring|].
    unfold len. cbn [length]. lia.
Qed.

(** Hence, after any non-empty sequence of recorded queries whose
    accumulated baseline is positive, the stored average is the
    accumulated saving divided by the accumulated baseline. *)
Lemma record_all_v1_average (calls : list (Bridge.query_info * Q * Q * Q))
      (st : Bridge.stats) :
  calls <> [] ->
  0 <= Bridge.total_queries st ->
  let st' := Ops.record_all_v1 st calls in
  (0 < Bridge.total_tokens_traditional st')%Q ->
  Bridge.average_saving_rate st'
  = (Bridge.total_tokens_saved st' / Bridge.total_tokens_traditional st')%Q.
Proof.
  intros Hne Hq.
  destruct (exists_last Hne) as (init & [[[qi vt] tt] sr] & ->).
  cbn zeta. unfold Ops.record_all_v1. rewrite foldl_app. cbn [foldl].
  fold (Ops.record_all_v1 st init).
  destruct (record_all_v1_totals init st) as (_ & _ & Hn).
  cbn zeta in Hn. intros Hpos.
  apply record_query_average_v1; [|exact Hpos].
  rewrite Hn. pose proof (len_nonneg init). lia.
Qed.

(** In [OpenClawVikingBridgeV2] the divisor is the number of queries times
    the baseline of the query being recorded. *)
Lemma record_query_average_v2 (st : BridgeV2.stats)
      (qi : BridgeV2.query_info)
      (viking_tokens traditional_tokens saving_rate : Q) :
  0 <= BridgeV2.queries_total st ->
  (0 < traditional_tokens)%Q ->
  let st' := BridgeV2.record_query st qi viking_tokens traditional_tokens
                                   saving_rate in
  BridgeV2.saving_rate_avg st'
  = (BridgeV2.tokens_saved st'
     / (inject_Z (BridgeV2.queries_total st') * traditional_tokens))%Q.
Proof.
  intros Hq Ht. simpl.
  destruct (Z.ltb_spec 0 (BridgeV2.queries_total st + 1)); [|lia].
  destruct (decide _) as [_|Hn]; [done|].
  exfalso. apply Hn.
  apply Qmult_lt_0_compat; [|done].
  change 0%Q with (inject_Z 0). rewrite <- Zlt_Qlt. lia.
Qed.

(** C3, on [OpenClawVikingBridgeV2].  Over a memory without L2, the query
    "检查状态" (L0 alone: 4.5 tokens against a baseline of 13.5) followed by
    "今天的日期" (L0 and L1: 11 tokens against 33) saves 31 tokens of a
    cumulative baseline of 46.5, a rate of 2/3; the stored average is
    31/66, the saved total divided by twice the last baseline. *)
Theorem saving_rate_avg_v2_failing_input :
  let b0 := Scenario.bridge_v2_without_l2 in
  let '(b1, r1) := BridgeV2.query_memory Scenario.ascii_lower b0
                                         (u "检查状态") in
  let '(b2, r2) := BridgeV2.query_memory Scenario.ascii_lower b1
                                         (u "今天的日期") in
  exists m1 m2,
    r1 = Ret m1 /\ r2 = Ret m2
    /\ BridgeV2.traditional_tokens (BridgeV2.metadata_ m1) == 27 # 2
    /\ BridgeV2.traditional_tokens (BridgeV2.metadata_ m2) == 33
    /\ BridgeV2.tokens_saved (BridgeV2.stats_ b2) == 31
    /\ BridgeV2.tokens_saved (BridgeV2.stats_ b2)
       / (BridgeV2.traditional_tokens (BridgeV2.metadata_ m1)
          + BridgeV2.traditional_tokens (BridgeV2.metadata_ m2)) == 2 # 3
    /\ BridgeV2.saving_rate_avg (BridgeV2.stats_ b2) == 31 # 66
    /\ ~ BridgeV2.saving_rate_avg (BridgeV2.stats_ b2)
         == BridgeV2.tokens_saved (BridgeV2.stats_ b2)
            / (BridgeV2.traditional_tokens (BridgeV2.metadata_ m1)
               + BridgeV2.traditional_tokens (BridgeV2.metadata_ m2)).
Proof.
  vm_compute.
  eexists _, _. repeat split; try reflexivity; discriminate.
Qed.

Lemma keeps_counters_v1_refl (b : Bridge.bridge) : Ops.keeps_counters_v1 b b.
Proof. unfold Ops.keeps_counters_v1. auto. Qed.

Lemma keeps_counters_v1_trans (b1 b2 b3 : Bridge.bridge) :
  Ops.keeps_counters_v1 b1 b2 -> Ops.keeps_counters_v1 b2 b3 ->
  Ops.keeps_counters_v1 b1 b3.
Proof.
  intros (Hg1 & Ht1 & Hp1) (Hg2 & Ht2 & Hp2).
  split; [lia|]. split; [congruence|].
  destruct Hp2 as [Hp2|(st & Hst & Htr)].
  - rewrite Hp2. done.
  - right. exists st. split; [done|congruence].
Qed.

Lemma update_stats_counters_v1 (b : Bridge.bridge) (qi : Bridge.query_info)
      (viking_tokens traditional_tokens saving_rate : Q) :
  let st := Bridge.stats_ b in
  let st' := Bridge.stats_ (Bridge.update_stats b qi viking_tokens
                              traditional_tokens saving_rate).1 in
  Bridge.total_queries st' = Bridge.total_queries st + 1
  /\ Bridge.viking_queries st' = Bridge.viking_queries st + 1
  /\ Bridge.traditional_queries st' = Bridge.traditional_queries st.
Proof.
  simpl. unfold Bridge.update_stats.
  destruct (_ ≫= _) as [[|]|e]; done.
Qed.

Lemma update_stats_keeps_v1 (b : Bridge.bridge) (qi : Bridge.query_info)
      (viking_tokens traditional_tokens saving_rate : Q) :
  Ops.keeps_counters_v1 b (Bridge.update_stats b qi viking_tokens
                         traditional_tokens saving_rate).1.
Proof.
  destruct (update_stats_counters_v1 b qi viking_tokens traditional_tokens
              saving_rate) as (Ht & Hv & Hr).
  split; [lia|]. split; [done|].
  unfold Bridge.update_stats.
  destruct (_ ≫= _) as [[|]|e]; simpl; auto.
  right. eexists. split; [reflexivity|done].
Qed.

Lemma update_stats_counters_v2 (b : BridgeV2.bridge)
      (qi : BridgeV2.query_info)
      (viking_tokens traditional_tokens saving_rate : Q) :
  let st := BridgeV2.stats_ b in
  let st' := BridgeV2.stats_ (BridgeV2.update_stats b qi viking_tokens
                                traditional_tokens saving_rate) in
  BridgeV2.queries_total st' = BridgeV2.queries_total st + 1
  /\ BridgeV2.queries_viking st' = BridgeV2.queries_viking st + 1.
Proof.
  simpl. unfold BridgeV2.update_stats.
  destruct (_ =? 0); done.
Qed.

Section Steps.

Variable lower : str -> str.

Lemma step_v1_keeps (b : Bridge.bridge) (o : Ops.op_v1) :
  Ops.keeps_counters_v1 b (Ops.step_v1 lower b o).
Proof.
  destruct o as [query context_type|qi vt tt sr| | |viking|config];
    cbn [Ops.step_v1].
  - unfold Bridge.query_context.
    destruct (Bridge.dispatch _ _ _) as [[[content|] ti]|e];
      cbn [fst]; try apply keeps_counters_v1_refl.
    match goal with
    | |- context [Bridge.update_stats ?b ?qi ?x ?y ?z] =>
      pose proof (update_stats_keeps_v1 b qi x y z) as H;
      destruct (Bridge.update_stats b qi x y z) as [b' r]
    end.
    exact H.
  - apply update_stats_keeps_v1.
  - split; [done|]. split; [done|]. right. eexists. by split.
  - apply keeps_counters_v1_refl.
  - split; [done|]. split; [done|]. by left.
  - split; [done|]. split; [done|]. by left.
Qed.

Lemma run_v1_keeps (ops : list Ops.op_v1) (b : Bridge.bridge) :
  Ops.keeps_counters_v1 b (Ops.run_v1 lower b ops).
Proof.
  revert b. induction ops as [|o ops IH]; intros b.
  - apply keeps_counters_v1_refl.
  - unfold Ops.run_v1. cbn [foldl].
    eapply keeps_counters_v1_trans; [apply step_v1_keeps | apply IH].
Qed.

Lemma step_v2_keeps (b : BridgeV2.bridge) (o : Ops.op_v2) :
  Ops.keeps_counters_v2 b (Ops.step_v2 lower b o).
Proof.
  unfold Ops.keeps_counters_v2.
  destruct o as [query|qi vt tt sr| | |memory|config_file];
    cbn [Ops.step_v2]; try done.
  - unfold BridgeV2.query_memory.
    destruct (_ ≫= _) as [[[[tiers strategy] parts] l2]|e];
      cbn [fst]; [|done].
    match goal with
    | |- context [BridgeV2.update_stats ?b ?qi ?x ?y ?z] =>
      destruct (update_stats_counters_v2 b qi x y z) as [Ht Hv]
    end.
    lia.
  - destruct (update_stats_counters_v2 b qi vt tt sr) as [Ht Hv]. lia.
Qed.

Lemma run_v2_keeps (ops : list Ops.op_v2) (b : BridgeV2.bridge) :
  Ops.keeps_counters_v2 b (Ops.run_v2 lower b ops).
Proof.
  revert b. induction ops as [|o ops IH]; intros b.
  - done.
  - unfold Ops.run_v2. cbn [foldl]. unfold Ops.keeps_counters_v2 in *.
    etrans; [apply IH | apply step_v2_keeps].
Qed.

End Steps.

(** C10.  [update_stats] adds one to the total counter and one to the
    viking counter whatever the configuration, it leaves
    [traditional_queries] alone, and so does a whole query; over any
    sequence of calls and outside changes the gap between the two counters
    and the value of [traditional_queries], in memory and as saved, stay
    what they were. *)
Theorem counters_move_together (lower : str -> str) :
  (forall b qi viking_tokens traditional_tokens saving_rate,
      let st := Bridge.stats_ b in
      let st' := Bridge.stats_ (Bridge.update_stats b qi viking_tokens
                                  traditional_tokens saving_rate).1 in
      Bridge.total_queries st' = Bridge.total_queries st + 1
      /\ Bridge.viking_queries st' = Bridge.viking_queries st + 1
      /\ Bridge.traditional_queries st' = Bridge.traditional_queries st)
  /\ (forall b qi viking_tokens traditional_tokens saving_rate,
         let st := BridgeV2.stats_ b in
         let st' := BridgeV2.stats_ (BridgeV2.update_stats b qi
                       viking_tokens traditional_tokens saving_rate) in
         BridgeV2.queries_total st' = BridgeV2.queries_total st + 1
         /\ BridgeV2.queries_viking st' = BridgeV2.queries_viking st + 1)
  /\ (forall b user_query,
         let '(b', r) := BridgeV2.query_memory lower b user_query in
         match r with
         | Ret _ =>
           BridgeV2.queries_total (BridgeV2.stats_ b')
           = BridgeV2.queries_total (BridgeV2.stats_ b) + 1
           /\ BridgeV2.queries_viking (BridgeV2.stats_ b')
              = BridgeV2.queries_viking (BridgeV2.stats_ b) + 1
         | Raise _ => b' = b
         end)
  /\ (forall b query context_type,
         let '(b', r) := Bridge.query_context lower b query context_type in
         match r with
         | Ret _ =>
           Bridge.total_queries (Bridge.stats_ b')
           = Bridge.total_queries (Bridge.stats_ b) + 1
           /\ Bridge.viking_queries (Bridge.stats_ b')
              = Bridge.viking_queries (Bridge.stats_ b) + 1
           /\ Bridge.traditional_queries (Bridge.stats_ b')
              = Bridge.traditional_queries (Bridge.stats_ b)
         | Raise _ => Ops.keeps_counters_v1 b b'
         end)
  /\ (forall ops b, Ops.keeps_counters_v1 b (Ops.run_v1 lower b ops))
  /\ (forall ops b, Ops.keeps_counters_v2 b (Ops.run_v2 lower b ops)).
Proof.
  split; [apply update_stats_counters_v1|].
  split; [apply update_stats_counters_v2|].
  split.
  { intros b user_query. unfold BridgeV2.query_memory.
    destruct (_ ≫= _) as [[[[tiers strategy] parts] l2]|e]; [|done].
    apply update_stats_counters_v2. }
  split.
  { intros b query context_type.
    pose proof (step_v1_keeps lower b (Ops.QueryContext query context_type))
      as Hk.
    cbn [Ops.step_v1] in Hk. revert Hk.
    unfold Bridge.query_context.
    destruct (Bridge.dispatch _ _ _) as [[[content|] ti]|e];
      cbn [fst]; try done.
    match goal with
    | |- context [Bridge.update_stats ?b ?qi ?x ?y ?z] =>
      pose proof (update_stats_counters_v1 b qi x y z) as H;
      destruct (Bridge.update_stats b qi x y z) as [b' r]
    end.
    cbn [fst] in *. destruct r; cbn [mbind Py.res_bind]; done. }
  split; [apply run_v1_keeps | apply run_v2_keeps].
Qed.

(** ** Retrieval *)

Lemma insert_desc_head (x : Q * file) (l : list (Q * file)) :
  exists y rest,
    BridgeV2.insert_desc x l = y :: rest
    /\ (y = x \/ head l = Some y)
    /\ (fst x <= fst y)%Q
    /\ (forall z, head l = Some z -> (fst z <= fst y)%Q).
Proof.
  destruct l as [|z r]; simpl.
  - exists x, []. repeat split; auto using Qle_refl. intros z [=].
  - destruct (decide (fst x < fst z)%Q) as [Hlt|Hge].
    + exists z, (BridgeV2.insert_desc x r).
      repeat split; auto using Qlt_le_weak.
      intros ? [= <-]. apply Qle_refl.
    + exists x, (z :: r).
      repeat split; auto using Qle_refl.
      intros ? [= <-]. by apply Qnot_lt_le.
Qed.

(** The head of [sorted(..., reverse=True)] has the largest key. *)
Lemma sorted_reverse_head (l : list (Q * file)) :
  l <> [] ->
  exists y rest,
    BridgeV2.sorted_reverse l = y :: rest
    /\ y ∈ l
    /\ (forall z, z ∈ l -> (fst z <= fst y)%Q).
Proof.
  induction l as [|x l IH]; [done|]. intros _.
  unfold BridgeV2.sorted_reverse. cbn [foldr].
  fold (BridgeV2.sorted_reverse l).
  destruct (insert_desc_head x (BridgeV2.sorted_reverse l))
    as (y & rest & Hins & Hy & Hxy & Hhd).
  exists y, rest. split; [done|].
  destruct l as [|x' l'].
  - simpl in *. destruct Hy as [->|[=]].
    split; [set_solver|].
    intros z ->%list_elem_of_singleton. apply Qle_refl.
  - destruct IH as (m & rest' & Hs & Hm & Hmax); [done|].
    rewrite Hs in Hy, Hhd. simpl in Hy, Hhd.
    assert (Hmy : (fst m <= fst y)%Q) by (by apply Hhd).
    split.
    + destruct Hy as [Hy|Hy]; [rewrite Hy; by left|].
      injection Hy as Hy. rewrite <- Hy. by right.
    + intros z [->|Hz]%elem_of_cons; [done|].
      eapply Qle_trans; [by apply Hmax | done].
Qed.

Lemma keyed_fmap (files : list file) (ks : list (Q * file)) :
  BridgeV2.keyed files = Ret ks ->
  ks.*2 = files /\ Forall (fun kf => st_mtime kf.2 = Ret kf.1) ks.
Proof.
  revert ks. induction files as [|f files IH]; intros ks; simpl.
  - intros [= <-]. by split.
  - destruct (st_mtime f) as [k|e] eqn:Hk; [|done]. cbn [mbind Py.res_bind].
    destruct (BridgeV2.keyed files) as [ks'|e]; [|done].
    cbn [mbind Py.res_bind mret Py.res_ret]. intros [= <-].
    destruct (IH ks' eq_refl) as [Hf HF].
    split; [rewrite fmap_cons; by rewrite Hf|]. constructor; done.
Qed.

(** In [OpenClawVikingBridgeV2] the file read is a candidate none of the
    others is newer than. *)
Lemma load_tier_content_v2_latest (b : BridgeV2.bridge) (t : tier)
      (files : list file) (ks : list (Q * file)) :
  BridgeV2.memory b t = Dir files ->
  files <> [] ->
  BridgeV2.keyed files = Ret ks ->
  exists mtime latest,
    latest ∈ files
    /\ st_mtime latest = Ret mtime
    /\ (forall f m, f ∈ files -> st_mtime f = Ret m -> (m <= mtime)%Q)
    /\ BridgeV2.load_tier_content b t = Ret (try_except (read latest) []).
Proof.
  intros Hdir Hne Hks.
  destruct (keyed_fmap files ks Hks) as [Hfiles Hst].
  assert (ks <> []) as Hkne by (intros ->; by subst files).
  destruct (sorted_reverse_head ks Hkne) as ([k f] & rest & Hs & Hin & Hmax).
  exists k, f.
  rewrite Forall_forall in Hst.
  split; [subst files; apply (list_elem_of_fmap_2 snd _ _ Hin)|].
  split; [apply (Hst _ Hin)|].
  split.
  - intros g m Hg Hm. subst files.
    apply list_elem_of_fmap in Hg as ([k' g'] & -> & Hg').
    specialize (Hst _ Hg'). simpl in *.
    rewrite Hm in Hst. injection Hst as ->.
    apply (Hmax _ Hg').
  - unfold BridgeV2.load_tier_content. rewrite Hdir.
    destruct files as [|f0 fs]; [done|].
    rewrite Hks. cbn [mbind Py.res_bind]. by rewrite Hs.
Qed.

(** C9, on [OpenClawVikingBridge].  With an older file listed before a
    newer one, [load_tier_content] returns the contents of the older one;
    [OpenClawVikingBridgeV2] returns the newer one's on the same
    directory. *)
Theorem load_tier_content_v1_first_listed :
  Bridge.viking Scenario.bridge_v1_two_candidates (u "memory") L1
  = Dir [Scenario.plain_file (u "2026-01-01.md") 1 (u "old overview");
         Scenario.plain_file (u "2026-01-02.md") 2 (u "new overview")]
  /\ Bridge.load_tier_content Scenario.bridge_v1_two_candidates L1
                              (u "memory")
     = Some (u "old overview")
  /\ BridgeV2.load_tier_content Scenario.bridge_v2_two_candidates L1
     = Ret (u "new overview").
Proof. repeat split. Qed.

(** C5 does not hold as stated: an [OSError] raised while the file of a
    tier is read does not reach the caller of [load_tier_content]. *)
Lemma read_error_propagates_counterexample :
  ~ (forall (b : BridgeV2.bridge) (t : tier) (f : file) (e : exn),
        BridgeV2.memory b t = Dir [f] ->
        read f = Raise e ->
        BridgeV2.load_tier_content b t = Raise e).
Proof.
  intros H.
  specialize (H Scenario.bridge_v2_unreadable_l0 L0
                Scenario.unreadable_file (OSError 5) eq_refl eq_refl).
  vm_compute in H. discriminate H.
Qed.

(** C5, as amended.  A tier whose directory is missing or lists no file
    makes [load_tier_content] return nothing ([None], resp. the empty
    string) without raising, and the loops over the tiers skip it and go
    on with the remaining tiers; an error raised while the chosen file is
    read is caught and the tier counts as absent; in
    [OpenClawVikingBridgeV2] an error of [stat] on a candidate is what
    reaches the caller. *)
Theorem absent_tier_skipped :
  (forall (b : Bridge.bridge) (t : tier) (context_type : str)
          (rest : list tier),
      (Bridge.viking b context_type t = NoDir
       \/ Bridge.viking b context_type t = Dir []
       \/ exists f fs e, Bridge.viking b context_type t = Dir (f :: fs)
                         /\ read f = Raise e) ->
      Bridge.load_tier_content b t context_type = None
      /\ Bridge.load_parts b (t :: rest) context_type
         = Bridge.load_parts b rest context_type)
  /\
  (forall (b : BridgeV2.bridge) (t : tier) (rest : list tier),
      (BridgeV2.memory b t = NoDir
       \/ BridgeV2.memory b t = Dir []
       \/ exists files ks k f others e,
            BridgeV2.memory b t = Dir files
            /\ BridgeV2.keyed files = Ret ks
            /\ BridgeV2.sorted_reverse ks = (k, f) :: others
            /\ read f = Raise e) ->
      BridgeV2.load_tier_content b t = Ret []
      /\ BridgeV2.load_parts b (t :: rest) = BridgeV2.load_parts b rest)
  /\
  (forall (b : BridgeV2.bridge) (t : tier) (rest : list tier)
          (f : file) (fs : list file) (e : exn),
      BridgeV2.memory b t = Dir (f :: fs) ->
      BridgeV2.keyed (f :: fs) = Raise e ->
      BridgeV2.load_tier_content b t = Raise e
      /\ BridgeV2.load_parts b (t :: rest) = Raise e).
Proof.
  split; [|split].
  - intros b t context_type rest H.
    assert (Bridge.load_tier_content b t context_type = None) as Hnone.
    { unfold Bridge.load_tier_content.
      destruct H as [->|[->|(f & fs & e & -> & Hr)]]; try done.
      by rewrite Hr. }
    split; [done|].
    unfold Bridge.load_parts. cbn [flat_map]. by rewrite Hnone.
  - intros b t rest H.
    assert (BridgeV2.load_tier_content b t = Ret []) as Hnone.
    { unfold BridgeV2.load_tier_content.
      destruct H as [->|[->|(files & ks & k & f & others & e
                             & -> & Hks & Hs & Hr)]]; try done.
      destruct files as [|f0 fs]; [done|].
      rewrite Hks. cbn [mbind Py.res_bind]. rewrite Hs, Hr. done. }
    split; [done|].
    cbn [BridgeV2.load_parts]. rewrite Hnone. cbn [mbind Py.res_bind].
    by destruct (BridgeV2.load_parts b rest).
  - intros b t rest f fs e Hdir Hk.
    assert (BridgeV2.load_tier_content b t = Raise e) as Hraise.
    { unfold BridgeV2.load_tier_content. rewrite Hdir, Hk. done. }
    split; [done|].
    cbn [BridgeV2.load_parts]. by rewrite Hraise.
Qed.

(** C5 on a memory whose L0 file cannot be read: the answer to
    "今天的日期" (L0 and L1) is the overview alone. *)
Lemma absent_tier_skipped_witness :
  BridgeV2.load_tier_content Scenario.bridge_v2_unreadable_l0 L0 = Ret []
  /\ BridgeV2.load_parts Scenario.bridge_v2_unreadable_l0 [L0; L1]
     = Ret [u "--- L1 ---" ++ LF ++ u "overview text"]
  /\ Bridge.load_parts Scenario.bridge_v1 [L0; L1] (u "memory") = [].
Proof.
  destruct absent_tier_skipped as (H1 & H2 & _).
  destruct (H2 Scenario.bridge_v2_unreadable_l0 L0 [L1]) as [Hc Hp].
  { right. right.
    exists [Scenario.unreadable_file], [(1%Q, Scenario.unreadable_file)],
           1%Q, Scenario.unreadable_file, [], (OSError 5).
    repeat split; reflexivity. }
  split; [exact Hc|]. split; [rewrite Hp; reflexivity|].
  destruct (H1 Scenario.bridge_v1 L0 (u "memory") [L1]) as [_ Hq].
  { left. reflexivity. }
  rewrite Hq. reflexivity.
Defined.

(** ** Cost *)

Lemma join_cons_len (sep p : str) (rest : list str) :
  len (join sep (p :: rest))
  = len p + (if bool_decide (rest = []) then 0
             else len sep + len (join sep rest)).
Proof.
  destruct rest as [|q rest]; cbn [join].
  - rewrite bool_decide_eq_true_2 by done. lia.
  - rewrite bool_decide_eq_false_2 by done. by rewrite !len_app.
Qed.

(** Joining fewer parts gives a text that is no longer. *)
Lemma join_len_sublist (sep : str) (l1 l2 : list str) :
  sublist l1 l2 -> len (join sep l1) <= len (join sep l2).
Proof.
  induction 1 as [|p l1 l2 Hsub IH|p l1 l2 Hsub IH].
  - done.
  - rewrite !join_cons_len.
    destruct l1 as [|q1 l1'].
    + rewrite bool_decide_eq_true_2 by done.
      case_bool_decide; [lia|].
      pose proof (len_nonneg sep). pose proof (len_nonneg (join sep l2)).
      lia.
    + assert (l2 <> []) by (intros ->; by apply sublist_nil_r in Hsub).
      rewrite !bool_decide_eq_false_2 by done. lia.
  - rewrite join_cons_len.
    pose proof (len_nonneg p). pose proof (len_nonneg sep).
    pose proof (len_nonneg (join sep l2)).
    case_bool_decide as Hl2; [|lia].
    subst l2. apply sublist_nil_r in Hsub as ->.
    change (len (join sep [])) with 0. lia.
Qed.

(** Loading fewer tiers gives fewer parts, and succeeds when loading more
    does. *)
Lemma load_parts_sublist (b : BridgeV2.bridge) (ts ts' : list tier) :
  sublist ts ts' ->
  forall parts', BridgeV2.load_parts b ts' = Ret parts' ->
  exists parts, BridgeV2.load_parts b ts = Ret parts /\ sublist parts parts'.
Proof.
  induction 1 as [|t ts ts' Hsub IH|t ts ts' Hsub IH]; intros parts'.
  - intros [= <-]. by exists [].
  - cbn [BridgeV2.load_parts].
    destruct (BridgeV2.load_tier_content b t) as [c|e]; [|done].
    cbn [mbind Py.res_bind].
    destruct (BridgeV2.load_parts b ts') as [q'|e]; [|done].
    destruct (IH q' eq_refl) as (q & -> & Hq).
    cbn [mbind Py.res_bind mret Py.res_ret]. intros [= <-].
    eexists. split; [done|].
    case_bool_decide; [done|]. by constructor.
  - cbn [BridgeV2.load_parts].
    destruct (BridgeV2.load_tier_content b t) as [c|e]; [|done].
    cbn [mbind Py.res_bind].
    destruct (BridgeV2.load_parts b ts') as [q'|e]; [|done].
    destruct (IH q' eq_refl) as (q & -> & Hq).
    cbn [mbind Py.res_bind mret Py.res_ret]. intros [= <-].
    eexists. split; [done|].
    case_bool_decide; [done|]. by constructor.
Qed.

Lemma get_tier_strategy_sublist (config : dict) (query_type : str)
      (confidence : Q) (tiers : list tier) :
  BridgeV2.get_tier_strategy config query_type confidence = Ret tiers ->
  sublist tiers [L0; L1; L2].
Proof.
  unfold BridgeV2.get_tier_strategy.
  destruct (item _ _) as [qc|e]; [|done]. cbn [mbind Py.res_bind].
  repeat match goal with
         | |- context [if ?c then _ else _] => destruct c
         end;
    intros [= <-]; repeat constructor.
Qed.

Lemma select_tiers_sublist (config : dict) (qi : BridgeV2.query_info)
      (tiers : list tier) (strategy : str) :
  BridgeV2.select_tiers config qi = Ret (tiers, strategy) ->
  sublist tiers [L0; L1; L2].
Proof.
  unfold BridgeV2.select_tiers.
  destruct (item _ _) as [mode|e]; [|done]. cbn [mbind Py.res_bind].
  destruct (eq_str mode (u "traditional")).
  { intros [= <- _]. repeat constructor. }
  destruct (eq_str mode (u "viking")).
  { intros [= <- _]. repeat constructor. }
  destruct (BridgeV2.get_tier_strategy _ _ _) as [ts|e] eqn:Hs; [|done].
  cbn [mbind Py.res_bind mret Py.res_ret]. intros [= <- _].
  by eapply get_tier_strategy_sublist.
Qed.

Lemma load_parts_l2 (b : BridgeV2.bridge) (parts : list str) :
  BridgeV2.load_parts b [L0; L1; L2] = Ret parts ->
  exists l2_content, BridgeV2.load_tier_content b L2 = Ret l2_content.
Proof.
  cbn [BridgeV2.load_parts].
  destruct (BridgeV2.load_tier_content b L0); [|done].
  destruct (BridgeV2.load_tier_content b L1); [|done].
  destruct (BridgeV2.load_tier_content b L2); [|done].
  by eexists.
Qed.

Lemma estimated_tokens_mono (a b : str) :
  len a <= len b ->
  (BridgeV2.estimated_tokens a <= BridgeV2.estimated_tokens b)%Q.
Proof.
  intros H. unfold BridgeV2.estimated_tokens.
  apply Qmult_le_compat_r; [|done]. by rewrite <- Zle_Qle.
Qed.

(** C8.  Whatever the query and the configuration, if the three tiers
    can be loaded from the store then the query is answered, and the
    tokens estimated for the tiers selected are at most those estimated
    for the three tiers loaded from the same store. *)
Theorem selected_tiers_cost_at_most_all
        (lower : str -> str) (b : BridgeV2.bridge) (user_query : str)
        (tiers : list tier) (strategy : str) (all_parts : list str) :
  BridgeV2.select_tiers (BridgeV2.config b)
    (BridgeV2.classify_query lower user_query) = Ret (tiers, strategy) ->
  BridgeV2.load_parts b [L0; L1; L2] = Ret all_parts ->
  exists parts r,
    BridgeV2.load_parts b tiers = Ret parts
    /\ (BridgeV2.query_memory lower b user_query).2 = Ret r
    /\ BridgeV2.tiers_loaded (BridgeV2.metadata_ r) = tiers
    /\ BridgeV2.content r = join (LF ++ LF) parts
    /\ BridgeV2.response_tokens (BridgeV2.metadata_ r)
       = BridgeV2.estimated_tokens (join (LF ++ LF) parts)
    /\ (BridgeV2.response_tokens (BridgeV2.metadata_ r)
        <= BridgeV2.estimated_tokens (join (LF ++ LF) all_parts))%Q.
Proof.
  intros Hsel Hall.
  pose proof (select_tiers_sublist _ _ _ _ Hsel) as Hsub.
  destruct (load_parts_sublist b _ _ Hsub _ Hall) as (parts & Hparts & Hps).
  destruct (load_parts_l2 b _ Hall) as (l2 & Hl2).
  exists parts. unfold BridgeV2.query_memory.
  rewrite Hsel. cbn [mbind Py.res_bind].
  rewrite Hparts. cbn [mbind Py.res_bind].
  rewrite Hl2. cbn [mbind Py.res_bind mret Py.res_ret snd].
  eexists. split; [done|]. split; [reflexivity|].
  cbn [BridgeV2.metadata_ BridgeV2.tiers_loaded BridgeV2.content
       BridgeV2.response_tokens].
  repeat split.
  apply estimated_tokens_mono. by apply join_len_sublist.
Qed.

(** C8 on a memory without L2, for the query "检查状态" (L0 alone). *)
Lemma selected_tiers_cost_at_most_all_witness :
  BridgeV2.select_tiers (BridgeV2.config Scenario.bridge_v2_without_l2)
    (BridgeV2.classify_query Scenario.ascii_lower (u "检查状态"))
  = Ret ([L0], u "hybrid")
  /\ BridgeV2.load_parts Scenario.bridge_v2_without_l2 [L0; L1; L2]
     = Ret [u "--- L0 ---" ++ LF ++ u "summary";
            u "--- L1 ---" ++ LF ++ u "overview text"]
  /\ exists parts r,
    BridgeV2.load_parts Scenario.bridge_v2_without_l2 [L0] = Ret parts
    /\ (BridgeV2.query_memory Scenario.ascii_lower
          Scenario.bridge_v2_without_l2 (u "检查状态")).2 = Ret r
    /\ BridgeV2.tiers_loaded (BridgeV2.metadata_ r) = [L0]
    /\ BridgeV2.content r = join (LF ++ LF) parts
    /\ BridgeV2.response_tokens (BridgeV2.metadata_ r)
       = BridgeV2.estimated_tokens (join (LF ++ LF) parts)
    /\ (BridgeV2.response_tokens (BridgeV2.metadata_ r)
        <= BridgeV2.estimated_tokens
             (join (LF ++ LF)
                [u "--- L0 ---" ++ LF ++ u "summary";
                 u "--- L1 ---" ++ LF ++ u "overview text"]))%Q.
Proof.
  split; [reflexivity|]. split; [reflexivity|].
  apply (selected_tiers_cost_at_most_all Scenario.ascii_lower
           Scenario.bridge_v2_without_l2 (u "检查状态") [L0] (u "hybrid")).
  - reflexivity.
  - reflexivity.
Defined.

(** ** Configuration *)

(** C4 does not hold as stated: a configuration with a negative
    [L0_max_chars] is loaded without an error and then used as the bound
    of the slice, and [OpenClawVikingBridgeV2] answers a file that does
    not parse with its default configuration. *)
Lemma invalid_config_accepted_counterexample :
  Summarizer.load_config (Parsed Scenario.negative_max_chars)
  = Ret Scenario.negative_max_chars
  /\ ~ (exists e, Summarizer.load_config (Parsed Scenario.negative_max_chars)
                  = Raise e)
  /\ Summarizer.max_chars Scenario.negative_max_chars (u "L0_max_chars") 100
     = Ret (JInt (-5))
  /\ Summarizer.generate_l0_summary Scenario.negative_max_chars
       (u "hello world") = Ret (u "hello wor")
  /\ BridgeV2.load_config Malformed = BridgeV2.default_config.
Proof.
  split; [reflexivity|]. split; [intros [e He]; discriminate He|].
  split; [reflexivity|]. split; [by vm_compute|reflexivity].
Qed.

(** C4, as amended.  Loading validates no value: a file that parses (to
    an object, for the two bridges) is accepted, and every value it gives
    is the value of its key in the loaded configuration, not a default.  A
    file that does not parse makes [VikingSummarizer] and
    [OpenClawVikingBridge] raise, and [OpenClawVikingBridgeV2] return its
    default configuration. *)
Theorem load_config_keeps_values :
  (forall j, Summarizer.load_config (Parsed j) = Ret j)
  /\ (forall o, Bridge.load_config (Parsed (JObj o))
                = Ret (merge Bridge.default_config o, Parsed (JObj o)))
  /\ (forall o, BridgeV2.load_config (Parsed (JObj o))
                = merge BridgeV2.default_config o)
  /\ (forall (d o : dict) k v,
         o !! k = Some v -> merge d o !! k = Some v)
  /\ Summarizer.load_config Malformed = Raise JSONDecodeError
  /\ Bridge.load_config Malformed = Raise JSONDecodeError
  /\ BridgeV2.load_config Malformed = BridgeV2.default_config.
Proof.
  repeat split.
  intros d o k v Hk. unfold merge. by apply lookup_union_Some_l.
Qed.

(** C4 on a bridge configuration whose [min_confidence] is -1. *)
Lemma load_config_keeps_values_witness :
  Scenario.negative_min_confidence !! u "query_classification"
  = Some (JObj {[ u "min_confidence" := JInt (-1) ]})
  /\ merge Bridge.default_config Scenario.negative_min_confidence
       !! u "query_classification"
     = Some (JObj {[ u "min_confidence" := JInt (-1) ]}).
Proof.
  destruct load_config_keeps_values as (_ & _ & _ & H & _).
  split; [reflexivity|].
  apply (H Bridge.default_config Scenario.negative_min_confidence).
  reflexivity.
Defined.

(** The same bound for [OpenClawVikingBridge], in each of its modes. *)
Lemma load_parts_v1_sublist (b : Bridge.bridge) (ts ts' : list tier)
      (context_type : str) :
  sublist ts ts' ->
  sublist (Bridge.load_parts b ts context_type)
          (Bridge.load_parts b ts' context_type).
Proof.
  unfold Bridge.load_parts.
  induction 1 as [|t ts ts' Hsub IH|t ts ts' Hsub IH]; cbn [flat_map].
  - done.
  - by apply sublist_app.
  - by apply sublist_inserts_l.
Qed.

Lemma hybrid_tiers_sublist (config : dict) (qi : Bridge.query_info)
      (ts : list tier) (strategy : str) :
  Bridge.hybrid_tiers config qi = Ret (ts, strategy) ->
  sublist ts [L0; L1; L2].
Proof.
  unfold Bridge.hybrid_tiers.
  destruct (Bridge.min_confidence _) as [th|e]; [|done].
  cbn [mbind Py.res_bind].
  repeat match goal with
         | |- context [if ?c then _ else _] => destruct c
         end;
    intros [= <- _]; repeat constructor.
Qed.

Lemma dispatch_cost_v1 (b : Bridge.bridge) (qi : Bridge.query_info)
      (context_type content : str) (ti : Bridge.tier_info) :
  Bridge.dispatch b qi context_type = Ret (Some content, ti) ->
  len content
  <= len (join (LF ++ LF) (Bridge.load_parts b [L0; L1; L2] context_type)).
Proof.
  unfold Bridge.dispatch.
  destruct (item _ _) as [mode|e]; [|done]. cbn [mbind Py.res_bind].
  destruct (eq_str mode (u "viking_only")).
  { unfold Bridge.query_viking_only. intros [= <- _].
    apply join_len_sublist, load_parts_v1_sublist.
    repeat match goal with
           | |- context [if ?c then _ else _] => destruct c
           end; repeat constructor. }
  destruct (eq_str mode (u "traditional")).
  { unfold Bridge.query_traditional. intros [= Hc _].
    destruct content as [|c r]; [apply len_nonneg|].
    apply (join_len_sublist (LF ++ LF) [c :: r]).
    unfold Bridge.load_parts. cbn [flat_map]. rewrite Hc. cbn [Bridge.present].
    rewrite app_nil_r. do 2 apply sublist_inserts_l. done. }
  unfold Bridge.query_hybrid.
  destruct (Bridge.hybrid_tiers _ _) as [[ts strategy]|e] eqn:Hts; [|done].
  cbn [mbind Py.res_bind mret Py.res_ret]. intros [= <- _].
  apply join_len_sublist, load_parts_v1_sublist.
  by eapply hybrid_tiers_sublist.
Qed.

(** * Further properties of the code *)

(** ** The summarizer, continued *)

Section SummarizerMore.

Import Summarizer.

Variable isdecimal isword : char -> bool.
Variable fold_extra : char -> char -> bool.

(** X1.  Whatever the text, the L1 overview is produced and is no longer
    than the configured [L1_max_chars], for any integer bound [n >= 0]
    (500 when the configuration names none). *)
Theorem generate_l1_overview_bounded (config : json) (text : str) (n : Z) :
  max_chars config (u "L1_max_chars") 500 = Ret (JInt n) ->
  0 <= n ->
  exists overview,
    generate_l1_overview isdecimal isword fold_extra config text
    = Ret overview
    /\ len overview <= n.
Proof.
  intros Hmax Hn. unfold generate_l1_overview.
  destruct (sections_scan _ _ _) as [sections0 current_section].
  cbn zeta. rewrite Hmax. cbn [mbind Py.res_bind slice_upto].
  eexists. split; [reflexivity|]. by apply slice_to_len.
Qed.

Lemma key_points_scan_spec (max_points : Z) (lines key_points : list str) :
  exists added,
    key_points_scan isdecimal isword fold_extra max_points lines key_points
    = key_points ++ added
    /\ sublist added (map strip lines)
    /\ Forall (fun p => 10 <= len p
                        /\ is_important isdecimal isword fold_extra p
                           = true) added
    /\ len added <= Z.max 1 (max_points - len key_points).
Proof.
  revert key_points.
  induction lines as [|raw rest IH]; intros key_points; cbn [key_points_scan].
  - exists []. rewrite app_nil_r. repeat split; [done|constructor|].
    change (len (@nil str)) with 0. lia.
  - cbn zeta.
    destruct (bool_decide (strip raw = []) || (len (strip raw) <? 10))
      eqn:Hshort.
    { destruct (IH key_points) as (added & -> & Hsub & Hall & Hlen).
      exists added. repeat split; try done. cbn [map]. by constructor. }
    apply orb_false_elim in Hshort as [_ Hlen10].
    apply Z.ltb_ge in Hlen10.
    destruct (is_important _ _ _ (strip raw)) eqn:Himp.
    2:{ destruct (IH key_points) as (added & -> & Hsub & Hall & Hlen).
        exists added. repeat split; try done. cbn [map]. by constructor. }
    destruct (len (key_points ++ [strip raw]) >=? max_points) eqn:Hfull.
    + exists [strip raw]. repeat split.
      * cbn [map]. constructor. apply sublist_nil_l.
      * constructor; [done|constructor].
      * change (len [strip raw]) with 1. lia.
    + destruct (IH (key_points ++ [strip raw]))
        as (added & -> & Hsub & Hall & Hlen).
      exists (strip raw :: added). rewrite <- app_assoc. repeat split.
      * cbn [map]. by constructor.
      * constructor; done.
      * rewrite Z.geb_leb in Hfull. apply Z.leb_gt in Hfull.
        rewrite len_app in Hfull, Hlen.
        change (len [strip raw]) with 1 in *.
        change (len (strip raw :: added)) with (Z.of_nat (S (length added))).
        unfold len in *. lia.
Qed.

(** X2.  The key points are stripped lines of the text taken in
    document order, each at least 10 characters long and matching one of
    the patterns; there are at most [max_points] of them, and at most one
    when [max_points] is below 1 (the count is tested after a point has
    been taken). *)
Theorem extract_key_points_spec (text : str) (max_points : Z) :
  let key_points :=
    extract_key_points isdecimal isword fold_extra text max_points in
  sublist key_points (map strip (split LF (strip text)))
  /\ Forall (fun p => 10 <= len p
                      /\ is_important isdecimal isword fold_extra p = true)
            key_points
  /\ len key_points <= Z.max 1 max_points.
Proof.
  cbn zeta. unfold extract_key_points.
  destruct (key_points_scan_spec max_points (split LF (strip text)) [])
    as (added & -> & Hsub & Hall & Hlen).
  cbn [app]. repeat split; try done.
  change (len (@nil str)) with 0 in Hlen. lia.
Qed.

End SummarizerMore.

(** X3.  A bound that is not an integer, a boolean or null (a string, a
    float, an array, an object) passes [load_config] and makes
    [generate_l0_summary] raise [TypeError] on every text. *)
Theorem generate_l0_summary_bad_bound (config bound : json) (text : str) :
  Summarizer.max_chars config (u "L0_max_chars") 100 = Ret bound ->
  match bound with
  | JStr _ | JFloat _ | JArr _ | JObj _ => True
  | _ => False
  end ->
  Summarizer.load_config (Parsed config) = Ret config
  /\ Summarizer.generate_l0_summary config text = Raise TypeError.
Proof.
  intros Hmax Hbad. split; [done|].
  unfold Summarizer.generate_l0_summary.
  destruct (Summarizer.l0_scan _ _ _) as [title first_content].
  rewrite Hmax. by destruct bound.
Qed.

Lemma generate_l0_summary_bad_bound_witness :
  Summarizer.load_config (Parsed Scenario.string_max_chars)
  = Ret Scenario.string_max_chars
  /\ Summarizer.generate_l0_summary Scenario.string_max_chars (u "hello")
     = Raise TypeError.
Proof.
  apply (generate_l0_summary_bad_bound Scenario.string_max_chars
           (JStr (u "100")) (u "hello")).
  - reflexivity.
  - exact I.
Defined.

Lemma generate_l1_overview_bounded_witness :
  exists overview,
    Summarizer.generate_l1_overview (fun _ => false) (fun _ => false)
      (fun _ _ => false) Summarizer.default_config Scenario.report
    = Ret overview
    /\ len overview <= 500.
Proof.
  apply (generate_l1_overview_bounded (fun _ => false) (fun _ => false)
           (fun _ _ => false) Summarizer.default_config Scenario.report 500).
  - reflexivity.
  - lia.
Defined.

(** ** The classifier of [OpenClawVikingBridge], continued *)

Lemma max_by_value_first_max (l : list (str * Q)) (best : str * Q) :
  exists pre post,
    best :: l = pre ++ Bridge.max_by_value best l :: post
    /\ Forall (fun x => (snd x < snd (Bridge.max_by_value best l))%Q) pre
    /\ Forall (fun x => (snd x <= snd (Bridge.max_by_value best l))%Q) post.
Proof.
  revert best. induction l as [|x l IH]; intros best; cbn [Bridge.max_by_value].
  - exists [], []. by repeat split.
  - destruct (Qlt_le_dec (snd best) (snd x)) as [Hlt|Hle].
    + destruct (IH x) as (pre & post & Heq & Hpre & Hpost).
      exists (best :: pre), post. rewrite Heq. split; [done|].
      split; [|done]. constructor; [|done].
      destruct pre as [|p pre'].
      * injection Heq as Heq _. by rewrite <- Heq.
      * injection Heq as -> _. apply Forall_cons in Hpre as [Hp _].
        by eapply Qlt_trans.
    + destruct (IH best) as (pre & post & Heq & Hpre & Hpost).
      destruct pre as [|p pre'].
      * injection Heq as Heq Hl. exists [], (x :: post).
        split; [cbn [app]; by rewrite <- Heq, <- Hl|]. split; [done|].
        constructor; [by rewrite <- Heq|done].
      * injection Heq as -> Hl. exists (p :: x :: pre'), post.
        split; [cbn [app]; do 2 f_equal; exact Hl|]. split; [|done].
        apply Forall_cons in Hpre as [Hp Hpre].
        constructor; [done|]. constructor; [|done].
        by eapply Qle_lt_trans.
Qed.

Lemma sum_values_app (a b : list (str * Q)) :
  Bridge.sum_values (a ++ b) == Bridge.sum_values a + Bridge.sum_values b.
Proof.
  unfold Bridge.sum_values.
  induction a as [|x a IH]; cbn [app foldr].
  - ring.
  - rewrite IH. ring.
Qed.

Lemma sum_values_nonneg (l : list (str * Q)) :
  Forall (fun x => (0 < snd x)%Q) l -> (0 <= Bridge.sum_values l)%Q.
Proof.
  induction 1 as [|x l Hx _ IH]; [done|].
  cbn [Bridge.sum_values foldr]. fold (Bridge.sum_values l).
  apply Qlt_le_weak in Hx.
  change 0%Q with (0 + 0)%Q. by apply Qplus_le_compat.
Qed.

Lemma sum_values_le (l : list (str * Q)) (s : Q) :
  Forall (fun x => (snd x <= s)%Q) l ->
  (Bridge.sum_values l <= inject_Z (len l) * s)%Q.
Proof.
  induction 1 as [|x l Hx _ IH].
  - change (Bridge.sum_values []) with 0%Q.
    change (len (@nil (str * Q))) with 0. rewrite Qmult_0_l. apply Qle_refl.
  - cbn [Bridge.sum_values foldr]. fold (Bridge.sum_values l).
    replace (len (x :: l)) with (1 + len l) by (unfold len; cbn [length]; lia).
    rewrite inject_Z_plus, Qmult_plus_distr_l, Qmult_1_l.
    by apply Qplus_le_compat.
Qed.

Section ClassifyMore.

Variable lower : str -> str.

(** The scores kept by [classify_query]: positive, at most four, under the
    names of the table. *)
Lemma type_scores_table (query : str) :
  let ts := Bridge.type_scores (Bridge.classify_query lower query) in
  Forall (fun x => (0 < snd x)%Q
                   /\ fst x ∈ [u "factual"; u "creative";
                               u "administrative"; u "analytical"]) ts
  /\ len ts <= 4.
Proof.
  cbn zeta. unfold Bridge.classify_query.
  set (scored := map _ Bridge.type_patterns).
  assert (Forall (fun x => fst x ∈ [u "factual"; u "creative";
                                    u "administrative"; u "analytical"])
                 scored) as Hnames.
  { unfold scored, Bridge.type_patterns. cbn [map fst].
    repeat constructor. }
  assert (length scored = 4%nat) as Hlen by done.
  clearbody scored.
  assert (Forall (fun x => (0 < snd x)%Q
                   /\ fst x ∈ [u "factual"; u "creative";
                               u "administrative"; u "analytical"])
                 (filter (fun x => (0 < snd x)%Q) scored)
          /\ len (filter (fun x => (0 < snd x)%Q) scored) <= 4) as H.
  { split.
    - apply Forall_forall. intros x [Hpos Hin]%list_elem_of_filter.
      split; [done|]. rewrite Forall_forall in Hnames. by apply Hnames.
    - pose proof (length_filter (fun x => (0 < snd x)%Q) scored).
      unfold len. lia. }
  destruct (filter _ scored) as [|first others]; [|exact H].
  split; [constructor|]. done.
Qed.

Lemma classify_first_maximum_aux (query : str) :
  let qi := Bridge.classify_query lower query in
  Bridge.type_scores qi <> [] ->
  exists pre score post,
    Bridge.type_scores qi = pre ++ (Bridge.primary_type qi, score) :: post
    /\ Forall (fun x => (snd x < score)%Q) pre
    /\ Forall (fun x => (snd x <= score)%Q) post
    /\ (0 < score)%Q
    /\ Bridge.confidence qi
       == score / Bridge.sum_values (Bridge.type_scores qi).
Proof.
  cbn zeta. pose proof (type_scores_table query) as [Hpos _].
  cbn zeta in Hpos. revert Hpos. unfold Bridge.classify_query.
  destruct (filter _ _) as [|first others] eqn:Hts; [done|].
  cbn [Bridge.type_scores Bridge.primary_type Bridge.confidence].
  intros Hpos _.
  destruct (max_by_value_first_max others first)
    as (pre & post & Heq & Hpre & Hpost).
  set (best := Bridge.max_by_value first others) in *.
  assert (0 < snd best)%Q as Hbest.
  { rewrite Forall_forall in Hpos. apply Hpos.
    rewrite Heq. apply elem_of_app. right. by left. }
  exists pre, (snd best), post. rewrite Heq at 1.
  replace (fst best, snd best) with best by by destruct best.
  repeat split; try done.
  assert (0 < Bridge.sum_values (first :: others))%Q as Htotal.
  { rewrite Heq, sum_values_app.
    cbn [Bridge.sum_values foldr]. fold (Bridge.sum_values post).
    rewrite Heq in Hpos. apply Forall_app in Hpos as [Hp1 Hp2].
    apply Forall_cons in Hp2 as [_ Hp2].
    apply (Forall_impl _ (fun x => (0 < snd x)%Q)) in Hp1; [|by intros ? []].
    apply (Forall_impl _ (fun x => (0 < snd x)%Q)) in Hp2; [|by intros ? []].
    pose proof (sum_values_nonneg _ Hp1). pose proof (sum_values_nonneg _ Hp2).
    lra. }
  destruct (Qeq_bool _ 0) eqn:Hz; [|reflexivity].
  apply Qeq_bool_iff in Hz. rewrite Hz in Htotal. by apply Qlt_irrefl in Htotal.
Qed.

(** X4.  When some keyword matched, the primary type is the first type,
    in the order of the table, whose score is the largest: the types
    before it in [type_scores] score strictly less, those after it at
    most as much; the confidence is its share of the sum of the scores,
    which are all positive. *)
Theorem classify_query_first_maximum (query : str) :
  let qi := Bridge.classify_query lower query in
  Bridge.type_scores qi <> [] ->
  exists pre score post,
    Bridge.type_scores qi = pre ++ (Bridge.primary_type qi, score) :: post
    /\ Forall (fun x => (0 < snd x < score)%Q) pre
    /\ Forall (fun x => (0 < snd x <= score)%Q) post
    /\ (0 < score)%Q
    /\ Bridge.confidence qi
       == score / Bridge.sum_values (Bridge.type_scores qi).
Proof.
  cbn zeta. intros Hne.
  destruct (classify_first_maximum_aux query Hne)
    as (pre & score & post & Heq & Hpre & Hpost & Hpos & Hconf).
  destruct (type_scores_table query) as [Hall _].
  cbn zeta in Heq, Hconf, Hall.
  exists pre, score, post. split; [exact Heq|].
  rewrite Heq in Hall. apply Forall_app in Hall as [Hp1 Hp2].
  apply Forall_cons in Hp2 as [_ Hp2].
  split; [|split; [|by split]].
  - rewrite Forall_forall in Hp1, Hpre. apply Forall_forall.
    intros x Hx. split; [by apply Hp1|by apply Hpre].
  - rewrite Forall_forall in Hp2, Hpost. apply Forall_forall.
    intros x Hx. split; [by apply Hp2|by apply Hpost].
Qed.

End ClassifyMore.

Section ClassifyBounds.

Variable lower : str -> str.

Lemma primary_type_in_table (query : str) :
  Bridge.primary_type (Bridge.classify_query lower query)
  ∈ [u "factual"; u "creative"; u "administrative"; u "analytical"].
Proof.
  destruct (Bridge.type_scores (Bridge.classify_query lower query))
    as [|first others] eqn:Hts.
  - revert Hts. unfold Bridge.classify_query.
    destruct (filter _ _) as [|f o]; [|done]. intros _. by left.
  - destruct (classify_first_maximum_aux lower query)
      as (pre & score & post & Heq & _).
    { cbn zeta. by rewrite Hts. }
    destruct (type_scores_table lower query) as [Hall _].
    cbn zeta in Heq, Hall. rewrite Forall_forall in Hall.
    apply (Hall (Bridge.primary_type (Bridge.classify_query lower query),
                 score)).
    rewrite Heq. apply elem_of_app. right. by left.
Qed.

(** X5.  Whatever the query, the primary type is one of the four types of
    the table and the confidence lies between 1/4 and 1. *)
Theorem classify_query_confidence_bounds (query : str) :
  let qi := Bridge.classify_query lower query in
  Bridge.primary_type qi ∈ [u "factual"; u "creative"; u "administrative";
                            u "analytical"]
  /\ (1 # 4 <= Bridge.confidence qi)%Q
  /\ (Bridge.confidence qi <= 1)%Q.
Proof.
  cbn zeta.
  destruct (Bridge.type_scores (Bridge.classify_query lower query))
    as [|first others] eqn:Hts.
  - revert Hts. unfold Bridge.classify_query.
    destruct (filter _ _) as [|f o]; [|done]. intros _.
    cbn [Bridge.primary_type Bridge.confidence].
    split; [by left|]. split; by vm_compute.
  - destruct (classify_first_maximum_aux lower query)
      as (pre & score & post & Heq & Hpre & Hpost & Hpos & Hconf).
    { cbn zeta. by rewrite Hts. }
    cbn zeta in Heq, Hconf.
    destruct (type_scores_table lower query) as [Hall Hlen].
    cbn zeta in Hall, Hlen.
    set (qi := Bridge.classify_query lower query) in *.
    set (ts := Bridge.type_scores qi) in *.
    split.
    { rewrite Forall_forall in Hall.
      apply (Hall (Bridge.primary_type qi, score)).
      rewrite Heq. apply elem_of_app. right. by left. }
    assert (Forall (fun x => (snd x <= score)%Q) ts) as Hle.
    { rewrite Heq. apply Forall_app. split.
      - eapply Forall_impl; [exact Hpre|]. intros x. apply Qlt_le_weak.
      - constructor; [apply Qle_refl|done]. }
    assert (score <= Bridge.sum_values ts)%Q as Hge.
    { rewrite Heq, sum_values_app.
      cbn [Bridge.sum_values foldr snd]. fold (Bridge.sum_values post).
      rewrite Heq in Hall. apply Forall_app in Hall as [Hp1 Hp2].
      apply Forall_cons in Hp2 as [_ Hp2].
      apply (Forall_impl _ (fun x => (0 < snd x)%Q)) in Hp1;
        [|by intros ? []].
      apply (Forall_impl _ (fun x => (0 < snd x)%Q)) in Hp2;
        [|by intros ? []].
      pose proof (sum_values_nonneg _ Hp1).
      pose proof (sum_values_nonneg _ Hp2). lra. }
    assert (Bridge.sum_values ts <= 4 * score)%Q as Hfour.
    { eapply Qle_trans; [by apply sum_values_le|].
      apply Qmult_le_compat_r; [|by apply Qlt_le_weak].
      change 4%Q with (inject_Z 4). by rewrite <- Zle_Qle. }
    assert (0 < Bridge.sum_values ts)%Q as Htotal by lra.
    rewrite Hconf. split.
    + apply Qle_shift_div_l; [done|]. lra.
    + apply Qle_shift_div_r; [done|]. lra.
Qed.

Lemma score_of_question_only (query q_type : str) (patterns : list str) :
  any_in patterns (lower query) = false ->
  Bridge.has_question_mark query = true ->
  Bridge.score_of query (lower query) q_type patterns
  = if str_eqb q_type (u "factual") then (inject_Z 0 + (1 # 2))%Q
    else inject_Z 0.
Proof.
  intros Hp Hq. unfold Bridge.score_of.
  rewrite (any_in_filter _ _ Hp), Hq, andb_true_r. done.
Qed.

(** X6.  A query with a question mark and none of the keywords is
    [factual] with confidence 1, and in hybrid mode it gets L0 and L1
    under every [min_confidence] up to 1. *)
Theorem classify_query_bare_question (query : str) :
  any_in Scenario.keywords_v1 (lower query) = false ->
  Bridge.has_question_mark query = true ->
  let qi := Bridge.classify_query lower query in
  Bridge.primary_type qi = u "factual"
  /\ Bridge.type_scores qi = [(u "factual", (inject_Z 0 + (1 # 2))%Q)]
  /\ Bridge.confidence qi == 1
  /\ forall (config : dict) (th : Q),
      Bridge.min_confidence config = Ret th ->
      (th <= 1)%Q ->
      Bridge.hybrid_tiers config qi = Ret ([L0; L1], u "hybrid_factual").
Proof.
  intros Hk Hq. unfold Scenario.keywords_v1, Bridge.type_patterns in Hk.
  cbn [flat_map snd] in Hk.
  rewrite !any_in_app in Hk.
  apply orb_false_elim in Hk as [H1 Hk].
  apply orb_false_elim in Hk as [H2 Hk].
  apply orb_false_elim in Hk as [H3 Hk].
  apply orb_false_elim in Hk as [H4 _].
  cbn zeta.
  assert (Bridge.classify_query lower query
          = {| Bridge.query := query;
               Bridge.primary_type := u "factual";
               Bridge.confidence := 2 # 2;
               Bridge.type_scores :=
                 [(u "factual", (inject_Z 0 + (1 # 2))%Q)] |}) as ->.
  { unfold Bridge.classify_query, Bridge.type_patterns.
    cbn [map fst snd].
    rewrite !score_of_question_only by done.
    reflexivity. }
  cbn [Bridge.primary_type Bridge.type_scores Bridge.confidence].
  repeat split.
  intros config th Hth Hle. unfold Bridge.hybrid_tiers.
  rewrite Hth. cbn [mbind Py.res_bind Bridge.confidence].
  destruct (Qlt_le_dec (2 # 2) th) as [Hlt|_]; [|done].
  exfalso. apply (Qlt_not_le _ _ Hlt).
  eapply Qle_trans; [exact Hle|]. by vm_compute.
Qed.

(** X7.  In hybrid mode, a query classified with a confidence that is not
    below [min_confidence] is given L2 exactly when its primary type is
    [creative]; L0 is always among its tiers. *)
Theorem hybrid_confident_full_content (query : str) (config : dict)
        (th : Q) :
  let qi := Bridge.classify_query lower query in
  Bridge.min_confidence config = Ret th ->
  (th <= Bridge.confidence qi)%Q ->
  exists tiers strategy,
    Bridge.hybrid_tiers config qi = Ret (tiers, strategy)
    /\ (L2 ∈ tiers <-> Bridge.primary_type qi = u "creative")
    /\ L0 ∈ tiers.
Proof.
  cbn zeta. intros Hth Hle.
  pose proof (primary_type_in_table query) as Htype.
  unfold Bridge.hybrid_tiers. rewrite Hth. cbn [mbind Py.res_bind].
  destruct (Qlt_le_dec _ th) as [Hlt|_].
  { exfalso. by apply (Qlt_not_le _ _ Hlt). }
  set (t := Bridge.primary_type _) in *. clearbody t.
  assert (L2 ∉ [L0]) as HnL0.
  { intros HL. apply elem_of_cons in HL as [HL|HL]; [done|].
    by apply elem_of_nil in HL. }
  assert (L2 ∉ [L0; L1]) as HnL01.
  { intros HL. apply elem_of_cons in HL as [HL|HL]; [done|].
    apply elem_of_cons in HL as [HL|HL]; [done|].
    by apply elem_of_nil in HL. }
  apply elem_of_cons in Htype as [-> | Htype];
    [|apply elem_of_cons in Htype as [-> | Htype];
      [|apply elem_of_cons in Htype as [-> | Htype];
        [|apply elem_of_cons in Htype as [-> | Htype];
          [|by apply elem_of_nil in Htype]]]].
  - exists [L0; L1], (u "hybrid_factual").
    split; [reflexivity|]. split; [|by left].
    split; [intros HL; by destruct (HnL01 HL)|done].
  - exists [L0; L1; L2], (u "hybrid_creative").
    split; [reflexivity|]. split; [|by left].
    split; [done|]. intros _. repeat constructor.
  - exists [L0], (u "hybrid_admin").
    split; [reflexivity|]. split; [|by left].
    split; [intros HL; by destruct (HnL0 HL)|done].
  - exists [L0; L1], (u "hybrid_factual").
    split; [reflexivity|]. split; [|by left].
    split; [intros HL; by destruct (HnL01 HL)|done].
Qed.

End ClassifyBounds.

(** ** [OpenClawVikingBridgeV2], continued *)

Lemma load_config_v2_keeps_defaults (config_file : json_file json)
      (k : str) (v : json) :
  BridgeV2.default_config !! k = Some v ->
  is_Some (BridgeV2.load_config config_file !! k).
Proof.
  intros Hk. unfold BridgeV2.load_config.
  destruct (exists_ config_file); [|by eexists].
  destruct (json_load config_file) as [user_config|e]; [|by eexists].
  cbn [mbind Py.res_bind].
  destruct user_config; cbn [Bridge.unpack_over try_except];
    try (by eexists).
  unfold merge. apply lookup_union_is_Some. right. by eexists.
Qed.

Lemma item_present (o : gmap str json) (k : str) (v : json) :
  o !! k = Some v -> item (JObj o) k = Ret v.
Proof. intros H. cbn [item]. by rewrite H. Qed.

Section RoutingV2.

Variable lower : str -> str.

(** X8.  Whatever the configuration file holds, the configuration that
    [load_config] returns lets the tiers of every query be selected:
    [select_tiers] raises nothing on it. *)
Theorem select_tiers_total_on_loaded_config
        (config_file : json_file json) (qi : BridgeV2.query_info) :
  exists tiers strategy,
    BridgeV2.select_tiers (BridgeV2.load_config config_file) qi
    = Ret (tiers, strategy).
Proof.
  destruct (load_config_v2_keeps_defaults config_file (u "mode")
              (JStr (u "hybrid")) eq_refl) as [mode Hmode].
  destruct (load_config_v2_keeps_defaults config_file (u "query_classifier")
              (JBool true) eq_refl) as [qc Hqc].
  pose proof (item_present _ _ _ Hmode) as Hm.
  pose proof (item_present _ _ _ Hqc) as Hq.
  unfold BridgeV2.select_tiers, BridgeV2.get_tier_strategy.
  rewrite Hm, Hq. cbn [mbind Py.res_bind].
  repeat match goal with
         | |- context [if ?c then _ else _] => destruct c
         end; by eexists _, _.
Qed.

(** The classifier gives [analytical] the confidence 0.7 and nothing
    else. *)
Lemma classify_v2_analytical (query : str) :
  BridgeV2.type (BridgeV2.classify_query lower query) = u "analytical" ->
  BridgeV2.confidence (BridgeV2.classify_query lower query) = 7 # 10.
Proof.
  unfold BridgeV2.classify_query.
  repeat match goal with
         | |- context [if ?c then _ else _] => destruct c
         end; cbn [BridgeV2.type BridgeV2.confidence]; try done;
    intros H; by vm_compute in H.
Qed.

(** X9.  The tiers selected for a classified query are [L2] alone
    (traditional mode), [L0], [L0, L1] or all three: the selection
    [L1, L2] that [get_tier_strategy] has for analytical queries above
    confidence 0.7 is never made, the classifier giving them exactly
    0.7. *)
Theorem select_tiers_outcomes (query : str) (config : dict)
        (tiers : list tier) (strategy : str) :
  BridgeV2.select_tiers config (BridgeV2.classify_query lower query)
  = Ret (tiers, strategy) ->
  tiers ∈ [[L2]; [L0; L1]; [L0]; [L0; L1; L2]]
  /\ (tiers = [L2] -> strategy = u "traditional").
Proof.
  unfold BridgeV2.select_tiers.
  destruct (item _ _) as [mode|e]; [|done]. cbn [mbind Py.res_bind].
  destruct (eq_str mode (u "traditional")).
  { intros [= <- <-]. split; [by left|done]. }
  destruct (eq_str mode (u "viking")).
  { intros [= <- <-]. split; [right; by left|done]. }
  unfold BridgeV2.get_tier_strategy.
  destruct (item _ _) as [qc|e]; [|done]. cbn [mbind Py.res_bind].
  destruct (negb (truthy qc)).
  { intros [= <- <-]. split; [right; by left|done]. }
  destruct (str_eqb _ (u "administrative")).
  { intros [= <- <-]. split; [do 2 right; by left|done]. }
  destruct (_ || _).
  { intros [= <- <-]. split; [right; by left|done]. }
  destruct (str_eqb _ (u "analytical")) eqn:Han.
  { apply bool_decide_eq_true in Han.
    rewrite (classify_v2_analytical query Han).
    intros [= <- <-]. split; [do 3 right; by left|done]. }
  destruct (str_eqb _ (u "creative")).
  { intros [= <- <-]. split; [do 3 right; by left|done]. }
  intros [= <- <-]. split; [right; by left|done].
Qed.

End RoutingV2.

Lemma select_tiers_outcomes_witness :
  [L0] ∈ [[L2]; [L0; L1]; [L0]; [L0; L1; L2]]
  /\ ([L0] = [L2] -> u "hybrid" = u "traditional").
Proof.
  apply (select_tiers_outcomes Scenario.ascii_lower (u "检查状态")
           BridgeV2.default_config [L0] (u "hybrid")).
  reflexivity.
Defined.

Lemma insert_desc_perm (x : Q * file) (l : list (Q * file)) :
  BridgeV2.insert_desc x l ≡ₚ x :: l.
Proof.
  induction l as [|y r IH]; cbn [BridgeV2.insert_desc]; [done|].
  destruct (decide _); [|done].
  rewrite IH. apply Permutation_swap.
Qed.

Lemma insert_desc_sorted (x : Q * file) (l : list (Q * file)) :
  StronglySorted (fun a b => (fst b <= fst a)%Q) l ->
  StronglySorted (fun a b => (fst b <= fst a)%Q) (BridgeV2.insert_desc x l).
Proof.
  induction 1 as [|y r Hr IH Hy]; cbn [BridgeV2.insert_desc].
  - repeat constructor.
  - destruct (decide (fst x < fst y)%Q) as [Hlt|Hge].
    + constructor; [done|].
      rewrite insert_desc_perm. constructor; [by apply Qlt_le_weak|done].
    + apply Qnot_lt_le in Hge.
      constructor; [by constructor|]. constructor; [done|].
      eapply Forall_impl; [exact Hy|]. intros z Hz. cbn beta in *.
      by apply Qle_trans with (fst y).
Qed.

Lemma sorted_reverse_perm (l : list (Q * file)) :
  BridgeV2.sorted_reverse l ≡ₚ l.
Proof.
  induction l as [|x l IH]; [done|].
  unfold BridgeV2.sorted_reverse. cbn [foldr].
  fold (BridgeV2.sorted_reverse l). by rewrite insert_desc_perm, IH.
Qed.

Lemma sorted_reverse_first_newest (pre post : list (Q * file))
      (x : Q * file) :
  Forall (fun y => (fst y < fst x)%Q) pre ->
  Forall (fun y => (fst y <= fst x)%Q) post ->
  head (BridgeV2.sorted_reverse (pre ++ x :: post)) = Some x.
Proof.
  induction pre as [|p pre IH]; intros Hpre Hpost.
  - cbn [app]. unfold BridgeV2.sorted_reverse. cbn [foldr].
    fold (BridgeV2.sorted_reverse post).
    destruct (BridgeV2.sorted_reverse post) as [|y r] eqn:Hs; [done|].
    cbn [BridgeV2.insert_desc].
    destruct (decide (fst x < fst y)%Q) as [Hlt|_]; [|done].
    exfalso. apply (Qlt_not_le _ _ Hlt).
    rewrite Forall_forall in Hpost. apply Hpost.
    rewrite <- (sorted_reverse_perm post), Hs. by left.
  - apply Forall_cons in Hpre as [Hp Hpre].
    cbn [app]. unfold BridgeV2.sorted_reverse. cbn [foldr].
    fold (BridgeV2.sorted_reverse (pre ++ x :: post)).
    specialize (IH Hpre Hpost).
    destruct (BridgeV2.sorted_reverse (pre ++ x :: post)) as [|y r];
      [done|].
    injection IH as ->. cbn [BridgeV2.insert_desc].
    by destruct (decide (fst p < fst x)%Q).
Qed.

(** [sorted(..., reverse=True)] as modelled: the result is a
    rearrangement of the keyed files, in descending order of modification
    time, and a file that is strictly newer than every file listed before
    it and at least as new as every file listed after it comes first (of
    equally recent files the first listed wins). *)
Lemma sorted_reverse_spec (l : list (Q * file)) :
  BridgeV2.sorted_reverse l ≡ₚ l
  /\ StronglySorted (fun a b => (fst b <= fst a)%Q)
                    (BridgeV2.sorted_reverse l)
  /\ forall pre x post,
      l = pre ++ x :: post ->
      Forall (fun y => (fst y < fst x)%Q) pre ->
      Forall (fun y => (fst y <= fst x)%Q) post ->
      head (BridgeV2.sorted_reverse l) = Some x.
Proof.
  split; [apply sorted_reverse_perm|split].
  - induction l as [|x l IH]; [constructor|].
    unfold BridgeV2.sorted_reverse. cbn [foldr].
    by apply insert_desc_sorted.
  - intros pre x post -> Hpre Hpost.
    by apply sorted_reverse_first_newest.
Qed.

Section SavingsV2.

Variable lower : str -> str.



(** X11.  In traditional mode with a non-empty L2 the answer is L2 under
    its label, which makes it 11 characters longer than the baseline: the
    tokens saved are -2.75 and the saving rate is negative. *)
Theorem traditional_mode_reports_loss (b : BridgeV2.bridge)
        (user_query : str) (mode : json) (l2_content : str) :
  item (JObj (BridgeV2.config b)) (u "mode") = Ret mode ->
  eq_str mode (u "traditional") = true ->
  BridgeV2.load_tier_content b L2 = Ret l2_content ->
  l2_content <> [] ->
  exists r,
    (BridgeV2.query_memory lower b user_query).2 = Ret r
    /\ BridgeV2.content r = u "--- L2 ---" ++ LF ++ l2_content
    /\ BridgeV2.m_tokens_saved (BridgeV2.metadata_ r) == - (11 # 4)
    /\ (BridgeV2.token_saving_rate (BridgeV2.metadata_ r) < 0)%Q.
Proof.
  intros Hmode Htrad Hl2 Hne.
  unfold BridgeV2.query_memory, BridgeV2.select_tiers.
  rewrite Hmode. cbn [mbind Py.res_bind]. rewrite Htrad.
  cbn [mbind Py.res_bind mret Py.res_ret BridgeV2.load_parts].
  rewrite Hl2. cbn [mbind Py.res_bind mret Py.res_ret snd].
  rewrite bool_decide_eq_false_2 by done.
  eexists. split; [reflexivity|].
  cbn [BridgeV2.content BridgeV2.metadata_ BridgeV2.m_tokens_saved
       BridgeV2.token_saving_rate join].
  split; [reflexivity|].
  set (n := len l2_content).
  assert (0 < n) as Hn.
  { unfold n, len. destruct l2_content; [done|]. cbn [length]. lia. }
  assert (len (tier_name L2) = 2) as Hname by done.
  assert (BridgeV2.estimated_tokens
            (u "--- " ++ tier_name L2 ++ u " ---" ++ LF ++ l2_content)
          == (inject_Z n + 11) * (1 # 4)) as Hrt.
  { unfold BridgeV2.estimated_tokens. rewrite !len_app. fold n.
    rewrite Hname.
    change (len (u "--- ")) with 4. change (len (u " ---")) with 4.
    change (len LF) with 1.
    replace (4 + (2 + (4 + (1 + n)))) with (n + 11) by lia.
    by rewrite inject_Z_plus. }
  destruct (Z.ltb_spec 0 n) as [_|]; [|lia].
  assert (0 < inject_Z n)%Q as Hq.
  { change 0%Q with (inject_Z 0). by rewrite <- Zlt_Qlt. }
  assert (0 < inject_Z n * (1 # 4))%Q as Htt by lra.
  destruct (decide (0 < inject_Z n * (1 # 4))%Q) as [_|Hno]; [|done].
  rewrite Hrt. split; [ring|].
  assert (1 < (inject_Z n + 11) * (1 # 4) / (inject_Z n * (1 # 4)))%Q
    as Hgt.
  { apply Qlt_shift_div_l; [done|]. lra. }
  lra.
Qed.

End SavingsV2.


Lemma traditional_mode_reports_loss_witness :
  exists r,
    (BridgeV2.query_memory Scenario.ascii_lower
       Scenario.bridge_v2_traditional (u "hello")).2 = Ret r
    /\ BridgeV2.content r = u "--- L2 ---" ++ LF ++ u "the full text"
    /\ BridgeV2.m_tokens_saved (BridgeV2.metadata_ r) == - (11 # 4)
    /\ (BridgeV2.token_saving_rate (BridgeV2.metadata_ r) < 0)%Q.
Proof.
  apply (traditional_mode_reports_loss Scenario.ascii_lower
           Scenario.bridge_v2_traditional (u "hello")
           (JStr (u "traditional")) (u "the full text")).
  - reflexivity.
  - reflexivity.
  - reflexivity.
  - vm_compute. discriminate.
Defined.

(** ** [OpenClawVikingBridge], continued *)

Lemma merge_lookup_r (d o : gmap str json) (k : str) :
  o !! k = None -> merge d o !! k = d !! k.
Proof. intros H. unfold merge. by apply lookup_union_r. Qed.

Lemma merge_lookup_l (d o : gmap str json) (k : str) (v : json) :
  o !! k = Some v -> merge d o !! k = Some v.
Proof. intros H. unfold merge. by apply lookup_union_Some_l. Qed.

Section ErrorsV1.

Variable lower : str -> str.

(** X12.  The user's configuration replaces whole sections of the
    default: a file that has a [query_classification] section without
    [min_confidence] (and does not choose another mode) is loaded without
    error, and then every query raises [KeyError] before anything is
    recorded. *)
Theorem partial_section_breaks_hybrid
        (o qc : gmap str json) (b : Bridge.bridge)
        (query context_type : str) :
  o !! u "query_classification" = Some (JObj qc) ->
  qc !! u "min_confidence" = None ->
  o !! u "integration_mode" = None ->
  Bridge.load_config (Parsed (JObj o))
  = Ret (Bridge.config b, Parsed (JObj o)) ->
  Bridge.query_context lower b query context_type = (b, Raise KeyError).
Proof.
  intros Hqc Hmc Hmode Hload.
  injection Hload as Hcfg.
  assert (item (JObj (Bridge.config b)) (u "integration_mode")
          = Ret (JStr (u "hybrid"))) as Hm.
  { apply item_present. rewrite <- Hcfg.
    etrans; [by apply merge_lookup_r|reflexivity]. }
  assert (Bridge.min_confidence (Bridge.config b) = Raise KeyError) as Hth.
  { unfold Bridge.min_confidence.
    rewrite (item_present (Bridge.config b) _ (JObj qc)).
    - cbn [mbind Py.res_bind item]. by rewrite Hmc.
    - rewrite <- Hcfg. by apply merge_lookup_l. }
  unfold Bridge.query_context, Bridge.dispatch.
  rewrite Hm. cbn [mbind Py.res_bind].
  change (eq_str (JStr (u "hybrid")) (u "viking_only")) with false.
  change (eq_str (JStr (u "hybrid")) (u "traditional")) with false.
  cbn iota. unfold Bridge.query_hybrid, Bridge.hybrid_tiers.
  rewrite Hth. done.
Qed.

(** X13.  In traditional mode, when the L2 directory is missing or empty
    or its first file cannot be read, the query raises [TypeError] (the
    length of [None] is asked for) and nothing is recorded. *)
Theorem traditional_mode_without_l2 (b : Bridge.bridge)
        (query context_type : str) (mode : json) :
  item (JObj (Bridge.config b)) (u "integration_mode") = Ret mode ->
  eq_str mode (u "traditional") = true ->
  Bridge.load_tier_content b L2 context_type = None ->
  Bridge.query_context lower b query context_type = (b, Raise TypeError).
Proof.
  intros Hmode Htrad Hl2.
  assert (eq_str mode (u "viking_only") = false) as Hv.
  { destruct mode; try done. cbn [eq_str] in *.
    apply bool_decide_eq_true in Htrad as ->. done. }
  unfold Bridge.query_context, Bridge.dispatch.
  rewrite Hmode. cbn [mbind Py.res_bind]. rewrite Hv, Htrad.
  cbn [mret Py.res_ret]. unfold Bridge.query_traditional. by rewrite Hl2.
Qed.

End ErrorsV1.

(** X14.  [update_stats] records the query before it looks at the
    logging interval: with [log_interval_queries] equal to 0 it raises
    [ZeroDivisionError], the statistics in memory hold the query, and
    nothing is saved. *)
Theorem update_stats_zero_interval (b : Bridge.bridge)
        (qi : Bridge.query_info)
        (viking_tokens traditional_tokens saving_rate : Q)
        (monitoring : json) :
  item (JObj (Bridge.config b)) (u "monitoring") = Ret monitoring ->
  item monitoring (u "log_interval_queries") = Ret (JInt 0) ->
  let '(b', r) := Bridge.update_stats b qi viking_tokens traditional_tokens
                                      saving_rate in
  r = Raise ZeroDivisionError
  /\ Bridge.stats_ b' = Bridge.record_query (Bridge.stats_ b) qi
                          viking_tokens traditional_tokens saving_rate
  /\ Bridge.total_queries (Bridge.stats_ b')
     = Bridge.total_queries (Bridge.stats_ b) + 1
  /\ Bridge.stats_path b' = Bridge.stats_path b.
Proof.
  intros Hmon Hint. unfold Bridge.update_stats.
  rewrite Hmon. cbn [mbind Py.res_bind]. rewrite Hint.
  cbn [mbind Py.res_bind Bridge.divides]. done.
Qed.

(** X15.  With a non-zero integer interval [n], [update_stats] succeeds;
    when the new total is a multiple of [n] the statistics are saved and
    [load_stats] gives them back unchanged, otherwise the file is left as
    it was. *)
Theorem update_stats_periodic_save (b : Bridge.bridge)
        (qi : Bridge.query_info)
        (viking_tokens traditional_tokens saving_rate : Q)
        (monitoring : json) (n : Z) (now : str) :
  item (JObj (Bridge.config b)) (u "monitoring") = Ret monitoring ->
  item monitoring (u "log_interval_queries") = Ret (JInt n) ->
  n <> 0 ->
  let '(b', r) := Bridge.update_stats b qi viking_tokens traditional_tokens
                                      saving_rate in
  r = Ret ()
  /\ Bridge.stats_ b' = Bridge.record_query (Bridge.stats_ b) qi
                          viking_tokens traditional_tokens saving_rate
  /\ ((Bridge.total_queries (Bridge.stats_ b) + 1) mod n = 0 ->
      Bridge.load_stats now (Bridge.stats_path b')
      = Ret (Bridge.stats_ b'))
  /\ ((Bridge.total_queries (Bridge.stats_ b) + 1) mod n <> 0 ->
      Bridge.stats_path b' = Bridge.stats_path b).
Proof.
  intros Hmon Hint Hn. unfold Bridge.update_stats.
  rewrite Hmon. cbn [mbind Py.res_bind]. rewrite Hint.
  cbn [mbind Py.res_bind Bridge.divides].
  destruct (Z.eqb_spec n 0) as [|_]; [done|].
  cbn [Bridge.stats_ Bridge.record_query Bridge.total_queries].
  destruct (Z.eqb_spec ((Bridge.total_queries (Bridge.stats_ b) + 1) mod n) 0)
    as [Hz|Hnz]; repeat split; done.
Qed.

Lemma update_stats_zero_interval_witness :
  let '(b', r) :=
    Bridge.update_stats
      (Scenario.bridge_v1_with
         (merge Bridge.default_config Scenario.zero_interval))
      Scenario.some_query_info 1 4 (3 # 4) in
  r = Raise ZeroDivisionError
  /\ Bridge.stats_ b'
     = Bridge.record_query (Bridge.default_stats [])
         Scenario.some_query_info 1 4 (3 # 4)
  /\ Bridge.total_queries (Bridge.stats_ b') = 0 + 1
  /\ Bridge.stats_path b' = Missing.
Proof.
  apply (update_stats_zero_interval
           (Scenario.bridge_v1_with
              (merge Bridge.default_config Scenario.zero_interval))
           Scenario.some_query_info 1 4 (3 # 4)
           (JObj {[ u "log_interval_queries" := JInt 0 ]})).
  - reflexivity.
  - reflexivity.
Defined.

Lemma update_stats_periodic_save_witness :
  let '(b', r) :=
    Bridge.update_stats Scenario.bridge_v1 Scenario.some_query_info
                        1 4 (3 # 4) in
  r = Ret ()
  /\ Bridge.stats_ b'
     = Bridge.record_query (Bridge.default_stats [])
         Scenario.some_query_info 1 4 (3 # 4)
  /\ ((0 + 1) mod 10 = 0 ->
      Bridge.load_stats [] (Bridge.stats_path b') = Ret (Bridge.stats_ b'))
  /\ ((0 + 1) mod 10 <> 0 -> Bridge.stats_path b' = Missing).
Proof.
  apply (update_stats_periodic_save Scenario.bridge_v1
           Scenario.some_query_info 1 4 (3 # 4)
           (JObj (<[ u "enabled" := JBool true ]>
                  {[ u "log_interval_queries" := JInt 10 ]})) 10 []).
  - reflexivity.
  - reflexivity.
  - lia.
Defined.

Lemma partial_section_breaks_hybrid_witness :
  Bridge.query_context Scenario.ascii_lower
    (Scenario.bridge_v1_with
       (merge Bridge.default_config Scenario.partial_section))
    (u "hello") (u "memory")
  = (Scenario.bridge_v1_with
       (merge Bridge.default_config Scenario.partial_section),
     Raise KeyError).
Proof.
  apply (partial_section_breaks_hybrid Scenario.ascii_lower
           Scenario.partial_section {[ u "enabled" := JBool true ]}).
  - reflexivity.
  - reflexivity.
  - reflexivity.
  - reflexivity.
Defined.

Lemma traditional_mode_without_l2_witness :
  Bridge.query_context Scenario.ascii_lower
    (Scenario.bridge_v1_with
       (<[ u "integration_mode" := JStr (u "traditional") ]>
          Bridge.default_config))
    (u "hello") (u "memory")
  = (Scenario.bridge_v1_with
       (<[ u "integration_mode" := JStr (u "traditional") ]>
          Bridge.default_config),
     Raise TypeError).
Proof.
  apply (traditional_mode_without_l2 Scenario.ascii_lower _ _ _
           (JStr (u "traditional"))).
  - reflexivity.
  - reflexivity.
  - reflexivity.
Defined.

(** ** Statistics, continued *)

Lemma count_sum_bump (d : gmap str Z) (t : str) :
  Ops.count_sum (<[ t := default 0 (d !! t) + 1 ]> d) = Ops.count_sum d + 1.
Proof.
  unfold Ops.count_sum.
  destruct (d !! t) as [n|] eqn:Ht; cbn [default].
  - rewrite <- insert_delete_eq.
    rewrite map_fold_insert_L;
      [|intros; lia|apply lookup_delete_eq].
    rewrite (map_fold_delete_L _ _ t n d);
      [cbn beta; unfold id; lia|intros; lia|done].
  - rewrite map_fold_insert_L; [cbn beta; lia|intros; lia|done].
Qed.

(** X16.  Recording a query appends its entry to the history and keeps
    at most the last 100 entries ([OpenClawVikingBridge]) or 50
    ([OpenClawVikingBridgeV2]), however long the history loaded from the
    file was; it adds one to the count of the query's type, a type not
    seen before starting at 0, and leaves the other counts alone. *)
Theorem record_query_history_and_types
        (st : Bridge.stats) (qi : Bridge.query_info)
        (st2 : BridgeV2.stats) (qi2 : BridgeV2.query_info)
        (viking_tokens traditional_tokens saving_rate : Q) :
  let st' := Bridge.record_query st qi viking_tokens traditional_tokens
                                 saving_rate in
  let st2' := BridgeV2.record_query st2 qi2 viking_tokens
                                    traditional_tokens saving_rate in
  (exists older,
      Bridge.query_history st'
      = older ++ [ {| Bridge.h_query := Bridge.query qi;
                      Bridge.h_type := Bridge.primary_type qi;
                      Bridge.h_confidence := Bridge.confidence qi;
                      Bridge.h_viking_tokens := viking_tokens;
                      Bridge.h_traditional_tokens := traditional_tokens;
                      Bridge.h_saving_rate := saving_rate |} ]
      /\ suffix older (Bridge.query_history st)
      /\ len (Bridge.query_history st') <= 100)
  /\ (exists older,
         BridgeV2.performance_history st2'
         = older ++ [ {| BridgeV2.h_query :=
                           slice_to 50 (BridgeV2.original qi2);
                         BridgeV2.h_type := BridgeV2.type qi2;
                         BridgeV2.h_viking_tokens := viking_tokens;
                         BridgeV2.h_saving_rate := saving_rate |} ]
         /\ suffix older (BridgeV2.performance_history st2)
         /\ len (BridgeV2.performance_history st2') <= 50)
  /\ Bridge.query_type_distribution st' !! Bridge.primary_type qi
     = Some (default 0 (Bridge.query_type_distribution st
                          !! Bridge.primary_type qi) + 1)
  /\ (forall t, t <> Bridge.primary_type qi ->
         Bridge.query_type_distribution st' !! t
         = Bridge.query_type_distribution st !! t).
Proof.
  assert (forall {A} (n : nat) (old : list A) (e : A),
             (0 < n)%nat ->
             exists older,
               (if Z.of_nat n <? len (old ++ [e])
                then last_n n (old ++ [e]) else old ++ [e]) = older ++ [e]
               /\ suffix older old
               /\ len (if Z.of_nat n <? len (old ++ [e])
                       then last_n n (old ++ [e]) else old ++ [e])
                  <= Z.of_nat n) as Hhist.
  { intros A n old e Hn.
    destruct (Z.ltb_spec (Z.of_nat n) (len (old ++ [e]))) as [Hgt|Hle].
    - unfold last_n, len in *. rewrite length_app in *. cbn [length] in *.
      rewrite drop_app_le by lia.
      exists (drop (length old + 1 - n) old). split; [done|].
      split; [apply suffix_drop|].
      rewrite length_app, length_drop. cbn [length]. lia.
    - exists old. by repeat split. }
  cbn zeta. split; [|split; [|split]].
  - apply (Hhist _ 100%nat). lia.
  - apply (Hhist _ 50%nat). lia.
  - cbn [Bridge.record_query Bridge.query_type_distribution].
    unfold Bridge.bump. apply lookup_insert_eq.
  - intros t Ht.
    cbn [Bridge.record_query Bridge.query_type_distribution].
    unfold Bridge.bump. by apply lookup_insert_ne.
Qed.

Lemma update_stats_records_v1 (b : Bridge.bridge) (qi : Bridge.query_info)
      (viking_tokens traditional_tokens saving_rate : Q) :
  Bridge.stats_ (Bridge.update_stats b qi viking_tokens traditional_tokens
                                     saving_rate).1
  = Bridge.record_query (Bridge.stats_ b) qi viking_tokens
                        traditional_tokens saving_rate.
Proof.
  unfold Bridge.update_stats. by destruct (_ ≫= _) as [[|]|e].
Qed.

Lemma update_stats_records_v2 (b : BridgeV2.bridge)
      (qi : BridgeV2.query_info)
      (viking_tokens traditional_tokens saving_rate : Q) :
  BridgeV2.stats_ (BridgeV2.update_stats b qi viking_tokens
                                         traditional_tokens saving_rate)
  = BridgeV2.record_query (BridgeV2.stats_ b) qi viking_tokens
                          traditional_tokens saving_rate.
Proof.
  unfold BridgeV2.update_stats. by destruct (_ =? 0).
Qed.

Section TypeCounts.

Variable lower : str -> str.

(** A step leaves the statistics alone or records one query. *)
Lemma step_v1_stats (b : Bridge.bridge) (o : Ops.op_v1) :
  Bridge.stats_ (Ops.step_v1 lower b o) = Bridge.stats_ b
  \/ exists qi viking_tokens traditional_tokens saving_rate,
      Bridge.stats_ (Ops.step_v1 lower b o)
      = Bridge.record_query (Bridge.stats_ b) qi viking_tokens
                            traditional_tokens saving_rate.
Proof.
  destruct o as [query context_type|qi vt tt sr| | |viking|config];
    cbn [Ops.step_v1]; try (by left).
  - unfold Bridge.query_context.
    destruct (Bridge.dispatch _ _ _) as [[[content|] ti]|e];
      cbn [fst]; try (by left).
    right.
    match goal with
    | |- context [Bridge.update_stats ?b ?qi ?x ?y ?z] =>
      pose proof (update_stats_records_v1 b qi x y z) as H;
      destruct (Bridge.update_stats b qi x y z) as [b' r]
    end.
    by eexists _, _, _, _.
  - right. eexists _, _, _, _. apply update_stats_records_v1.
Qed.

Lemma step_v2_stats (b : BridgeV2.bridge) (o : Ops.op_v2) :
  BridgeV2.stats_ (Ops.step_v2 lower b o) = BridgeV2.stats_ b
  \/ exists qi viking_tokens traditional_tokens saving_rate,
      BridgeV2.stats_ (Ops.step_v2 lower b o)
      = BridgeV2.record_query (BridgeV2.stats_ b) qi viking_tokens
                              traditional_tokens saving_rate.
Proof.
  destruct o as [query|qi vt tt sr| | |memory|config_file];
    cbn [Ops.step_v2]; try (by left).
  - unfold BridgeV2.query_memory.
    destruct (_ ≫= _) as [[[[tiers strategy] parts] l2]|e];
      cbn [fst]; [|by left].
    right. eexists _, _, _, _. apply update_stats_records_v2.
  - right. eexists _, _, _, _. apply update_stats_records_v2.
Qed.

(** X17.  Over any sequence of calls and outside changes, the counts per
    query type grow by exactly as much as the total counter: a
    distribution that added up to the total at the start (as the default
    statistics do) adds up to it ever after, in either bridge. *)
Theorem type_counts_add_up :
  (forall ops b,
      let b' := Ops.run_v1 lower b ops in
      Bridge.total_queries (Bridge.stats_ b')
      - Ops.count_sum (Bridge.query_type_distribution (Bridge.stats_ b'))
      = Bridge.total_queries (Bridge.stats_ b)
        - Ops.count_sum (Bridge.query_type_distribution (Bridge.stats_ b)))
  /\ (forall ops b,
         let b' := Ops.run_v2 lower b ops in
         BridgeV2.queries_total (BridgeV2.stats_ b')
         - Ops.count_sum (BridgeV2.query_types (BridgeV2.stats_ b'))
         = BridgeV2.queries_total (BridgeV2.stats_ b)
           - Ops.count_sum (BridgeV2.query_types (BridgeV2.stats_ b)))
  /\ Ops.count_sum (Bridge.query_type_distribution (Bridge.default_stats []))
     = Bridge.total_queries (Bridge.default_stats [])
  /\ Ops.count_sum (BridgeV2.query_types BridgeV2.default_stats)
     = BridgeV2.queries_total BridgeV2.default_stats.
Proof.
  split; [|split; [|split; reflexivity]].
  - intros ops. induction ops as [|o ops IH]; intros b; [done|].
    cbn zeta in *. unfold Ops.run_v1 in *. cbn [foldl]. rewrite IH.
    destruct (step_v1_stats b o) as [->|(qi & vt & tt & sr & ->)]; [done|].
    cbn [Bridge.record_query Bridge.total_queries
         Bridge.query_type_distribution].
    unfold Bridge.bump. rewrite count_sum_bump. lia.
  - intros ops. induction ops as [|o ops IH]; intros b; [done|].
    cbn zeta in *. unfold Ops.run_v2 in *. cbn [foldl]. rewrite IH.
    destruct (step_v2_stats b o) as [->|(qi & vt & tt & sr & ->)]; [done|].
    cbn [BridgeV2.record_query BridgeV2.queries_total
         BridgeV2.query_types].
    unfold BridgeV2.bump. rewrite count_sum_bump. lia.
Qed.

End TypeCounts.

(** ** Strings, continued *)

Lemma slice_to_all (n : Z) (s : str) : len s <= n -> slice_to n s = s.
Proof.
  intros H. unfold slice_to, len in *.
  destruct (Z.leb_spec 0 n); [|lia].
  apply take_ge. lia.
Qed.

Lemma split_go_no_newline (cur s : str) :
  Forall (fun c => c <> 10) s ->
  split_go LF 0 cur s = [reverse cur ++ s].
Proof.
  intros H. revert cur. induction H as [|c r Hc _ IH]; intros cur.
  - cbn [split_go]. by rewrite app_nil_r.
  - cbn [split_go startswith LF].
    destruct (Z.eqb_spec 10 c) as [Heq|_]; [by destruct Hc|].
    cbn [andb]. rewrite IH. by rewrite reverse_cons, <- app_assoc.
Qed.

Lemma split_no_newline (s : str) :
  Forall (fun c => c <> 10) s -> split LF s = [s].
Proof. intros H. unfold split. by rewrite split_go_no_newline. Qed.

Lemma lstrip_visible (s : str) :
  Exists (fun c => isspace c = false) s ->
  Exists (fun c => isspace c = false) (lstrip s).
Proof.
  induction 1 as [c r Hc|c r _ IH]; cbn [lstrip].
  - rewrite Hc. by left.
  - destruct (isspace c) eqn:Hs; [done|]. by left.
Qed.

Lemma strip_visible (s : str) :
  Exists (fun c => isspace c = false) s -> strip s <> [].
Proof.
  intros H. unfold strip, rstrip.
  apply lstrip_visible in H.
  assert (Exists (fun c => isspace c = false)
                 (lstrip (reverse (lstrip s)))) as H'.
  { apply lstrip_visible. apply Exists_exists in H as (c & Hin & Hc).
    apply Exists_exists. exists c. split; [|done]. by apply elem_of_reverse. }
  intros Hnil. apply (f_equal reverse) in Hnil.
  rewrite reverse_involutive in Hnil. rewrite Hnil in H'.
  by apply Exists_nil in H'.
Qed.

Lemma replace_newline_visible (s : str) :
  Exists (fun c => isspace c = false) s ->
  Exists (fun c => isspace c = false) (replace LF (u " ") s).
Proof.
  unfold replace.
  induction 1 as [c r Hc|c r _ IH]; cbn [replace_go startswith LF].
  - destruct (Z.eqb_spec 10 c) as [<-|_]; [done|]. cbn [andb]. by left.
  - destruct ((10 =? c) && true); cbn [length Nat.sub]; by right.
Qed.

(** ** [VikingSummarizerSimple] *)

(** X18.  The L0 summary of the simple summarizer is at most 100
    characters long, and it is not empty when the first 100 characters of
    the content hold a character that is not white space. *)
Theorem simple_l0_summary_bounded (content : str) :
  len (SimpleSummarizer.generate_l0_summary content) <= 100
  /\ (Exists (fun c => isspace c = false) (slice_to 100 content) ->
      SimpleSummarizer.generate_l0_summary content <> []).
Proof.
  unfold SimpleSummarizer.generate_l0_summary.
  destruct (SimpleSummarizer.l0_scan _ _ _) as [date_info key_points].
  cbn zeta. split; [by apply slice_to_len|].
  intros Hvis. apply slice_to_nonempty; [done|].
  destruct (_ <? 40) eqn:Hlong.
  - by apply strip_visible, replace_newline_visible.
  - apply Z.ltb_ge in Hlong. intros Hnil. rewrite Hnil in Hlong.
    change (len (@nil char)) with 0 in Hlong. lia.
Qed.

Lemma simple_l0_summary_bounded_witness :
  SimpleSummarizer.generate_l0_summary (u "hello") <> [].
Proof.
  apply (simple_l0_summary_bounded (u "hello")).
  vm_compute. left. reflexivity.
Defined.

Lemma str_of_int_digit (k : Z) : 1 <= k <= 9 -> len (str_of_int k) = 1.
Proof.
  intros H.
  assert (k = 1 \/ k = 2 \/ k = 3 \/ k = 4 \/ k = 5 \/ k = 6 \/ k = 7
          \/ k = 8 \/ k = 9) as Hk by lia.
  repeat (destruct Hk as [-> | Hk]; [reflexivity|]). by subst.
Qed.

Lemma numbered_lines_len (points : list str) (i : Z) :
  0 <= i -> i + len points <= 9 ->
  len (SimpleSummarizer.numbered_lines i points) <= 86 * len points.
Proof.
  revert i. induction points as [|p points IH]; intros i Hi Hn.
  - done.
  - cbn [SimpleSummarizer.numbered_lines].
    replace (len (p :: points)) with (1 + len points) in *
      by (unfold len; cbn [length]; lia).
    pose proof (len_nonneg points).
    rewrite !len_app.
    rewrite (str_of_int_digit (i + 1)) by lia.
    change (len (u "  ")) with 2. change (len (u ". ")) with 2.
    change (len LF) with 1.
    pose proof (slice_to_len 80 p ltac:(lia)).
    specialize (IH (i + 1) ltac:(lia) ltac:(lia)). lia.
Qed.

(** X19.  The L1 overview of the simple summarizer always carries both of
    its headings, in this order and whatever the content (the empty
    content included): the heading of the key points, at most five
    numbered points, the heading of the chapters, and what is left of the
    chapter lines within 500 characters. *)
Theorem simple_l1_overview_headings (content : str) :
  exists (points : list str) (tail : str),
    len points <= 5
    /\ SimpleSummarizer.generate_l1_overview content
       = (u "关键点:" ++ LF) ++ SimpleSummarizer.numbered_lines 0 points
         ++ (u "章节:" ++ LF) ++ tail
    /\ len (SimpleSummarizer.generate_l1_overview content) <= 500.
Proof.
  unfold SimpleSummarizer.generate_l1_overview.
  destruct (SimpleSummarizer.l1_scan _ _ _ _) as [key_points chapters].
  cbn zeta.
  set (points := take 5 key_points).
  assert (len points <= 5) as Hp.
  { unfold points, len. rewrite length_take. lia. }
  pose proof (numbered_lines_len points 0 ltac:(lia) ltac:(lia)) as Hlen.
  pose proof (len_nonneg (SimpleSummarizer.numbered_lines 0 points)) as Hnn.
  exists points.
  set (body := SimpleSummarizer.numbered_lines 0 points) in *.
  set (rest := SimpleSummarizer.chapter_lines (take 3 chapters)).
  exists (take (500 - length ((u "关键点:" ++ LF) ++ body
                               ++ (u "章节:" ++ LF))) rest).
  split; [done|]. split; [|by apply slice_to_len].
  unfold slice_to. cbn [Z.leb Z.to_nat].
  replace ((u "关键点:" ++ LF) ++ body ++ (u "章节:" ++ LF) ++ rest)
    with (((u "关键点:" ++ LF) ++ body ++ (u "章节:" ++ LF)) ++ rest)
    by (by rewrite <- !app_assoc).
  rewrite take_app_ge.
  - change (Z.to_nat 500) with 500%nat. by rewrite <- !app_assoc.
  - unfold len in *. rewrite !length_app.
    change (length (u "关键点:")) with 4%nat.
    change (length (u "章节:")) with 3%nat.
    change (length LF) with 1%nat.
    change (Pos.to_nat 500) with 500%nat. lia.
Qed.

(** ** [VikingFSTester] *)

Lemma matched_types_cases (ql : str) :
  exists a b c d : bool,
    Tester.matched_types ql
    = (if a then [u "factual"] else [])
      ++ (if b then [u "creative"] else [])
      ++ (if c then [u "administrative"] else [])
      ++ (if d then [u "analytical"] else []).
Proof.
  unfold Tester.matched_types, Tester.query_types.
  rewrite !filter_cons, filter_nil. cbn [snd].
  exists (any_in [u "什么时候"; u "哪里"; u "谁"; u "是什么"; u "多少";
                  u "日期"; u "时间"] ql),
         (any_in [u "想法"; u "建议"; u "创意"; u "怎么办"; u "如何";
                  u "设计"] ql),
         (any_in [u "状态"; u "进度"; u "检查"; u "报告"; u "总结"] ql),
         (any_in [u "为什么"; u "分析"; u "原因"; u "对比"; u "优劣"] ql).
  destruct (any_in _ ql); destruct (any_in _ ql); destruct (any_in _ ql);
    destruct (any_in _ ql); reflexivity.
Qed.

Section TesterFacts.

Variable lower : str -> str.

(** X20.  The classifier of the tester returns one or two of its four
    types, without repetition; a query without keyword and question mark
    is [administrative] and is served from L0 alone; and L0 is among the
    tiers of every query except those classified [analytical] only. *)
Theorem tester_classifier_tiers (query : str) :
  let types := Tester.query_classifier lower query in
  1 <= len types <= 2
  /\ NoDup types
  /\ Forall (fun t => t ∈ [u "factual"; u "creative"; u "administrative";
                           u "analytical"]) types
  /\ (Tester.matched_types (lower query) = [] ->
      contains (u "?") query || contains (u "？") query = false ->
      types = [u "administrative"]
      /\ Tester.relevant_tiers types false = {[ L0 ]})
  /\ (L0 ∈ Tester.relevant_tiers types false \/ types = [u "analytical"])
  /\ Tester.relevant_tiers types true = {[ L0 ]}.
Proof.
  cbn zeta. unfold Tester.query_classifier.
  destruct (matched_types_cases (lower query)) as (a & b & c & d & ->).
  destruct a, b, c, d; cbn [app];
    try destruct (contains _ query || contains _ query);
    match goal with
    | |- context [take 2 ?l] =>
      let v := eval vm_compute in (take 2 l) in
      change (take 2 l) with v
    end.
  all: (split; [by vm_compute|]).
  all: (split; [refine (bool_decide_unpack _ _); by vm_compute|]).
  all: (split; [repeat constructor|]).
  all: (split;
         [intros H1 H2;
          first [ discriminate H1 | discriminate H2
                | split; [reflexivity | by vm_compute] ]|]).
  all: (split; [|by vm_compute]).
  all: first [ solve [by right]
             | solve [left; apply elem_of_list_to_set; vm_compute;
                      repeat constructor] ].
Qed.

End TesterFacts.

Lemma tester_classifier_tiers_witness :
  Tester.query_classifier Scenario.ascii_lower (u "hello")
  = [u "administrative"]
  /\ Tester.relevant_tiers
       (Tester.query_classifier Scenario.ascii_lower (u "hello")) false
     = {[ L0 ]}.
Proof.
  destruct (tester_classifier_tiers Scenario.ascii_lower (u "hello"))
    as (_ & _ & _ & H & _).
  apply H; reflexivity.
Defined.

(** ** [compress_content] *)

Section CompressFacts.

Variable isdecimal isword : char -> bool.
Variable fold_extra : char -> char -> bool.

(** X21.  [compress_content] reports a missing file before it looks at
    the tier, so also for a tier it does not know; for a file it can read
    it raises [ValueError] on any tier other than L0, L1 and L2; and for
    L2 it returns the content itself, with a compression ratio of 1, or 0
    for an empty file. *)
Theorem compress_content_errors_and_l2 (config : json) :
  (forall target_tier,
      Compress.compress_content isdecimal isword fold_extra config None
                                target_tier
      = inl Compress.FileNotFoundError)
  /\ (forall content target_tier,
         target_tier <> u "L0" -> target_tier <> u "L1" ->
         target_tier <> u "L2" ->
         Compress.compress_content isdecimal isword fold_extra config
                                   (Some (Ret content)) target_tier
         = inl Compress.ValueError)
  /\ (forall content,
         exists r,
           Compress.compress_content isdecimal isword fold_extra config
                                     (Some (Ret content)) (u "L2")
           = inr r
           /\ Compress.text r = Compress.full_content content
           /\ Compress.compressed_size r = len content
           /\ Compress.original_size r = len content
           /\ Compress.compression_ratio r
              == (if bool_decide (content = []) then 0 else 1)).
Proof.
  split; [done|]. split.
  - intros content target_tier H0 H1 H2.
    unfold Compress.compress_content, str_eqb.
    by rewrite !bool_decide_eq_false_2.
  - intros content. eexists. split; [reflexivity|].
    cbn [Compress.text Compress.compressed_size Compress.original_size
         Compress.compression_ratio].
    repeat split.
    destruct content as [|c r]; [reflexivity|].
    rewrite bool_decide_eq_false_2 by done.
    replace (0 <? len (c :: r)) with true
      by (symmetry; apply Z.ltb_lt; unfold len; cbn [length]; lia).
    field. change 0%Q with (inject_Z 0). rewrite inject_Z_injective.
    unfold len. cbn [length]. lia.
Qed.

(** X22.  A note of one line of at most 20 characters, without white
    space at its ends and not a heading, is not compressed at all: its L0
    summary under the default configuration is the note followed by
    "...", three characters longer than the note, and the compression
    ratio reported is above 1. *)
Theorem short_note_is_expanded (text : str) :
  text <> [] ->
  len text <= 20 ->
  strip text = text ->
  Forall (fun c => c <> 10) text ->
  startswith (u "# ") text = false ->
  Summarizer.generate_l0_summary Summarizer.default_config text
  = Ret (text ++ u "...")
  /\ exists r,
      Compress.compress_content isdecimal isword fold_extra
        Summarizer.default_config (Some (Ret text)) (u "L0") = inr r
      /\ Compress.compressed_size r = Compress.original_size r + 3
      /\ (1 < Compress.compression_ratio r)%Q.
Proof.
  intros Hne Hlen Hstrip Hnl Hhead.
  assert (0 < len text) as Hpos.
  { destruct text; [done|]. unfold len. cbn [length]. lia. }
  assert (Summarizer.generate_l0_summary Summarizer.default_config text
          = Ret (text ++ u "...")) as Hsum.
  { unfold Summarizer.generate_l0_summary.
    rewrite Hstrip, (split_no_newline _ Hnl).
    cbn [Summarizer.l0_scan]. rewrite Hstrip.
    rewrite (bool_decide_eq_false_2 (text = [])) by done.
    rewrite Hhead.
    change (bool_decide (@nil char = [])) with true.
    replace (len text <? 50) with true by (symmetry; apply Z.ltb_lt; lia).
    replace (20 <? len text) with false by (symmetry; apply Z.ltb_ge; lia).
    cbn [andb]. rewrite (slice_to_all 50) by lia.
    unfold Summarizer.l0_combine.
    rewrite (bool_decide_eq_false_2 (text = [])) by done.
    change (bool_decide (@nil char = [])) with true. cbn [negb andb].
    rewrite (slice_to_all 80) by lia.
    change (Summarizer.max_chars Summarizer.default_config
              (u "L0_max_chars") 100) with (Ret (JInt 100)).
    cbn [mbind Py.res_bind Summarizer.slice_upto].
    rewrite slice_to_all; [done|].
    rewrite len_app. change (len (u "...")) with 3. lia. }
  split; [exact Hsum|].
  unfold Compress.compress_content.
  change (str_eqb (u "L0") (u "L0")) with true. cbn iota. rewrite Hsum.
  eexists. split; [reflexivity|].
  cbn [Compress.compressed_size Compress.original_size
       Compress.compression_ratio].
  rewrite len_app. change (len (u "...")) with 3. split; [done|].
  replace (0 <? len text) with true by (symmetry; apply Z.ltb_lt; lia).
  assert (0 < inject_Z (len text))%Q as Hq.
  { change 0%Q with (inject_Z 0). by rewrite <- Zlt_Qlt. }
  apply Qlt_shift_div_l; [done|].
  rewrite inject_Z_plus. change (inject_Z 3) with 3%Q. lra.
Qed.

End CompressFacts.

Lemma short_note_is_expanded_witness :
  Summarizer.generate_l0_summary Summarizer.default_config (u "buy milk")
  = Ret (u "buy milk...")
  /\ exists r,
      Compress.compress_content (fun _ => false) (fun _ => false)
        (fun _ _ => false) Summarizer.default_config
        (Some (Ret (u "buy milk"))) (u "L0") = inr r
      /\ Compress.compressed_size r = Compress.original_size r + 3
      /\ (1 < Compress.compression_ratio r)%Q.
Proof.
  apply (short_note_is_expanded (fun _ => false) (fun _ => false)
           (fun _ _ => false) (u "buy milk")).
  - vm_compute. discriminate.
  - vm_compute. discriminate.
  - reflexivity.
  - vm_compute. repeat constructor; discriminate.
  - reflexivity.
Defined.

Lemma compress_content_errors_and_l2_witness :
  Compress.compress_content (fun _ => false) (fun _ => false)
    (fun _ _ => false) Summarizer.default_config (Some (Ret (u "text")))
    (u "L3")
  = inl Compress.ValueError.
Proof.
  destruct (compress_content_errors_and_l2 (fun _ => false) (fun _ => false)
              (fun _ _ => false) Summarizer.default_config) as (_ & H & _).
  apply H; vm_compute; discriminate.
Defined.

(** ** [VikingFSService] *)

(** X23.  A check of the configuration file touches nothing but the
    configuration and the time remembered: the first check never
    reloads, a later one reloads only a file that exists and is strictly
    newer than the one seen last, and checking the same file twice is the
    same as checking it once, so an edit that does not advance the
    modification time is never picked up. *)
Theorem check_config_update_spec (s : Service.service)
        (f : Service.config_file) :
  let s' := Service.check_config_update s f in
  BridgeV2.stats_ (Service.bridge_ s') = BridgeV2.stats_ (Service.bridge_ s)
  /\ BridgeV2.memory (Service.bridge_ s')
     = BridgeV2.memory (Service.bridge_ s)
  /\ (Service.last_config_mtime s = None ->
      Service.bridge_ s' = Service.bridge_ s)
  /\ (BridgeV2.config (Service.bridge_ s')
      = BridgeV2.config (Service.bridge_ s)
      \/ exists last,
          Service.last_config_mtime s = Some last
          /\ (last < Service.st_mtime f)%Q
          /\ exists_ (Service.data f) = true
          /\ BridgeV2.config (Service.bridge_ s')
             = BridgeV2.load_config (Service.data f))
  /\ Service.check_config_update s' f = s'.
Proof.
  cbn zeta. unfold Service.check_config_update.
  destruct (exists_ (Service.data f)) eqn:Hex.
  2:{ repeat split; auto. }
  cbn [Service.bridge_ Service.last_config_mtime].
  rewrite (bool_decide_eq_false_2
             (Service.st_mtime f < Service.st_mtime f)%Q)
    by apply Qlt_irrefl.
  destruct (Service.last_config_mtime s) as [last|] eqn:Hlast.
  - case_bool_decide as Hnew.
    + repeat split; try done. right. exists last. by repeat split.
    + repeat split; try done. by left.
  - repeat split; try done. by left.
Qed.

Lemma check_config_update_spec_witness :
  Service.bridge_ (Service.check_config_update Scenario.fresh_service
                     (Scenario.traditional_config_file 5))
  = Scenario.bridge_v2.
Proof.
  destruct (check_config_update_spec Scenario.fresh_service
              (Scenario.traditional_config_file 5)) as (_ & _ & H & _).
  apply H. reflexivity.
Defined.

(** ** Witnesses and consequences *)

Lemma classify_query_first_maximum_witness :
  exists pre score post,
    Bridge.type_scores (Bridge.classify_query Scenario.ascii_lower
                          (u "分析状态"))
    = pre ++ (Bridge.primary_type
                (Bridge.classify_query Scenario.ascii_lower (u "分析状态")),
              score) :: post
    /\ Forall (fun x => (0 < snd x < score)%Q) pre
    /\ Forall (fun x => (0 < snd x <= score)%Q) post
    /\ (0 < score)%Q
    /\ Bridge.confidence (Bridge.classify_query Scenario.ascii_lower
                            (u "分析状态"))
       == score / Bridge.sum_values
                    (Bridge.type_scores
                       (Bridge.classify_query Scenario.ascii_lower
                          (u "分析状态"))).
Proof.
  apply (classify_query_first_maximum Scenario.ascii_lower (u "分析状态")).
  vm_compute. discriminate.
Defined.

Lemma classify_query_bare_question_witness :
  Bridge.primary_type (Bridge.classify_query Scenario.ascii_lower
                         (u "hello?")) = u "factual"
  /\ Bridge.hybrid_tiers Bridge.default_config
       (Bridge.classify_query Scenario.ascii_lower (u "hello?"))
     = Ret ([L0; L1], u "hybrid_factual").
Proof.
  destruct (classify_query_bare_question Scenario.ascii_lower (u "hello?"))
    as (H1 & _ & _ & H4).
  - reflexivity.
  - reflexivity.
  - split; [exact H1|].
    apply (H4 Bridge.default_config (6 # 10)).
    + reflexivity.
    + vm_compute. discriminate.
Defined.

Lemma hybrid_confident_full_content_witness :
  exists tiers strategy,
    Bridge.hybrid_tiers Bridge.default_config
      (Bridge.classify_query Scenario.ascii_lower (u "检查状态"))
    = Ret (tiers, strategy)
    /\ (L2 ∈ tiers
        <-> Bridge.primary_type
              (Bridge.classify_query Scenario.ascii_lower (u "检查状态"))
            = u "creative")
    /\ L0 ∈ tiers.
Proof.
  apply (hybrid_confident_full_content Scenario.ascii_lower (u "检查状态")
           Bridge.default_config (6 # 10)).
  - reflexivity.
  - vm_compute. discriminate.
Defined.

Lemma record_query_history_and_types_witness :
  Bridge.query_type_distribution
    (Bridge.record_query (Bridge.default_stats [])
       Scenario.some_query_info 1 4 (3 # 4)) !! u "creative"
  = Bridge.query_type_distribution (Bridge.default_stats [])
      !! u "creative".
Proof.
  destruct (record_query_history_and_types (Bridge.default_stats [])
              Scenario.some_query_info BridgeV2.default_stats
              {| BridgeV2.type := u "general";
                 BridgeV2.confidence := 1 # 2;
                 BridgeV2.original := u "hello" |} 1 4 (3 # 4))
    as (_ & _ & _ & H).
  apply H. vm_compute. discriminate.
Defined.

(** X24.  Starting from the default statistics, after any non-empty
    sequence of recorded queries whose baselines add up to something
    positive, the average saving rate stored by [OpenClawVikingBridge] is
    the sum of the savings divided by the sum of the baselines. *)
Theorem average_after_recorded_queries
        (calls : list (Bridge.query_info * Q * Q * Q)) (now : str) :
  calls <> [] ->
  (0 < Ops.baseline_sum calls)%Q ->
  Bridge.average_saving_rate
    (Ops.record_all_v1 (Bridge.default_stats now) calls)
  == Ops.saved_sum calls / Ops.baseline_sum calls.
Proof.
  intros Hne Hpos.
  destruct (record_all_v1_totals calls (Bridge.default_stats now))
    as (Ht & Hs & _).
  cbn zeta in Ht, Hs.
  cbn [Bridge.default_stats Bridge.total_tokens_traditional
       Bridge.total_tokens_saved] in Ht, Hs.
  rewrite Qplus_0_l in Ht, Hs.
  rewrite (record_all_v1_average calls (Bridge.default_stats now) Hne).
  - by rewrite Ht, Hs.
  - done.
  - cbn zeta. by rewrite Ht.
Qed.

Lemma average_after_recorded_queries_witness :
  Bridge.average_saving_rate
    (Ops.record_all_v1 (Bridge.default_stats []) Scenario.two_calls)
  == Ops.saved_sum Scenario.two_calls / Ops.baseline_sum Scenario.two_calls.
Proof.
  apply (average_after_recorded_queries Scenario.two_calls []).
  - discriminate.
  - reflexivity.
Defined.

Section CostV1.

Variable lower : str -> str.

(** X25.  In each mode of [OpenClawVikingBridge], an answered query has
    no more estimated tokens than the three tiers of the same store
    joined together. *)
Theorem query_context_cost_at_most_all (b : Bridge.bridge)
        (query context_type : str) (r : Bridge.response) :
  (Bridge.query_context lower b query context_type).2 = Ret r ->
  (Bridge.response_tokens_estimated (Bridge.metadata_ r)
   <= inject_Z (len (join (LF ++ LF)
                       (Bridge.load_parts b [L0; L1; L2] context_type)))
      * (1 # 4))%Q.
Proof.
  unfold Bridge.query_context.
  destruct (Bridge.dispatch _ _ _) as [[[content|] ti]|e] eqn:Hd;
    cbn [snd]; try done.
  destruct (Bridge.update_stats _ _ _ _ _) as [b' [[]|e]];
    cbn [snd mbind Py.res_bind mret Py.res_ret]; [|done].
  intros [= <-].
  cbn [Bridge.metadata_ Bridge.response_tokens_estimated].
  apply Qmult_le_compat_r; [|done]. rewrite <- Zle_Qle.
  by eapply dispatch_cost_v1.
Qed.

End CostV1.

Lemma query_context_cost_at_most_all_witness :
  exists r,
    (Bridge.query_context Scenario.ascii_lower
       Scenario.bridge_v1_with_memory (u "检查状态") (u "memory")).2 = Ret r
    /\ (Bridge.response_tokens_estimated (Bridge.metadata_ r)
        <= inject_Z (len (join (LF ++ LF)
                            (Bridge.load_parts Scenario.bridge_v1_with_memory
                               [L0; L1; L2] (u "memory"))))
           * (1 # 4))%Q.
Proof.
  eexists. split; [reflexivity|].
  eapply (query_context_cost_at_most_all Scenario.ascii_lower
            Scenario.bridge_v1_with_memory (u "检查状态") (u "memory")).
  reflexivity.
Defined.

(** X26.  When every candidate of a tier can be examined,
    [load_tier_content] of [OpenClawVikingBridgeV2] reads the first
    listed of the most recently modified ones: the file that is strictly
    newer than all files listed before it and at least as new as all
    files listed after it; if that file cannot be read the result is the
    empty string. *)
Theorem load_tier_content_first_newest (b : BridgeV2.bridge) (t : tier)
        (kpre kpost : list (Q * file)) (mtime : Q) (f : file) :
  BridgeV2.memory b t = Dir ((kpre ++ (mtime, f) :: kpost).*2) ->
  BridgeV2.keyed ((kpre ++ (mtime, f) :: kpost).*2)
  = Ret (kpre ++ (mtime, f) :: kpost) ->
  Forall (fun y => (fst y < mtime)%Q) kpre ->
  Forall (fun y => (fst y <= mtime)%Q) kpost ->
  BridgeV2.load_tier_content b t = Ret (try_except (read f) []).
Proof.
  intros Hdir Hks Hpre Hpost.
  pose proof (sorted_reverse_first_newest kpre kpost (mtime, f) Hpre Hpost)
    as Hhead.
  unfold BridgeV2.load_tier_content. rewrite Hdir.
  destruct ((kpre ++ (mtime, f) :: kpost).*2) as [|f0 fs] eqn:Hfiles.
  { by destruct kpre. }
  rewrite Hks. cbn [mbind Py.res_bind].
  destruct (BridgeV2.sorted_reverse _) as [|[k g] rest]; [done|].
  by injection Hhead as -> ->.
Qed.

Lemma load_tier_content_first_newest_witness :
  BridgeV2.load_tier_content Scenario.bridge_v2_two_candidates L1
  = Ret (u "new overview").
Proof.
  apply (load_tier_content_first_newest Scenario.bridge_v2_two_candidates L1
           [(1%Q, Scenario.plain_file (u "2026-01-01.md") 1
                                      (u "old overview"))]
           [] 2
           (Scenario.plain_file (u "2026-01-02.md") 2 (u "new overview"))).
  - reflexivity.
  - reflexivity.
  - repeat constructor.
  - constructor.
Defined.
